(** * Two-sleeve backtest: the simulation and rebalancing engine

    A shallow embedding of [run_optimized_backtest] of
    [run_optimized_backtest.py]: the initial allocation, the regime
    classifier [detect_market_condition] and the per-date walk (dividend
    reinvestment, valuation, tolerance-banded rebalancing, snapshot).

    Conventions of the embedding.
    - Finite floats are modelled by exact rationals ([Q]); equalities on
      computed amounts are stated with [==].  A division of Python floats
      by zero raises [ZeroDivisionError]; the divisions the source guards
      ([... if x > 0 else 0]) are guarded the same way here.
    - A division that has a [numpy.float64] operand does not raise: by
      zero it gives inf or nan and the program goes on with that value.
      The two such divisions of the walk are the reinvestment of a
      dividend ([shares * dividends[date]] is a [numpy.float64]) and the
      benchmark ratio (whose divisor is read without [float(...)]).  The
      rationals have no such value: there the embedding stops with
      [NotFinite], which is not an exception, is caught by no [except],
      and says nothing about what the program does next.
    - A pandas frame is an association list from dates to the one
      element of its [Close] column, a dividend series one from dates to
      the paid amount; [.loc] on an absent date raises [KeyError],
      [.iloc] past the end raises [IndexError].  The frames have
      (Price, Ticker) columns: every read of a close for arithmetic ends
      in [.iloc[0]], and [row['Close']] without it is a one-element
      Series, not a number.
    - A Python dict is an association list in insertion order.
    - The body of the [for date in all_dates] loop runs in a state and
      exception monad whose state survives a raise: the [except] clause of
      the loop only logs and continues, so whatever was mutated before the
      raise stays mutated. *)

From Stdlib Require Import ZArith QArith Qfield Lqa Lia.
From Stdlib Require Import List String Bool Arith.
Import ListNotations.

Open Scope string_scope.
Open Scope list_scope.
Open Scope Q_scope.

(** ** Exceptions and results *)

Inductive exn : Type :=
| KeyError
| IndexError
| ZeroDivisionError
| NameError
| ValueError.

(** What ends an evaluation before its value: a Python exception, or a
    float that is inf or nan, where the embedding stops. *)
Inductive stop : Type :=
| Exn (e : exn)
| NotFinite.

Inductive result (A : Type) : Type :=
| Ok (a : A)
| Stop (s : stop).

Arguments Ok {A} a.
Arguments Stop {A} s.

Abbreviation Raise e := (Stop (Exn e)).

Definition rbind {A B : Type} (r : result A) (k : A -> result B) : result B :=
  match r with
  | Ok a => k a
  | Stop s => Stop s
  end.

Declare Scope result_scope.
Delimit Scope result_scope with result.
Notation "x <- r ;; k" := (rbind r (fun x => k))
  (at level 61, r at next level, right associativity) : result_scope.

(** ** Numbers *)

(** [x < y] on floats, as a boolean. *)
Definition Qltb (x y : Q) : bool := negb (Qle_bool y x).

(** [x / y] on Python floats, raising on a zero divisor. *)
Definition fdiv (x y : Q) : result Q :=
  if Qeq_bool y 0 then Raise ZeroDivisionError else Ok (x / y).

(** [x / y] when [x] or [y] is a [numpy.float64]: no exception; a zero
    divisor gives inf or nan. *)
Definition npdiv (x y : Q) : result Q :=
  if Qeq_bool y 0 then Stop NotFinite else Ok (x / y).

(** ** Dicts, frames and series *)

Definition date : Type := string.
Definition symbol : Type := string.

Fixpoint dict_get {A : Type} (k : string) (d : list (string * A)) : option A :=
  match d with
  | [] => None
  | (k', v) :: d' => if String.eqb k k' then Some v else dict_get k d'
  end.

(** [k in d] *)
Definition contains {A : Type} (k : string) (d : list (string * A)) : bool :=
  match dict_get k d with
  | Some _ => true
  | None => false
  end.

(** [d[k] = v]: replaces the value of an existing key in place, appends a
    new key at the end. *)
Fixpoint dict_set {A : Type} (k : string) (v : A) (d : list (string * A))
  : list (string * A) :=
  match d with
  | [] => [(k, v)]
  | (k', v') :: d' =>
      if String.eqb k k' then (k', v) :: d' else (k', v') :: dict_set k v d'
  end.

(** [d[k]] *)
Definition getitem {A : Type} (k : string) (d : list (string * A)) : result A :=
  match dict_get k d with
  | Some v => Ok v
  | None => Raise KeyError
  end.

(** A frame reduced to the one element of its [Close] column, or a
    dividend series: date to value, in index order. *)
Definition series : Type := list (date * Q).

(** [float(df.loc[date, 'Close'].iloc[0])] *)
Definition loc_close (df : series) (d : date) : result Q := getitem d df.

(** [df.iloc[i]['Close'].iloc[0]] *)
Definition iloc_close (df : series) (i : nat) : result Q :=
  match nth_error df i with
  | Some (_, p) => Ok p
  | None => Raise IndexError
  end.

(** A pandas Series of floats; [None] is an element that is inf or nan. *)
Definition Series : Type := list (option Q).

(** [df.iloc[i]['Close']], without [.iloc[0]]: the one-element Series. *)
Definition iloc_close_row (df : series) (i : nat) : result Series :=
  match nth_error df i with
  | Some (_, p) => Ok [Some p]
  | None => Raise IndexError
  end.

(** [a - b] and [a / b] on Series, element by element; the division is
    numpy's and does not raise. *)
Definition series_sub (a b : Series) : Series :=
  map (fun xy => match xy with
                 | (Some x, Some y) => Some (x - y)
                 | _ => None
                 end) (combine a b).

Definition series_div (a b : Series) : Series :=
  map (fun xy => match xy with
                 | (Some x, Some y) =>
                     if Qeq_bool y 0 then None else Some (x / y)
                 | _ => None
                 end) (combine a b).

(** [a > t] and [a < t] on a Series: a Series of booleans; [None] where
    the element is inf or nan and the rationals cannot tell. *)
Definition series_gt (a : Series) (t : Q) : list (option bool) :=
  map (option_map (fun x => negb (Qle_bool x t))) a.

Definition series_lt (a : Series) (t : Q) : list (option bool) :=
  map (option_map (fun x => negb (Qle_bool t x))) a.

(** [bool(s)], as [if s:] asks it of a Series: pandas raises
    [ValueError] (the truth value of a Series is ambiguous), whatever the
    Series holds. *)
Definition truth_value {A : Type} (s : list A) : result bool :=
  Raise ValueError.

(** [df.index.get_loc(date)] *)
Fixpoint get_loc (df : series) (d : date) : result nat :=
  match df with
  | [] => Raise KeyError
  | (d', _) :: df' =>
      if String.eqb d d' then Ok 0%nat
      else match get_loc df' d with
           | Ok i => Ok (S i)
           | Stop s => Stop s
           end
  end.

(** ** Regime classifier: [detect_market_condition] *)

(** The body of the [try].  The two closes are read without [.iloc[0]],
    so [price_change] is a Series and the [if] asks for its truth
    value. *)
Definition detect_body (d : date) (spy_data : series) (lookback_days : nat)
  (threshold : Q) : result (string * Q) :=
  (current_idx <- get_loc spy_data d ;;
   if (current_idx <? lookback_days)%nat then Ok ("sideways", 0.70)
   else
     current_price <- iloc_close_row spy_data current_idx ;;
     past_price <- iloc_close_row spy_data (current_idx - lookback_days) ;;
     let price_change :=
       series_div (series_sub current_price past_price) past_price in
     bull <- truth_value (series_gt price_change threshold) ;;
     if bull then Ok ("bull", 0.55)
     else
       bear <- truth_value (series_lt price_change (- threshold)) ;;
       if bear then Ok ("bear", 0.85)
       else Ok ("sideways", 0.70))%result.

(** The [try] with its bare [except], which returns the default.  No
    step of the body leaves the rationals: the only division is on
    Series, whose elements are not looked at. *)
Definition detect_market_condition (d : date) (spy_data : series)
  (lookback_days : nat) (threshold : Q) : string * Q :=
  match detect_body d spy_data lookback_days threshold with
  | Ok r => r
  | Stop _ => ("sideways", 0.70)
  end.

(** ** Inputs of the walk

    The series the source downloads before the walk, and the weights it
    gets from [get_exponential_weights]. *)

Record market : Type := {
  spy_data : series;
  dividend_data : list (symbol * series);
  growth_data : list (symbol * series);
  dividend_dividends : list (symbol * series);
  dividend_weights : list (symbol * Q)
}.

(** Strategy parameters. *)
Definition initial_capital : Q := 100000.
Definition dividend_alloc : Q := 0.70.
Definition growth_alloc : Q := 0.30.
Definition enable_dynamic_rebalancing : bool := true.
Definition market_lookback_days : nat := 60.
Definition market_threshold : Q := 0.05.

(** [len(d)] as a float. *)
Definition len {A : Type} (d : list A) : Q := inject_Z (Z.of_nat (List.length d)).

(** ** Position ledger *)

Record position : Type := {
  shares : Q;
  category : string
}.

Definition positions_t : Type := list (symbol * position).

Definition with_shares (p : position) (s : Q) : position :=
  {| shares := s; category := category p |}.

(** ** Initial allocation (not inside any [try]) *)

Fixpoint init_dividend (dd : list (symbol * series)) (ws : list (symbol * Q))
  (positions : positions_t) (cash : Q) : result (positions_t * Q) :=
  match ws with
  | [] => Ok (positions, cash)
  | (sym, weight) :: ws' =>
      if contains sym dd then
        (df <- getitem sym dd ;;
         initial_price <- iloc_close df 0 ;;
         let target_value := initial_capital * dividend_alloc * weight in
         shares <- fdiv target_value initial_price ;;
         init_dividend dd ws'
           (dict_set sym {| shares := shares; category := "dividend_aristocrat" |}
                     positions)
           (cash - target_value))%result
      else init_dividend dd ws' positions cash
  end.

Fixpoint init_growth (gd : list (symbol * series)) (growth_weight_per_stock : Q)
  (positions : positions_t) (cash : Q) : result (positions_t * Q) :=
  match gd with
  | [] => Ok (positions, cash)
  | (sym, df) :: gd' =>
      (initial_price <- iloc_close df 0 ;;
       let target_value := initial_capital * growth_alloc * growth_weight_per_stock in
       shares <- fdiv target_value initial_price ;;
       init_growth gd' growth_weight_per_stock
         (dict_set sym {| shares := shares; category := "high_growth" |} positions)
         (cash - target_value))%result
  end.

Definition growth_weight (gd : list (symbol * series)) : Q :=
  match gd with
  | [] => 0
  | _ :: _ => 1 / len gd
  end.

Definition initialize (m : market) : result (positions_t * Q) :=
  (pc <- init_dividend (dividend_data m) (dividend_weights m) [] initial_capital ;;
   init_growth (growth_data m) (growth_weight (growth_data m)) (fst pc) (snd pc))%result.

(** ** State of the walk *)

Record event : Type := {
  ev_date : date;
  ev_type : string;
  ev_market_condition : string;
  target_alloc : Q;
  excess_moved : Q;
  dividend_alloc_before : Q;
  dividend_alloc_after : Q
}.

(** The ledger, the two branch-local amounts (function locals, unbound
    until their branch first runs, and never unbound again) and the lists
    the walk appends to. *)
Record state : Type := {
  positions : positions_t;
  cash : Q;
  excess_dividend_value : option Q;
  deficit_dividend_value : option Q;
  rebalancing_events : list event;
  market_conditions : list string;
  dynamic_targets : list Q;
  portfolio_values : list Q;
  spy_values : list Q;
  dividend_values : list Q;
  growth_values : list Q;
  dates : list date;
  dividend_contributions : list Q;
  growth_contributions : list Q
}.

Definition initial_state (ps : positions_t) (c : Q) : state :=
  {| positions := ps; cash := c;
     excess_dividend_value := None; deficit_dividend_value := None;
     rebalancing_events := []; market_conditions := []; dynamic_targets := [];
     portfolio_values := []; spy_values := []; dividend_values := [];
     growth_values := []; dates := [];
     dividend_contributions := []; growth_contributions := [] |}.

Definition set_ledger (st : state) (ps : positions_t) (c : Q) : state :=
  {| positions := ps; cash := c;
     excess_dividend_value := excess_dividend_value st;
     deficit_dividend_value := deficit_dividend_value st;
     rebalancing_events := rebalancing_events st;
     market_conditions := market_conditions st;
     dynamic_targets := dynamic_targets st;
     portfolio_values := portfolio_values st; spy_values := spy_values st;
     dividend_values := dividend_values st; growth_values := growth_values st;
     dates := dates st;
     dividend_contributions := dividend_contributions st;
     growth_contributions := growth_contributions st |}.

Definition set_excess (st : state) (x : Q) : state :=
  {| positions := positions st; cash := cash st;
     excess_dividend_value := Some x;
     deficit_dividend_value := deficit_dividend_value st;
     rebalancing_events := rebalancing_events st;
     market_conditions := market_conditions st;
     dynamic_targets := dynamic_targets st;
     portfolio_values := portfolio_values st; spy_values := spy_values st;
     dividend_values := dividend_values st; growth_values := growth_values st;
     dates := dates st;
     dividend_contributions := dividend_contributions st;
     growth_contributions := growth_contributions st |}.

Definition set_deficit (st : state) (x : Q) : state :=
  {| positions := positions st; cash := cash st;
     excess_dividend_value := excess_dividend_value st;
     deficit_dividend_value := Some x;
     rebalancing_events := rebalancing_events st;
     market_conditions := market_conditions st;
     dynamic_targets := dynamic_targets st;
     portfolio_values := portfolio_values st; spy_values := spy_values st;
     dividend_values := dividend_values st; growth_values := growth_values st;
     dates := dates st;
     dividend_contributions := dividend_contributions st;
     growth_contributions := growth_contributions st |}.

Definition add_event (st : state) (e : event) : state :=
  {| positions := positions st; cash := cash st;
     excess_dividend_value := excess_dividend_value st;
     deficit_dividend_value := deficit_dividend_value st;
     rebalancing_events := rebalancing_events st ++ [e];
     market_conditions := market_conditions st;
     dynamic_targets := dynamic_targets st;
     portfolio_values := portfolio_values st; spy_values := spy_values st;
     dividend_values := dividend_values st; growth_values := growth_values st;
     dates := dates st;
     dividend_contributions := dividend_contributions st;
     growth_contributions := growth_contributions st |}.

Definition add_regime (st : state) (mc : string) (target : Q) : state :=
  {| positions := positions st; cash := cash st;
     excess_dividend_value := excess_dividend_value st;
     deficit_dividend_value := deficit_dividend_value st;
     rebalancing_events := rebalancing_events st;
     market_conditions := market_conditions st ++ [mc];
     dynamic_targets := dynamic_targets st ++ [target];
     portfolio_values := portfolio_values st; spy_values := spy_values st;
     dividend_values := dividend_values st; growth_values := growth_values st;
     dates := dates st;
     dividend_contributions := dividend_contributions st;
     growth_contributions := growth_contributions st |}.

(** [x / y if y > 0 else 0] *)
Definition alloc (x y : Q) : Q := if Qltb 0 y then x / y else 0.

(** Step 5 of the loop body: the seven appends, none of which can raise. *)
Definition add_snapshot (st : state) (d : date)
  (portfolio_value spy_value dividend_value growth_value : Q) : state :=
  {| positions := positions st; cash := cash st;
     excess_dividend_value := excess_dividend_value st;
     deficit_dividend_value := deficit_dividend_value st;
     rebalancing_events := rebalancing_events st;
     market_conditions := market_conditions st;
     dynamic_targets := dynamic_targets st;
     portfolio_values := portfolio_values st ++ [portfolio_value];
     spy_values := spy_values st ++ [spy_value];
     dividend_values := dividend_values st ++ [dividend_value];
     growth_values := growth_values st ++ [growth_value];
     dates := dates st ++ [d];
     dividend_contributions :=
       dividend_contributions st ++ [alloc dividend_value portfolio_value];
     growth_contributions :=
       growth_contributions st ++ [alloc growth_value portfolio_value] |}.

(** ** The monad of the loop body *)

Definition M (A : Type) : Type := state -> result A * state.

Definition ret {A : Type} (a : A) : M A := fun st => (Ok a, st).

Definition bind {A B : Type} (c : M A) (k : A -> M B) : M B :=
  fun st =>
    match c st with
    | (Ok a, st') => k a st'
    | (Stop s, st') => (Stop s, st')
    end.

Definition lift {A : Type} (r : result A) : M A := fun st => (r, st).

Definition modify (f : state -> state) : M unit := fun st => (Ok tt, f st).

Declare Scope monad_scope.
Delimit Scope monad_scope with monad.
Notation "x <- c ;; k" := (bind c (fun x => k))
  (at level 61, c at next level, right associativity) : monad_scope.
Notation "c ;;; k" := (bind c (fun _ => k))
  (at level 61, right associativity) : monad_scope.

(** [for symbol, position in positions.items(): body], where the body
    updates the position and [cash] in place.  Each body of the source
    does its lookups and divisions before its first assignment, so a
    raise leaves the current position untouched, the earlier ones
    updated, the later ones not visited; so does a stop at a share count
    that would not be finite. *)
Fixpoint for_items (body : symbol -> position -> Q -> result (position * Q))
  (ps : positions_t) (c : Q) : option stop * (positions_t * Q) :=
  match ps with
  | [] => (None, ([], c))
  | (sym, p) :: ps' =>
      match body sym p c with
      | Stop s => (Some s, (ps, c))
      | Ok (p', c') =>
          let r := for_items body ps' c' in
          (fst r, ((sym, p') :: fst (snd r), snd (snd r)))
      end
  end.

Definition for_positions (body : symbol -> position -> Q -> result (position * Q))
  : M unit :=
  fun st =>
    let r := for_items body (positions st) (cash st) in
    (match fst r with
     | None => Ok tt
     | Some s => Stop s
     end,
     set_ledger st (fst (snd r)) (snd (snd r))).

(** ** The loop body, step by step *)

Section Walk.

Variable m : market.

(** Step 1: dividends of the dividend aristocrats are reinvested in the
    paying stock.  [cash] is not touched.  [dividend_amount] is an
    element of a pandas Series, so [dividend_value_received] is a
    [numpy.float64] and its division by a zero close does not raise. *)
Definition reinvest_body (d : date) (sym : symbol) (p : position) (c : Q)
  : result (position * Q) :=
  if String.eqb (category p) "dividend_aristocrat"
     && contains sym (dividend_dividends m)
  then
    (dividends <- getitem sym (dividend_dividends m) ;;
     match dict_get d dividends with
     | Some dividend_amount =>
         let dividend_value_received := shares p * dividend_amount in
         df <- getitem sym (dividend_data m) ;;
         current_price <- loc_close df d ;;
         new_shares <- npdiv dividend_value_received current_price ;;
         Ok (with_shares p (shares p + new_shares), c)
     | None => Ok (p, c)
     end)%result
  else Ok (p, c).

Definition reinvest_dividends (d : date) : M unit :=
  for_positions (reinvest_body d).

(** Step 2: valuation.  The accumulators are [dividend_value],
    [growth_value] and [portfolio_value] (which starts at [cash]). *)
Fixpoint value_loop (d : date) (ps : positions_t)
  (dividend_value growth_value portfolio_value : Q) : result (Q * Q * Q) :=
  match ps with
  | [] => Ok (dividend_value, growth_value, portfolio_value)
  | (sym, p) :: ps' =>
      if contains sym (dividend_data m) then
        (df <- getitem sym (dividend_data m) ;;
         current_price <- loc_close df d ;;
         let position_value := shares p * current_price in
         value_loop d ps' (dividend_value + position_value) growth_value
                    (portfolio_value + position_value))%result
      else if contains sym (growth_data m) then
        (df <- getitem sym (growth_data m) ;;
         current_price <- loc_close df d ;;
         let position_value := shares p * current_price in
         value_loop d ps' dividend_value (growth_value + position_value)
                    (portfolio_value + position_value))%result
      else value_loop d ps' dividend_value growth_value portfolio_value
  end.

Definition value_by_sleeve (d : date) : M (Q * Q * Q) :=
  fun st => (value_loop d (positions st) 0 0 (cash st), st).

(** Sale leg of a rebalance: every position of the sleeve [data] sells the
    fraction [amount / sleeve_value] of its shares
    ([0] unless [sleeve_value > 0]); the proceeds go to [cash]. *)
Definition sell_body (data : list (symbol * series)) (d : date)
  (amount sleeve_value : Q) (sym : symbol) (p : position) (c : Q)
  : result (position * Q) :=
  if contains sym data then
    (df <- getitem sym data ;;
     current_price <- loc_close df d ;;
     let sell_fraction :=
       if Qltb 0 sleeve_value then amount / sleeve_value else 0 in
     let shares_to_sell := shares p * sell_fraction in
     Ok (with_shares p (shares p - shares_to_sell),
         c + shares_to_sell * current_price))%result
  else Ok (p, c).

(** Purchase leg: every position of the sleeve [data] buys its share of
    [amount], proportional to its value in the sleeve, or
    [1.0 / len(data)] when the sleeve is worth nothing; [cash] pays. *)
Definition buy_body (data : list (symbol * series)) (d : date)
  (amount sleeve_value : Q) (sym : symbol) (p : position) (c : Q)
  : result (position * Q) :=
  if contains sym data then
    (df <- getitem sym data ;;
     current_price <- loc_close df d ;;
     let buy_fraction :=
       if Qltb 0 sleeve_value then (shares p * current_price) / sleeve_value
       else 1 / len data in
     let buy_amount := amount * buy_fraction in
     shares_to_buy <- fdiv buy_amount current_price ;;
     Ok (with_shares p (shares p + shares_to_buy), c - buy_amount))%result
  else Ok (p, c).

(** The branch [current_dividend_alloc > upper_band].  Returns
    [rebalance_type] and [target_dividend_value]. *)
Definition sell_dividend_branch (d : date) (market_condition : string)
  (target_dividend_alloc dividend_value growth_value portfolio_value : Q)
  : M (string * Q) :=
  (let target_dividend_value := portfolio_value * target_dividend_alloc in
   let excess := dividend_value - target_dividend_value in
   modify (fun st => set_excess st excess) ;;;
   for_positions (sell_body (dividend_data m) d excess dividend_value) ;;;
   for_positions (buy_body (growth_data m) d excess growth_value) ;;;
   ret (("sell_dividend_" ++ market_condition)%string, target_dividend_value))%monad.

(** The branch [current_dividend_alloc < lower_band]. *)
Definition buy_dividend_branch (d : date) (market_condition : string)
  (target_dividend_alloc dividend_value growth_value portfolio_value : Q)
  : M (string * Q) :=
  (let target_dividend_value := portfolio_value * target_dividend_alloc in
   let deficit := target_dividend_value - dividend_value in
   modify (fun st => set_deficit st deficit) ;;;
   for_positions (sell_body (growth_data m) d deficit growth_value) ;;;
   for_positions (buy_body (dividend_data m) d deficit dividend_value) ;;;
   ret (("buy_dividend_" ++ market_condition)%string, target_dividend_value))%monad.

(** [excess_dividend_value if 'excess_dividend_value' in locals()
     else deficit_dividend_value] *)
Definition moved_amount (st : state) : result Q :=
  match excess_dividend_value st with
  | Some x => Ok x
  | None =>
      match deficit_dividend_value st with
      | Some x => Ok x
      | None => Raise NameError
      end
  end.

(** [rebalancing_events.append({...})] *)
Definition record_event (d : date) (rebalance_type market_condition : string)
  (target_dividend_alloc current_dividend_alloc target_dividend_value
   portfolio_value : Q) : M unit :=
  (moved <- (fun st => (moved_amount st, st)) ;;
   after <- lift (fdiv target_dividend_value portfolio_value) ;;
   modify (fun st =>
     add_event st
       {| ev_date := d; ev_type := rebalance_type;
          ev_market_condition := market_condition;
          target_alloc := target_dividend_alloc;
          excess_moved := moved;
          dividend_alloc_before := current_dividend_alloc;
          dividend_alloc_after := after |}))%monad.

(** Step 3 after the regime is known: tolerance check, trade, event and
    revaluation.  Returns the [dividend_value], [growth_value] and
    [portfolio_value] that step 5 records. *)
Definition rebalance_phase (d : date) (market_condition : string)
  (target_dividend_alloc dividend_value growth_value portfolio_value
   current_dividend_alloc : Q) : M (Q * Q * Q) :=
  (let tolerance := 0.05 in
   let upper_band := target_dividend_alloc + tolerance in
   let lower_band := target_dividend_alloc - tolerance in
   trade <-
     (if Qltb upper_band current_dividend_alloc then
        t <- sell_dividend_branch d market_condition target_dividend_alloc
               dividend_value growth_value portfolio_value ;;
        ret (Some t)
      else if Qltb current_dividend_alloc lower_band then
        t <- buy_dividend_branch d market_condition target_dividend_alloc
               dividend_value growth_value portfolio_value ;;
        ret (Some t)
      else ret None) ;;
   match trade with
   | Some (rebalance_type, target_dividend_value) =>
       record_event d rebalance_type market_condition target_dividend_alloc
         current_dividend_alloc target_dividend_value portfolio_value ;;;
       value_by_sleeve d
   | None => ret (dividend_value, growth_value, portfolio_value)
   end)%monad.

(** The body of the [try] of one date.  In step 4 the first close of the
    benchmark is read without [float(...)]: the ratio is a numpy
    division. *)
Definition process_date (d : date) : M unit :=
  (reinvest_dividends d ;;;
   v <- value_by_sleeve d ;;
   let dividend_value := fst (fst v) in
   let growth_value := snd (fst v) in
   let portfolio_value := snd v in
   let current_dividend_alloc := alloc dividend_value portfolio_value in
   v' <-
     (if enable_dynamic_rebalancing then
        let mc := detect_market_condition d (spy_data m) market_lookback_days
                    market_threshold in
        modify (fun st => add_regime st (fst mc) (snd mc)) ;;;
        rebalance_phase d (fst mc) (snd mc) dividend_value growth_value
          portfolio_value current_dividend_alloc
      else
        modify (fun st => add_regime st "sideways" 0.70) ;;;
        ret v) ;;
   spy_price <- lift (loc_close (spy_data m) d) ;;
   spy_first <- lift (iloc_close (spy_data m) 0) ;;
   ratio <- lift (npdiv spy_price spy_first) ;;
   let spy_value := initial_capital * ratio in
   modify (fun st =>
     add_snapshot st d (snd v') spy_value (fst (fst v')) (snd (fst v'))))%monad.

(** [for date in all_dates: try: ... except Exception: continue], as far
    as the embedding follows it: to the end of the dates, or to the
    state in which a date met a float that is not finite. *)
Fixpoint run_dates (ds : list date) (st : state) : state :=
  match ds with
  | [] => st
  | d :: ds' =>
      match process_date d st with
      | (Stop NotFinite, st') => st'
      | (_, st') => run_dates ds' st'
      end
  end.

(** Whether the walk gets to the end of the dates with finite floats. *)
Fixpoint finite_walk (ds : list date) (st : state) : bool :=
  match ds with
  | [] => true
  | d :: ds' =>
      match process_date d st with
      | (Stop NotFinite, _) => false
      | (_, st') => finite_walk ds' st'
      end
  end.

End Walk.

(** ** The whole run *)

(** The common date range: the index of [spy_data] intersected with the
    index of every loaded frame. *)
Definition index (df : series) : list date := map fst df.

Definition intersection (idx other : list date) : list date :=
  filter (fun d => existsb (String.eqb d) other) idx.

Definition all_dates (m : market) : list date :=
  fold_left (fun acc sdf => intersection acc (index (snd sdf)))
            (growth_data m)
            (fold_left (fun acc sdf => intersection acc (index (snd sdf)))
                       (dividend_data m) (index (spy_data m))).

(** [market_condition_counts]: the regime-visit histogram. *)
Definition count_condition (counts : list (string * nat)) (condition : string)
  : list (string * nat) :=
  dict_set condition
    (match dict_get condition counts with Some n => n | None => 0 end + 1)%nat
    counts.

Definition market_condition_counts (conditions : list string)
  : list (string * nat) :=
  fold_left count_condition conditions [].

(** [sum(market_condition_counts.values())] *)
Definition counted_dates (counts : list (string * nat)) : nat :=
  fold_right (fun kv acc => (snd kv + acc)%nat) 0%nat counts.

(** [run_optimized_backtest] up to the metrics: [Ok None] is the source's
    [return None], [Raise] an exception that leaves the function,
    [Stop NotFinite] a walk that met a float that is not finite. *)
Definition run_optimized_backtest (m : market) : result (option state) :=
  match all_dates m with
  | [] => Ok None
  | ds =>
      (pc <- initialize m ;;
       let st0 := initial_state (fst pc) (snd pc) in
       if finite_walk m ds st0 then
         let st := run_dates m ds st0 in
         match portfolio_values st with
         | [] => Ok None
         | _ :: _ => Ok (Some st)
         end
       else Stop NotFinite)%result
  end.

(** ** Vocabulary of the statements *)

(** The close of [sym] on [d] in the sleeve [data], when both exist. *)
Definition price_on (data : list (symbol * series)) (d : date) (sym : symbol)
  : option Q :=
  match dict_get sym data with
  | Some df => dict_get d df
  | None => None
  end.

(** The per-share amount paid on [d] to a dividend-sleeve position. *)
Definition dividend_paid (m : market) (d : date) (sym : symbol) (p : position)
  : option Q :=
  if String.eqb (category p) "dividend_aristocrat" then
    match dict_get sym (dividend_dividends m) with
    | Some dividends => dict_get d dividends
    | None => None
    end
  else None.

(** Every position that is paid a dividend on [d] has a nonzero close. *)
Definition payers_priced (m : market) (d : date) (ps : positions_t) : bool :=
  forallb (fun sp =>
             match dividend_paid m d (fst sp) (snd sp) with
             | Some _ =>
                 match price_on (dividend_data m) d (fst sp) with
                 | Some c => negb (Qeq_bool c 0)
                 | None => false
                 end
             | None => true
             end) ps.

(** The position after step 1. *)
Definition reinvested (m : market) (d : date) (sym : symbol) (p : position)
  : position :=
  match dividend_paid m d sym p, price_on (dividend_data m) d sym with
  | Some a, Some price => with_shares p (shares p + shares p * a / price)
  | _, _ => p
  end.

(** The symbols of the ledger, in order. *)
Definition symbols (ps : positions_t) : list symbol := map fst ps.

(** Value of the positions of the sleeve [data] at the closes of [d]. *)
Fixpoint sleeve_total (data : list (symbol * series)) (d : date)
  (ps : positions_t) : Q :=
  match ps with
  | [] => 0
  | (sym, p) :: ps' =>
      (if contains sym data then
         match price_on data d sym with
         | Some price => shares p * price
         | None => 0
         end
       else 0) + sleeve_total data d ps'
  end.

(** Number of positions held in the sleeve [data]. *)
Definition held (data : list (symbol * series)) (syms : list symbol) : nat :=
  List.length (filter (fun sym => contains sym data) syms).

(** The sleeve has at least one symbol and a position for each. *)
Definition fully_held (data : list (symbol * series)) (syms : list symbol)
  : bool :=
  (held data syms =? List.length data)%nat && negb (held data syms =? 0)%nat.

(** No position belongs to both sleeves. *)
Definition sleeves_disjoint (m : market) (syms : list symbol) : bool :=
  forallb (fun sym => negb (contains sym (dividend_data m)
                            && contains sym (growth_data m))) syms.

(** Every position of the sleeve [data] has a nonzero close on [d]. *)
Definition closes_nonzero (data : list (symbol * series)) (d : date)
  (syms : list symbol) : bool :=
  forallb (fun sym =>
             if contains sym data then
               match price_on data d sym with
               | Some price => negb (Qeq_bool price 0)
               | None => false
               end
             else true) syms.

(** The position after the sale leg, and [cash] after its sale. *)
Definition sold (data : list (symbol * series)) (fraction : Q)
  (sym : symbol) (p : position) : position :=
  if contains sym data then with_shares p (shares p - shares p * fraction)
  else p.

(** The fraction of the moved amount a position buys in the purchase leg. *)
Definition buy_fraction_of (data : list (symbol * series)) (d : date)
  (sleeve_value : Q) (sym : symbol) (p : position) : Q :=
  if contains sym data then
    match price_on data d sym with
    | Some price =>
        if Qltb 0 sleeve_value then (shares p * price) / sleeve_value
        else 1 / len data
    | None => 0
    end
  else 0.

Fixpoint fraction_sum (data : list (symbol * series)) (d : date)
  (sleeve_value : Q) (ps : positions_t) : Q :=
  match ps with
  | [] => 0
  | (sym, p) :: ps' =>
      buy_fraction_of data d sleeve_value sym p
      + fraction_sum data d sleeve_value ps'
  end.

(** The position after the purchase leg. *)
Definition bought (data : list (symbol * series)) (d : date)
  (amount sleeve_value : Q) (sym : symbol) (p : position) : position :=
  if contains sym data then
    match price_on data d sym with
    | Some price =>
        with_shares p
          (shares p
           + (amount * buy_fraction_of data d sleeve_value sym p) / price)
    | None => p
    end
  else p.

(** The fraction of its shares a sleeve worth [sleeve_value] sells to
    raise [amount]. *)
Definition sale_fraction (amount sleeve_value : Q) : Q :=
  if Qltb 0 sleeve_value then amount / sleeve_value else 0.

(** The ledger after both legs of a transfer of [amount] from the sleeve
    [src] to the sleeve [dst]. *)
Definition transferred (src dst : list (symbol * series)) (d : date)
  (amount src_value dst_value : Q) (ps : positions_t) : positions_t :=
  map (fun sp => (fst sp, bought dst d amount dst_value (fst sp) (snd sp)))
      (map (fun sp => (fst sp, sold src (sale_fraction amount src_value)
                                    (fst sp) (snd sp))) ps).

(** No position belongs to both [src] and [dst]. *)
Definition disjoint_on (src dst : list (symbol * series)) (syms : list symbol)
  : bool :=
  forallb (fun sym => negb (contains sym src && contains sym dst)) syms.

(** C1 as it is stated, at one date: whenever the rebalancing phase
    executes a trade, the dividend fraction recomputed after it equals the
    target. *)
Definition trade_hits_target (m : market) (d : date) (mc : string)
  (target dv gv pv : Q) (st : state) : Prop :=
  forall v st',
    rebalance_phase m d mc target dv gv pv (alloc dv pv) st = (Ok v, st') ->
    rebalancing_events st' <> rebalancing_events st ->
    alloc (fst (fst v)) (snd v) == target.

(** C4 as it is stated, for the two branches: [cash] after both legs is
    [cash] before the call. *)
Definition sell_branch_restores_cash (m : market) (d : date) (mc : string)
  (target dv gv pv : Q) (st : state) : Prop :=
  forall v st',
    sell_dividend_branch m d mc target dv gv pv st = (Ok v, st') ->
    cash st' == cash st.

Definition buy_branch_restores_cash (m : market) (d : date) (mc : string)
  (target dv gv pv : Q) (st : state) : Prop :=
  forall v st',
    buy_dividend_branch m d mc target dv gv pv st = (Ok v, st') ->
    cash st' == cash st.

(** The seven lists step 5 appends to. *)
Definition snapshots (st : state)
  : list date * list Q * list Q * list Q * list Q * list Q * list Q :=
  (dates st, portfolio_values st, spy_values st, dividend_values st,
   growth_values st, dividend_contributions st, growth_contributions st).

(** The two lists the regime step appends to. *)
Definition regimes (st : state) : list string * list Q :=
  (market_conditions st, dynamic_targets st).

(** The ledger and the event log: what a date mutates besides the lists
    above. *)
Definition ledger (st : state) : positions_t * Q :=
  (positions st, cash st).

(** A computation that appends neither a snapshot nor a regime. *)
Definition quiet {A : Type} (c : M A) : Prop :=
  forall st, snapshots (snd (c st)) = snapshots st
             /\ regimes (snd (c st)) = regimes st.

(** [st'] is [st] with one snapshot appended to each of the seven lists. *)
Definition snapshot_appended (st st' : state) : Prop :=
  exists d pv sv dv gv,
    snapshots st' =
    (dates st ++ [d], portfolio_values st ++ [pv], spy_values st ++ [sv],
     dividend_values st ++ [dv], growth_values st ++ [gv],
     dividend_contributions st ++ [alloc dv pv],
     growth_contributions st ++ [alloc gv pv]).

(** [st'] is [st] with the regime of [d] appended. *)
Definition regime_appended (m : market) (d : date) (st st' : state) : Prop :=
  let mc := detect_market_condition d (spy_data m) market_lookback_days
              market_threshold in
  regimes st' = (market_conditions st ++ [fst mc], dynamic_targets st ++ [snd mc]).

(** A position of a sleeve that has no close on [d]. *)
Definition unpriced (m : market) (d : date) (sym : symbol) : bool :=
  if contains sym (dividend_data m) then
    match price_on (dividend_data m) d sym with
    | Some _ => false
    | None => true
    end
  else if contains sym (growth_data m) then
    match price_on (growth_data m) d sym with
    | Some _ => false
    | None => true
    end
  else false.

(** C2 as it is stated: the regime of a date that has [lookback_days]
    rows before it, from the change of the close over them. *)
Definition claimed_regime (change threshold : Q) : string * Q :=
  if Qltb threshold change then ("bull", 0.55)
  else if Qltb change (- threshold) then ("bear", 0.85)
  else ("sideways", 0.70).






(** The five lists of a snapshot have one length. *)
Definition aligned (st : state) : Prop :=
  List.length (portfolio_values st) = List.length (dates st) /\
  List.length (spy_values st) = List.length (dates st) /\
  List.length (dividend_values st) = List.length (dates st) /\
  List.length (growth_values st) = List.length (dates st).

(** [data[sym].iloc[0]['Close']], when the frame exists and has a row. *)
Definition first_close (data : list (symbol * series)) (sym : symbol)
  : option Q :=
  match dict_get sym data with
  | Some ((_, price) :: _) => Some price
  | _ => None
  end.

(** The keys of a dict are pairwise different. *)
Fixpoint unique_keys {A : Type} (d : list (string * A)) : bool :=
  match d with
  | [] => true
  | (k, _) :: d' => negb (contains k d') && unique_keys d'
  end.


Fixpoint weight_sum (dd : list (symbol * series)) (ws : list (symbol * Q)) : Q :=
  match ws with
  | [] => 0
  | (sym, w) :: ws' => (if contains sym dd then w else 0) + weight_sum dd ws'
  end.

(** Every weighted dividend symbol that has a frame has a nonzero first
    close, and so has every growth frame. *)
Definition dividend_closes_ok (dd : list (symbol * series))
  (ws : list (symbol * Q)) : bool :=
  forallb (fun sw =>
             if contains (fst sw) dd then
               match first_close dd (fst sw) with
               | Some price => negb (Qeq_bool price 0)
               | None => false
               end
             else true) ws.

Definition growth_closes_ok (gd : list (symbol * series)) : bool :=
  forallb (fun sdf =>
             match snd sdf with
             | (_, price) :: _ => negb (Qeq_bool price 0)
             | [] => false
             end) gd.

Definition first_closes_ok (m : market) : bool :=
  dividend_closes_ok (dividend_data m) (dividend_weights m)
  && growth_closes_ok (growth_data m).

(** The dicts of the inputs are dicts, and no weighted symbol is a growth
    symbol. *)
Definition inputs_well_formed (m : market) : bool :=
  unique_keys (dividend_weights m)
  && unique_keys (growth_data m)
  && forallb (fun sw => negb (contains (fst sw) (growth_data m)))
             (dividend_weights m).


(** C7 as it is stated: a first close that is zero or negative is
    refused. *)
Definition nonpositive_close_refused (m : market) : Prop :=
  (exists sym price,
      price <= 0 /\
      ((contains sym (dividend_weights m) = true
        /\ first_close (dividend_data m) sym = Some price)
       \/ first_close (growth_data m) sym = Some price)) ->
  exists e, initialize m = Raise e.

(** ** Concrete runs used below *)

(** A benchmark of 61 trading days that gains a dollar a day, from 100
    to 160: on its last day the close is 60 percent above the close 60
    rows earlier. *)
Definition spy_rally : series :=
  [("2014-01-02", 100); ("2014-01-03", 101); ("2014-01-06", 102);
   ("2014-01-07", 103); ("2014-01-08", 104); ("2014-01-09", 105);
   ("2014-01-10", 106); ("2014-01-13", 107); ("2014-01-14", 108);
   ("2014-01-15", 109); ("2014-01-16", 110); ("2014-01-17", 111);
   ("2014-01-20", 112); ("2014-01-21", 113); ("2014-01-22", 114);
   ("2014-01-23", 115); ("2014-01-24", 116); ("2014-01-27", 117);
   ("2014-01-28", 118); ("2014-01-29", 119); ("2014-01-30", 120);
   ("2014-01-31", 121); ("2014-02-03", 122); ("2014-02-04", 123);
   ("2014-02-05", 124); ("2014-02-06", 125); ("2014-02-07", 126);
   ("2014-02-10", 127); ("2014-02-11", 128); ("2014-02-12", 129);
   ("2014-02-13", 130); ("2014-02-14", 131); ("2014-02-17", 132);
   ("2014-02-18", 133); ("2014-02-19", 134); ("2014-02-20", 135);
   ("2014-02-21", 136); ("2014-02-24", 137); ("2014-02-25", 138);
   ("2014-02-26", 139); ("2014-02-27", 140); ("2014-02-28", 141);
   ("2014-03-03", 142); ("2014-03-04", 143); ("2014-03-05", 144);
   ("2014-03-06", 145); ("2014-03-07", 146); ("2014-03-10", 147);
   ("2014-03-11", 148); ("2014-03-12", 149); ("2014-03-13", 150);
   ("2014-03-14", 151); ("2014-03-17", 152); ("2014-03-18", 153);
   ("2014-03-19", 154); ("2014-03-20", 155); ("2014-03-21", 156);
   ("2014-03-24", 157); ("2014-03-25", 158); ("2014-03-26", 159);
   ("2014-03-27", 160)].

(** One dividend position of 100 shares, a 1 dollar dividend and a close
    of 50 dollars on the same day. *)
Definition reinvest_market : market :=
  {| spy_data := [("2014-03-12", 180)];
     dividend_data := [("KO", [("2014-03-12", 50)])];
     growth_data := [];
     dividend_dividends := [("KO", [("2014-03-12", 1)])];
     dividend_weights := [("KO", 1)] |}.

Definition reinvest_state : state :=
  initial_state
    [("KO", {| shares := 100; category := "dividend_aristocrat" |})] 25.

(** Three trading days, one dividend stock and one growth stock. *)
Definition flat (price : Q) : series :=
  [("2014-01-02", price); ("2014-01-03", price); ("2014-01-06", price)].

(** The dividend sleeve has drifted to 77 percent of 100000 dollars. *)
Definition drift_market : market :=
  {| spy_data := flat 180;
     dividend_data := [("KO", flat 100)];
     growth_data := [("UBER", flat 20)];
     dividend_dividends := [("KO", [])];
     dividend_weights := [("KO", 1)] |}.

Definition drift_state : state :=
  initial_state
    [("KO", {| shares := 770; category := "dividend_aristocrat" |});
     ("UBER", {| shares := 1150; category := "high_growth" |})] 0.

(** The dividend sleeve has fallen to 60 percent. *)
Definition lag_state : state :=
  initial_state
    [("KO", {| shares := 600; category := "dividend_aristocrat" |});
     ("UBER", {| shares := 2000; category := "high_growth" |})] 0.

(** No dividend stock was loaded: the ledger holds the growth sleeve and
    70000 dollars of cash. *)
Definition no_dividend_market : market :=
  {| spy_data := flat 180;
     dividend_data := [];
     growth_data := [("UBER", flat 20)];
     dividend_dividends := [];
     dividend_weights := [] |}.

(** No growth stock was loaded, and the dividend stock doubles on the
    second day. *)
Definition no_growth_market : market :=
  {| spy_data := flat 180;
     dividend_data :=
       [("KO", [("2014-01-02", 50); ("2014-01-03", 100); ("2014-01-06", 100)])];
     growth_data := [];
     dividend_dividends := [("KO", [])];
     dividend_weights := [("KO", 1)] |}.

Definition no_growth_state : state :=
  initial_state
    [("KO", {| shares := 1400; category := "dividend_aristocrat" |})] 30000.

(** One dividend stock that doubles on the second day and two growth
    stocks, the first of which closes at zero on that day. *)
Definition zero_close_market : market :=
  {| spy_data := flat 180;
     dividend_data :=
       [("KO", [("2014-01-02", 50); ("2014-01-03", 100); ("2014-01-06", 100)])];
     growth_data :=
       [("LYFT", [("2014-01-02", 10); ("2014-01-03", 0); ("2014-01-06", 10)]);
        ("UBER", flat 20)];
     dividend_dividends := [("KO", [])];
     dividend_weights := [("KO", 1)] |}.

Definition zero_close_state : state :=
  initial_state
    [("KO", {| shares := 1400; category := "dividend_aristocrat" |});
     ("LYFT", {| shares := 1500; category := "high_growth" |});
     ("UBER", {| shares := 750; category := "high_growth" |})] 0.

(** One dividend stock that doubles on the second day and falls to half
    its first close on the third, and one growth stock that does not
    move. *)
Definition swing_market : market :=
  {| spy_data := flat 180;
     dividend_data :=
       [("KO", [("2014-01-02", 50); ("2014-01-03", 100); ("2014-01-06", 25)])];
     growth_data := [("UBER", flat 20)];
     dividend_dividends := [("KO", [])];
     dividend_weights := [("KO", 1)] |}.

(** The scenario of two dividend stocks at 50 and 100 dollars with equal
    weights and one growth stock at 20 dollars. *)
Definition scenario_market : market :=
  {| spy_data := flat 180;
     dividend_data := [("KO", flat 50); ("PG", flat 100)];
     growth_data := [("UBER", flat 20)];
     dividend_dividends := [("KO", []); ("PG", [])];
     dividend_weights := [("KO", 0.5); ("PG", 0.5)] |}.

(** The ledger its initial allocation builds. *)
Definition scenario_state : state :=
  initial_state
    [("KO", {| shares := 700; category := "dividend_aristocrat" |});
     ("PG", {| shares := 350; category := "dividend_aristocrat" |});
     ("UBER", {| shares := 1500; category := "high_growth" |})] 0.

(** The same stocks with weights that sum to 0.75. *)
Definition light_market : market :=
  {| spy_data := flat 180;
     dividend_data := [("KO", flat 50); ("PG", flat 100)];
     growth_data := [("UBER", flat 20)];
     dividend_dividends := [("KO", []); ("PG", [])];
     dividend_weights := [("KO", 0.5); ("PG", 0.25)] |}.

(** A growth frame whose first close is negative. *)
Definition negative_close_market : market :=
  {| spy_data := flat 180;
     dividend_data := [("KO", flat 50)];
     growth_data := [("UBER", flat (-20))];
     dividend_dividends := [("KO", [])];
     dividend_weights := [("KO", 1)] |}.

(** A growth frame whose first close is zero, and one without rows. *)
Definition zero_first_close_market : market :=
  {| spy_data := flat 180;
     dividend_data := [("KO", flat 50)];
     growth_data := [("UBER", flat 0)];
     dividend_dividends := [("KO", [])];
     dividend_weights := [("KO", 1)] |}.

(** ** After the walk: metrics, regime analysis, entry point

    The statistics that need a square root or a not-a-number test
    (volatility, Sharpe ratio, maximum drawdown) have no counterpart on
    exact rationals and are left out; the [np.isnan] guards of the two
    final values never fire here. *)

(** [values[-1]] *)
Definition last_value (values : list Q) : result Q :=
  match rev values with
  | [] => Raise IndexError
  | v :: _ => Ok v
  end.

(** [values[-1] if values else 0] *)
Definition last_or_zero (values : list Q) : Q :=
  match rev values with
  | [] => 0
  | v :: _ => v
  end.

(** [(final - initial) / initial if initial > 0 else 0] *)
Definition sleeve_return (final initial : Q) : Q :=
  if Qltb 0 initial then (final - initial) / initial else 0.

(** [market_allocations]: the targets of the dates of each condition. *)
Fixpoint group_targets (conditions : list string) (targets : list Q) (i : nat)
  (market_allocations : list (string * list Q))
  : result (list (string * list Q)) :=
  match conditions with
  | [] => Ok market_allocations
  | condition :: conditions' =>
      let ma :=
        if contains condition market_allocations then market_allocations
        else dict_set condition [] market_allocations in
      (allocations <- getitem condition ma ;;
       target <- match nth_error targets i with
                 | Some t => Ok t
                 | None => Raise IndexError
                 end ;;
       group_targets conditions' targets (S i)
         (dict_set condition (allocations ++ [target]) ma))%result
  end.

(** [sum(allocations)] *)
Definition sum (values : list Q) : Q := fold_left Qplus values 0.

(** [avg_allocations[condition] = sum(allocations) / len(allocations)] for
    every item of [market_allocations]. *)
Fixpoint average_targets (market_allocations : list (string * list Q))
  (avg_allocations : list (string * Q)) : result (list (string * Q)) :=
  match market_allocations with
  | [] => Ok avg_allocations
  | (condition, allocations) :: rest =>
      (a <- fdiv (sum allocations) (len allocations) ;;
       average_targets rest (dict_set condition a avg_allocations))%result
  end.

Definition avg_allocations (conditions : list string) (targets : list Q)
  : result (list (string * Q)) :=
  match conditions, targets with
  | _ :: _, _ :: _ =>
      (ma <- group_targets conditions targets 0 [] ;;
       average_targets ma [])%result
  | _, _ => Ok []
  end.

(** The entries of the results dict that are computed from the lists of
    the walk. *)
Record results : Type := {
  final_portfolio_value : Q;
  final_spy_value : Q;
  total_return : Q;
  spy_total_return : Q;
  excess_return : Q;
  final_dividend_value : Q;
  final_growth_value : Q;
  dividend_return : Q;
  growth_return : Q;
  res_rebalancing_events : list event;
  res_market_condition_counts : list (string * nat);
  res_avg_allocations : list (string * Q);
  res_dates : list date
}.

Definition metrics (st : state) : result results :=
  (final_pv <- last_value (portfolio_values st) ;;
   final_spy <- last_value (spy_values st) ;;
   let total := (final_pv - initial_capital) / initial_capital in
   let spy_total := (final_spy - initial_capital) / initial_capital in
   let final_dividend := last_or_zero (dividend_values st) in
   let final_growth := last_or_zero (growth_values st) in
   let initial_dividend_allocation := initial_capital * dividend_alloc in
   let initial_growth_allocation := initial_capital * growth_alloc in
   avg <- avg_allocations (market_conditions st) (dynamic_targets st) ;;
   Ok {| final_portfolio_value := final_pv;
         final_spy_value := final_spy;
         total_return := total;
         spy_total_return := spy_total;
         excess_return := total - spy_total;
         final_dividend_value := final_dividend;
         final_growth_value := final_growth;
         dividend_return :=
           sleeve_return final_dividend initial_dividend_allocation;
         growth_return :=
           sleeve_return final_growth initial_growth_allocation;
         res_rebalancing_events := rebalancing_events st;
         res_market_condition_counts :=
           market_condition_counts (market_conditions st);
         res_avg_allocations := avg;
         res_dates := dates st |})%result.

(** [run_optimized_backtest] with its metrics.  The report, the saved file
    and the charts that precede [return results] are not modelled. *)
Definition backtest_results (m : market) : result (option results) :=
  (r <- run_optimized_backtest m ;;
   match r with
   | None => Ok None
   | Some st => res <- metrics st ;; Ok (Some res)
   end)%result.

(** [main]: any exception of the run is logged and turned into [None];
    a run that met a float that is not finite is not followed. *)
Definition main (m : market) : result (option results) :=
  match backtest_results m with
  | Ok r => Ok r
  | Raise _ => Ok None
  | Stop NotFinite => Stop NotFinite
  end.

(** From [display_optimized_results]: the share of the dates a condition
    was seen on, [(count / sum(counts.values())) * 100], and the shares
    the loop over [counts.items()] logs, in order. *)
Definition percentage (counts : list (string * nat)) (count : nat)
  : result Q :=
  (share <- fdiv (inject_Z (Z.of_nat count))
                 (inject_Z (Z.of_nat (counted_dates counts))) ;;
   Ok (share * 100))%result.

Fixpoint percentages_from (counts items : list (string * nat))
  : result (list Q) :=
  match items with
  | [] => Ok []
  | (condition, count) :: items' =>
      (p <- percentage counts count ;;
       ps <- percentages_from counts items' ;;
       Ok (p :: ps))%result
  end.

Definition percentages (counts : list (string * nat)) : result (list Q) :=
  percentages_from counts counts.

(** ** Vocabulary of the further statements *)

(** Every dividend position that has a dividend series has a frame. *)
Definition payers_have_frames (m : market) (ps : positions_t) : bool :=
  forallb (fun sp =>
             negb (String.eqb (category (snd sp)) "dividend_aristocrat"
                   && contains (fst sp) (dividend_dividends m))
             || contains (fst sp) (dividend_data m)) ps.

(** A computation that raises nothing but [e0]. *)
Definition raises_only {A : Type} (e0 : exn) (c : M A) : Prop :=
  forall st e, fst (c st) = Raise e -> e = e0.

(** The symbols of the ledger with their sleeve tags, in order. *)
Definition shape (ps : positions_t) : list (symbol * string) :=
  map (fun sp => (fst sp, category (snd sp))) ps.

(** [l1] is [l2] with some elements left out. *)
Inductive subseq : list date -> list date -> Prop :=
| subseq_nil : subseq [] []
| subseq_skip (d : date) (l1 l2 : list date) :
    subseq l1 l2 -> subseq l1 (d :: l2)
| subseq_take (d : date) (l1 l2 : list date) :
    subseq l1 l2 -> subseq (d :: l1) (d :: l2).

(** What the log says of an event: its recorded after-fraction is its
    target, and its type is the branch its before-fraction selects. *)
Definition event_ok (e : event) : Prop :=
  dividend_alloc_after e == target_alloc e /\
  ((ev_type e = ("sell_dividend_" ++ ev_market_condition e)%string
    /\ target_alloc e + 0.05 < dividend_alloc_before e)
   \/ (ev_type e = ("buy_dividend_" ++ ev_market_condition e)%string
       /\ dividend_alloc_before e < target_alloc e - 0.05
       /\ dividend_alloc_before e <= target_alloc e + 0.05)).

(** A computation that appends no event. *)
Definition silent {A : Type} (c : M A) : Prop :=
  forall st, rebalancing_events (snd (c st)) = rebalancing_events st.

(** [st'] has the events of [st], and possibly one more, of date [d]. *)
Definition event_step (d : date) (st st' : state) : Prop :=
  rebalancing_events st' = rebalancing_events st \/
  exists e, rebalancing_events st' = rebalancing_events st ++ [e]
            /\ ev_date e = d /\ event_ok e.

(** The target the classifier returns with each label. *)
Definition regime_target (condition : string) : Q :=
  if String.eqb condition "bull" then 0.55
  else if String.eqb condition "bear" then 0.85
  else 0.70.

(** A label of the classifier with its own target. *)
Definition paired (condition : string) (target : Q) : Prop :=
  (condition = "bull" \/ condition = "bear" \/ condition = "sideways")
  /\ target = regime_target condition.

(** [sv] is the benchmark value step 4 computes on [d], from a ratio
    that is finite. *)
Definition tracks (m : market) (d : date) (sv : Q) : Prop :=
  exists p f ratio,
    loc_close (spy_data m) d = Ok p /\
    iloc_close (spy_data m) 0 = Ok f /\
    npdiv p f = Ok ratio /\
    sv = initial_capital * ratio.

(** The first close of the frame of a position, by its sleeve tag. *)
Definition initial_price (m : market) (sym : symbol) (p : position) : Q :=
  match
    (if String.eqb (category p) "dividend_aristocrat"
     then first_close (dividend_data m) sym
     else first_close (growth_data m) sym)
  with
  | Some price => price
  | None => 0
  end.

(** The value of the positions at their first closes. *)
Fixpoint initial_value (m : market) (ps : positions_t) : Q :=
  match ps with
  | [] => 0
  | (sym, p) :: ps' => shares p * initial_price m sym p + initial_value m ps'
  end.

(** Every share count is at least zero. *)
Definition shares_nonneg (ps : positions_t) : bool :=
  forallb (fun sp => Qle_bool 0 (shares (snd sp))) ps.

(** Every position of the sleeve [data] has a positive close on [d]. *)
Definition closes_positive (data : list (symbol * series)) (d : date)
  (syms : list symbol) : bool :=
  forallb (fun sym =>
             if contains sym data then
               match price_on data d sym with
               | Some price => Qltb 0 price
               | None => false
               end
             else true) syms.

(** A ledger of [drift_market] that holds 10000 dollars of each stock
    beside 80000 dollars of cash. *)
Definition cash_heavy_state : state :=
  initial_state
    [("KO", {| shares := 100; category := "dividend_aristocrat" |});
     ("UBER", {| shares := 500; category := "high_growth" |})] 80000.




(** * Properties *)

(** ** Booleans and rationals *)

Lemma Qltb_true (x y : Q) : Qltb x y = true <-> x < y.
Proof.
  unfold Qltb. rewrite negb_true_iff, <- not_true_iff_false, Qle_bool_iff.
  split; [apply Qnot_le_lt | apply Qlt_not_le].
Qed.

Lemma Qltb_false (x y : Q) : Qltb x y = false <-> y <= x.
Proof.
  unfold Qltb. rewrite negb_false_iff. apply Qle_bool_iff.
Qed.

Lemma fdiv_ok (x y : Q) : ~ y == 0 -> fdiv x y = Ok (x / y).
Proof.
  intros H. unfold fdiv.
  destruct (Qeq_bool y 0) eqn:E; [|reflexivity].
  apply Qeq_bool_iff in E. contradiction.
Qed.

Lemma fdiv_zero (x y : Q) : y == 0 -> fdiv x y = Raise ZeroDivisionError.
Proof.
  intros H. unfold fdiv. apply Qeq_bool_iff in H. now rewrite H.
Qed.

Lemma npdiv_ok (x y : Q) : ~ y == 0 -> npdiv x y = Ok (x / y).
Proof.
  intros H. unfold npdiv.
  destruct (Qeq_bool y 0) eqn:E; [|reflexivity].
  apply Qeq_bool_iff in E. contradiction.
Qed.

Lemma npdiv_zero (x y : Q) : y == 0 -> npdiv x y = Stop NotFinite.
Proof.
  intros H. unfold npdiv. apply Qeq_bool_iff in H. now rewrite H.
Qed.


(** ** Regime classifier *)

Lemma get_loc_in_range (df : series) (d : date) (i : nat) :
  get_loc df d = Ok i -> (i < List.length df)%nat.
Proof.
  revert i. induction df as [|[d' p] df IH]; intros i; simpl.
  - discriminate.
  - destruct (String.eqb d d').
    + intros [= <-]. lia.
    + destruct (get_loc df d) as [j|e]; [|discriminate].
      intros [= <-]. specialize (IH j eq_refl). lia.
Qed.

Lemma iloc_close_row_in_range (df : series) (i : nat) :
  (i < List.length df)%nat ->
  exists p, iloc_close df i = Ok p /\ iloc_close_row df i = Ok [Some p].
Proof.
  intros H. unfold iloc_close, iloc_close_row.
  destruct (nth_error df i) as [[d p]|] eqn:E.
  - now exists p.
  - apply nth_error_None in E. lia.
Qed.

(** On a date with [lookback_days] rows before it, the [if] asks a
    Series for its truth value. *)
Lemma detect_body_raises (d : date) (spy : series) (lookback_days : nat)
  (threshold : Q) (i : nat) :
  get_loc spy d = Ok i -> (lookback_days <= i)%nat ->
  exists price past,
    iloc_close spy i = Ok price /\
    iloc_close spy (i - lookback_days) = Ok past /\
    detect_body d spy lookback_days threshold = Raise ValueError.
Proof.
  intros Hi Hle.
  pose proof (get_loc_in_range _ _ _ Hi) as Hrange.
  destruct (iloc_close_row_in_range spy i Hrange) as (price & Hp & Hprow).
  destruct (iloc_close_row_in_range spy (i - lookback_days))
    as (past & Hq & Hqrow); [lia|].
  exists price, past. split; [exact Hp|]. split; [exact Hq|].
  unfold detect_body. rewrite Hi. simpl.
  assert (Hge : (i <? lookback_days)%nat = false) by (apply Nat.ltb_ge; lia).
  rewrite Hge, Hprow, Hqrow. reflexivity.
Qed.

Lemma detect_market_condition_sideways (d : date) (spy : series)
  (lookback_days : nat) (threshold : Q) :
  detect_market_condition d spy lookback_days threshold = ("sideways", 0.70).
Proof.
  unfold detect_market_condition.
  destruct (get_loc spy d) as [i|s] eqn:Hi.
  - destruct (Nat.ltb_spec i lookback_days) as [Hlt|Hle].
    + unfold detect_body. rewrite Hi. simpl.
      apply Nat.ltb_lt in Hlt. now rewrite Hlt.
    + destruct (detect_body_raises d spy lookback_days threshold i Hi Hle)
        as (_ & _ & _ & _ & ->). reflexivity.
  - unfold detect_body. rewrite Hi. reflexivity.
Qed.

(** C2.  The classifier never returns bull or bear.  It never raises and
    returns [("sideways", 0.70)] on a failed lookup and during the
    warm-up, as the claim says.  But on a date that has [lookback_days]
    rows before it, the two closes are read as one-element Series (the
    [.iloc[0]] of every other read is missing), the [if] on the
    comparison raises [ValueError], and the bare [except] returns the
    default: whatever the change is, the answer is
    [("sideways", 0.70)].  On the last day of a benchmark that gained 60
    percent over the 60 rows before it, where the claim says
    [("bull", 0.55)], the classifier called as the walk calls it says
    [("sideways", 0.70)]. *)
Theorem detect_market_condition_never_leaves_sideways :
  (forall d spy lookback_days threshold,
     detect_market_condition d spy lookback_days threshold
     = ("sideways", 0.70)) /\
  (forall d spy lookback_days threshold i,
     get_loc spy d = Ok i -> (lookback_days <= i)%nat ->
     exists price past,
       iloc_close spy i = Ok price /\
       iloc_close spy (i - lookback_days) = Ok past /\
       detect_body d spy lookback_days threshold = Raise ValueError) /\
  (get_loc spy_rally "2014-03-27" = Ok 60%nat /\
   iloc_close spy_rally 60 = Ok 160 /\
   iloc_close spy_rally (60 - market_lookback_days) = Ok 100 /\
   claimed_regime ((160 - 100) / 100) market_threshold = ("bull", 0.55) /\
   detect_market_condition "2014-03-27" spy_rally market_lookback_days
     market_threshold = ("sideways", 0.70)).
Proof.
  split; [exact detect_market_condition_sideways|].
  split; [exact detect_body_raises|].
  split; [vm_compute; reflexivity|].
  split; [vm_compute; reflexivity|].
  split; [vm_compute; reflexivity|].
  split; [vm_compute; reflexivity|].
  apply detect_market_condition_sideways.
Qed.

(** ** Loops over the positions *)

Lemma contains_get {A : Type} (k : string) (d : list (string * A)) :
  contains k d = true <-> exists v, dict_get k d = Some v.
Proof.
  unfold contains. destruct (dict_get k d) as [v|].
  - split; [intros _; now exists v | reflexivity].
  - split; [discriminate | intros [v H]; discriminate].
Qed.

Lemma contains_false_get {A : Type} (k : string) (d : list (string * A)) :
  contains k d = false <-> dict_get k d = None.
Proof.
  unfold contains. destruct (dict_get k d); split; congruence.
Qed.

(** A loop whose body is a total function of the position and leaves
    [cash] to a separate fold runs to the end and maps the positions. *)
Lemma for_items_map (body : symbol -> position -> Q -> result (position * Q))
  (f : symbol -> position -> position) (g : symbol -> position -> Q -> Q)
  (ps : positions_t) :
  (forall sym p c, In (sym, p) ps -> body sym p c = Ok (f sym p, g sym p c)) ->
  forall c,
    for_items body ps c =
    (None, (map (fun sp => (fst sp, f (fst sp) (snd sp))) ps,
            fold_left (fun acc sp => g (fst sp) (snd sp) acc) ps c)).
Proof.
  induction ps as [|[sym p] ps IH]; intros Hbody c; simpl.
  - reflexivity.
  - rewrite (Hbody sym p c (or_introl eq_refl)).
    rewrite IH by (intros; apply Hbody; now right).
    reflexivity.
Qed.

(** ** Dividend reinvestment *)

(** What step 1 makes of one position. *)
Lemma reinvest_body_unpaid (m : market) (d : date) (sym : symbol)
  (p : position) (c : Q) :
  dividend_paid m d sym p = None -> reinvest_body m d sym p c = Ok (p, c).
Proof.
  unfold dividend_paid, reinvest_body, getitem, contains.
  destruct (String.eqb (category p) "dividend_aristocrat"); simpl;
    [|reflexivity].
  destruct (dict_get sym (dividend_dividends m)) as [dividends|]; simpl;
    [|reflexivity].
  now intros ->.
Qed.

Lemma reinvest_body_paid (m : market) (d : date) (sym : symbol)
  (p : position) (c a price : Q) :
  dividend_paid m d sym p = Some a ->
  price_on (dividend_data m) d sym = Some price ->
  ~ price == 0 ->
  reinvest_body m d sym p c =
  Ok (with_shares p (shares p + shares p * a / price), c).
Proof.
  unfold dividend_paid, reinvest_body, price_on, loc_close, getitem, contains.
  destruct (String.eqb (category p) "dividend_aristocrat"); simpl;
    [|discriminate].
  destruct (dict_get sym (dividend_dividends m)) as [dividends|]; simpl;
    [|discriminate].
  intros -> Hp Hnz.
  destruct (dict_get sym (dividend_data m)) as [df|]; simpl; [|discriminate].
  rewrite Hp. simpl. rewrite (npdiv_ok _ _ Hnz). reflexivity.
Qed.

Lemma reinvest_dividends_runs (m : market) (d : date) (st : state) :
  payers_priced m d (positions st) = true ->
  reinvest_dividends m d st =
  (Ok tt,
   set_ledger st
     (map (fun sp => (fst sp, reinvested m d (fst sp) (snd sp))) (positions st))
     (cash st)).
Proof.
  intros H. unfold reinvest_dividends, for_positions.
  rewrite (for_items_map _ (reinvested m d) (fun _ _ c => c)).
  - simpl. f_equal. f_equal.
    clear H. generalize (cash st).
    induction (positions st); simpl; auto.
  - intros sym p c Hin.
    apply (proj1 (forallb_forall _ _) H) in Hin. simpl in Hin.
    unfold reinvested.
    destruct (dividend_paid m d sym p) as [a|] eqn:Ea.
    + destruct (price_on (dividend_data m) d sym) as [price|] eqn:Ep;
        [|discriminate].
      apply reinvest_body_paid; auto.
      intros Hz. apply Qeq_bool_iff in Hz. rewrite Hz in Hin. discriminate.
    + now apply reinvest_body_unpaid.
Qed.

(** C3.  When every position that is paid on [d] has a (nonzero) close on
    [d], step 1 completes; it leaves [cash] as it was, and a dividend
    position that holds [shares] and is paid [a] per share at the close
    [price] holds [shares + shares * a / price] afterwards.  Every other
    position is unchanged. *)
Theorem reinvest_dividends_adds_shares (m : market) (d : date) (st : state) :
  payers_priced m d (positions st) = true ->
  exists st',
    reinvest_dividends m d st = (Ok tt, st') /\
    cash st' = cash st /\
    forall i sym p,
      nth_error (positions st) i = Some (sym, p) ->
      exists p',
        nth_error (positions st') i = Some (sym, p') /\
        (forall a price,
           dividend_paid m d sym p = Some a ->
           price_on (dividend_data m) d sym = Some price ->
           shares p' = shares p + (shares p * a) / price) /\
        (dividend_paid m d sym p = None -> p' = p).
Proof.
  intros H. eexists. split; [apply (reinvest_dividends_runs m d st H)|].
  split; [reflexivity|].
  intros i sym p Hi. simpl.
  exists (reinvested m d sym p). split.
  - rewrite nth_error_map, Hi. reflexivity.
  - unfold reinvested. split.
    + intros a price -> ->. reflexivity.
    + intros ->. reflexivity.
Qed.

(** The witness of C3: 100 shares, 1 dollar per share, a close of 50
    dollars: 102 shares afterwards, and the 25 dollars of cash untouched. *)
Lemma reinvest_dividends_adds_shares_witness :
  exists st',
    reinvest_dividends reinvest_market "2014-03-12" reinvest_state = (Ok tt, st') /\
    cash st' = 25 /\
    exists p', nth_error (positions st') 0 = Some ("KO", p') /\
               shares p' == 102.
Proof.
  destruct (reinvest_dividends_adds_shares reinvest_market "2014-03-12"
              reinvest_state eq_refl) as (st' & Hrun & Hcash & Hpos).
  exists st'. split; [exact Hrun|]. split; [exact Hcash|].
  destruct (Hpos 0%nat "KO" {| shares := 100; category := "dividend_aristocrat" |}
              eq_refl) as (p' & Hnth & Hpaid & _).
  exists p'. split; [exact Hnth|].
  rewrite (Hpaid 1 50 eq_refl eq_refl). reflexivity.
Defined.

(** ** The two legs of a rebalance *)

Lemma symbols_map (f : symbol -> position -> position) (ps : positions_t) :
  symbols (map (fun sp => (fst sp, f (fst sp) (snd sp))) ps) = symbols ps.
Proof.
  unfold symbols. rewrite map_map. reflexivity.
Qed.

Lemma closes_nonzero_price (data : list (symbol * series)) (d : date)
  (ps : positions_t) (sym : symbol) (p : position) :
  closes_nonzero data d (symbols ps) = true ->
  In (sym, p) ps -> contains sym data = true ->
  exists price, price_on data d sym = Some price /\ ~ price == 0.
Proof.
  intros H Hin Hc. unfold closes_nonzero in H.
  rewrite forallb_forall in H.
  specialize (H sym (in_map fst _ _ Hin)). simpl in H.
  rewrite Hc in H.
  destruct (price_on data d sym) as [price|]; [|discriminate].
  exists price. split; [reflexivity|].
  intros Hz. apply Qeq_bool_iff in Hz. rewrite Hz in H. discriminate.
Qed.

Lemma price_on_loc (data : list (symbol * series)) (d : date) (sym : symbol)
  (price : Q) :
  price_on data d sym = Some price ->
  (df <- getitem sym data ;; loc_close df d)%result = Ok price.
Proof.
  unfold price_on, loc_close, getitem.
  destruct (dict_get sym data) as [df|]; simpl; [|discriminate].
  now intros ->.
Qed.

(** The sale leg runs to the end as soon as the sleeve is priced. *)
Lemma sale_leg_runs (data : list (symbol * series)) (d : date)
  (amount sleeve_value : Q) (ps : positions_t) (c : Q) :
  closes_nonzero data d (symbols ps) = true ->
  let fraction := if Qltb 0 sleeve_value then amount / sleeve_value else 0 in
  exists c',
    for_items (sell_body data d amount sleeve_value) ps c =
    (None, (map (fun sp => (fst sp, sold data fraction (fst sp) (snd sp))) ps, c'))
    /\ c' == c + fraction * sleeve_total data d ps.
Proof.
  intros H fraction. revert c.
  induction ps as [|[sym p] ps IH]; intros c.
  - exists c. split; [reflexivity|]. simpl. ring.
  - assert (Hps : closes_nonzero data d (symbols ps) = true).
    { simpl in H. apply andb_prop in H. apply H. }
    simpl. unfold sell_body at 1, sold at 1. simpl.
    destruct (contains sym data) eqn:Ec.
    + destruct (closes_nonzero_price data d ((sym, p) :: ps) sym p H
                  (or_introl eq_refl) Ec) as (price & Hp & _).
      pose proof Hp as Hprice.
      unfold price_on in Hp. unfold getitem, loc_close, getitem.
      destruct (dict_get sym data) as [df|]; [|discriminate]. simpl.
      rewrite Hp. simpl.
      match goal with
      | |- context [for_items _ ps ?c0] =>
          destruct (IH Hps c0) as (c' & -> & Hc')
      end.
      exists c'. split; [reflexivity|].
      rewrite Hc', Hprice. subst fraction. ring.
    + destruct (IH Hps c) as (c' & -> & Hc').
      exists c'. split; [reflexivity|]. rewrite Hc'. ring.
Qed.

Lemma sold_total (data : list (symbol * series)) (d : date) (fraction : Q)
  (ps : positions_t) :
  sleeve_total data d
    (map (fun sp => (fst sp, sold data fraction (fst sp) (snd sp))) ps)
  == (1 - fraction) * sleeve_total data d ps.
Proof.
  induction ps as [|[sym p] ps IH]; simpl.
  - ring.
  - rewrite IH. unfold sold.
    destruct (contains sym data); [|ring].
    destruct (price_on data d sym); simpl; ring.
Qed.

(** A leg on one sleeve leaves the value of the other sleeve alone. *)
Lemma other_sleeve_total (data other : list (symbol * series)) (d : date)
  (f : symbol -> position -> position) (ps : positions_t) :
  (forall sym p, contains sym data = false -> f sym p = p) ->
  forallb (fun sym => negb (contains sym data && contains sym other))
          (symbols ps) = true ->
  sleeve_total other d (map (fun sp => (fst sp, f (fst sp) (snd sp))) ps)
  = sleeve_total other d ps.
Proof.
  intros Hf. induction ps as [|[sym p] ps IH]; simpl; intros H.
  - reflexivity.
  - apply andb_prop in H. destruct H as [H1 H2].
    rewrite (IH H2). f_equal.
    destruct (contains sym other) eqn:Eo; [|reflexivity].
    destruct (contains sym data) eqn:Ed; [discriminate|].
    now rewrite (Hf sym p Ed).
Qed.

(** The purchase leg runs to the end as soon as the closes of the sleeve
    are not zero. *)
Lemma purchase_leg_runs (data : list (symbol * series)) (d : date)
  (amount sleeve_value : Q) (ps : positions_t) (c : Q) :
  closes_nonzero data d (symbols ps) = true ->
  exists c',
    for_items (buy_body data d amount sleeve_value) ps c =
    (None,
     (map (fun sp => (fst sp, bought data d amount sleeve_value (fst sp) (snd sp)))
          ps, c'))
    /\ c' == c - amount * fraction_sum data d sleeve_value ps.
Proof.
  intros H. revert c.
  induction ps as [|[sym p] ps IH]; intros c.
  - exists c. split; [reflexivity|]. simpl. ring.
  - assert (Hps : closes_nonzero data d (symbols ps) = true).
    { simpl in H. apply andb_prop in H. apply H. }
    simpl. unfold buy_body at 1, bought at 1, buy_fraction_of at 1 2. simpl.
    destruct (contains sym data) eqn:Ec.
    + destruct (closes_nonzero_price data d ((sym, p) :: ps) sym p H
                  (or_introl eq_refl) Ec) as (price & Hp & Hnz).
      rewrite Hp.
      unfold price_on in Hp. unfold getitem, loc_close, getitem.
      destruct (dict_get sym data) as [df|]; [|discriminate]. simpl.
      rewrite Hp. simpl. rewrite (fdiv_ok _ _ Hnz). simpl.
      match goal with
      | |- context [for_items _ ps ?c0] =>
          destruct (IH Hps c0) as (c' & -> & Hc')
      end.
      exists c'. split; [reflexivity|]. rewrite Hc'. ring.
    + destruct (IH Hps c) as (c' & -> & Hc').
      exists c'. split; [reflexivity|]. rewrite Hc'. ring.
Qed.

Lemma bought_total (data : list (symbol * series)) (d : date)
  (amount sleeve_value : Q) (ps : positions_t) :
  closes_nonzero data d (symbols ps) = true ->
  sleeve_total data d
    (map (fun sp => (fst sp, bought data d amount sleeve_value (fst sp) (snd sp)))
         ps)
  == sleeve_total data d ps + amount * fraction_sum data d sleeve_value ps.
Proof.
  induction ps as [|[sym p] ps IH]; intros H.
  - simpl. ring.
  - assert (Hps : closes_nonzero data d (symbols ps) = true).
    { simpl in H. apply andb_prop in H. apply H. }
    simpl. rewrite (IH Hps). unfold bought, buy_fraction_of.
    destruct (contains sym data) eqn:Ec; [|ring].
    destruct (closes_nonzero_price data d ((sym, p) :: ps) sym p H
                (or_introl eq_refl) Ec) as (price & Hp & Hnz).
    rewrite Hp. simpl. field. exact Hnz.
Qed.

Lemma other_sleeve_fractions (data other : list (symbol * series)) (d : date)
  (sleeve_value : Q) (f : symbol -> position -> position) (ps : positions_t) :
  (forall sym p, contains sym data = false -> f sym p = p) ->
  forallb (fun sym => negb (contains sym data && contains sym other))
          (symbols ps) = true ->
  fraction_sum other d sleeve_value
    (map (fun sp => (fst sp, f (fst sp) (snd sp))) ps)
  = fraction_sum other d sleeve_value ps.
Proof.
  intros Hf. induction ps as [|[sym p] ps IH]; simpl; intros H.
  - reflexivity.
  - apply andb_prop in H. destruct H as [H1 H2].
    rewrite (IH H2). f_equal. unfold buy_fraction_of.
    destruct (contains sym other) eqn:Eo; [|reflexivity].
    destruct (contains sym data) eqn:Ed; [discriminate|].
    now rewrite (Hf sym p Ed).
Qed.

(** In a sleeve that is worth something the fractions are the value
    shares of its positions: they sum to the ratio of the sleeve's value
    now to the value the fractions are taken of. *)
Lemma fraction_sum_funded (data : list (symbol * series)) (d : date)
  (sleeve_value : Q) (ps : positions_t) :
  0 < sleeve_value ->
  fraction_sum data d sleeve_value ps == sleeve_total data d ps / sleeve_value.
Proof.
  intros Hpos.
  assert (Hnz : ~ sleeve_value == 0) by lra.
  assert (Hb : Qltb 0 sleeve_value = true) by now apply Qltb_true.
  induction ps as [|[sym p] ps IH]; simpl.
  - field. exact Hnz.
  - rewrite IH. unfold buy_fraction_of. rewrite Hb.
    destruct (contains sym data); [|field; exact Hnz].
    destruct (price_on data d sym); field; exact Hnz.
Qed.

(** In a sleeve that is worth nothing every held position gets
    [1 / len(data)]. *)
Lemma fraction_sum_unfunded (data : list (symbol * series)) (d : date)
  (sleeve_value : Q) (ps : positions_t) :
  sleeve_value <= 0 ->
  closes_nonzero data d (symbols ps) = true ->
  fraction_sum data d sleeve_value ps
  == inject_Z (Z.of_nat (held data (symbols ps))) * (1 / len data).
Proof.
  intros Hle.
  assert (Hb : Qltb 0 sleeve_value = false) by now apply Qltb_false.
  induction ps as [|[sym p] ps IH]; intros H.
  - simpl. ring.
  - assert (Hps : closes_nonzero data d (symbols ps) = true).
    { simpl in H. apply andb_prop in H. apply H. }
    simpl. rewrite (IH Hps). unfold buy_fraction_of, held. simpl.
    destruct (contains sym data) eqn:Ec; [|ring].
    destruct (closes_nonzero_price data d ((sym, p) :: ps) sym p H
                (or_introl eq_refl) Ec) as (price & Hp & _).
    rewrite Hp, Hb. simpl List.length.
    rewrite Nat2Z.inj_succ, <- Z.add_1_r, inject_Z_plus. ring.
Qed.

Lemma fraction_sum_fully_held (data : list (symbol * series)) (d : date)
  (sleeve_value : Q) (ps : positions_t) :
  sleeve_value <= 0 ->
  closes_nonzero data d (symbols ps) = true ->
  fully_held data (symbols ps) = true ->
  fraction_sum data d sleeve_value ps == 1.
Proof.
  intros Hle Hc Hf. rewrite (fraction_sum_unfunded _ _ _ _ Hle Hc).
  unfold fully_held in Hf. apply andb_prop in Hf. destruct Hf as [H1 H2].
  apply Nat.eqb_eq in H1. apply negb_true_iff, Nat.eqb_neq in H2.
  unfold len. rewrite H1 in *. field.
  intros Hz. apply H2.
  unfold Qeq in Hz. simpl in Hz. lia.
Qed.

(** ** Valuation *)

Lemma value_loop_total (m : market) (d : date) (ps : positions_t) :
  sleeves_disjoint m (symbols ps) = true ->
  closes_nonzero (dividend_data m) d (symbols ps) = true ->
  closes_nonzero (growth_data m) d (symbols ps) = true ->
  forall dv gv pv,
  exists dv' gv' pv',
    value_loop m d ps dv gv pv = Ok (dv', gv', pv') /\
    dv' == dv + sleeve_total (dividend_data m) d ps /\
    gv' == gv + sleeve_total (growth_data m) d ps /\
    pv' == pv + sleeve_total (dividend_data m) d ps
              + sleeve_total (growth_data m) d ps.
Proof.
  induction ps as [|[sym p] ps IH]; intros Hd Hcd Hcg dv gv pv.
  - exists dv, gv, pv. simpl. repeat split; ring.
  - pose proof Hd as Hd'. pose proof Hcd as Hcd'. pose proof Hcg as Hcg'.
    simpl in Hd', Hcd', Hcg'.
    apply andb_prop in Hd', Hcd', Hcg'.
    destruct Hd' as [Hd1 Hd2], Hcd' as [_ Hcd2], Hcg' as [_ Hcg2].
    specialize (IH Hd2 Hcd2 Hcg2). simpl.
    destruct (contains sym (dividend_data m)) eqn:Ed.
    + destruct (closes_nonzero_price _ d _ sym p Hcd (or_introl eq_refl) Ed)
        as (price & Hp & _).
      assert (Eg : contains sym (growth_data m) = false).
      { destruct (contains sym (growth_data m)); [discriminate|reflexivity]. }
      rewrite Eg, Hp.
      unfold price_on in Hp. unfold getitem, loc_close, getitem.
      destruct (dict_get sym (dividend_data m)) as [df|]; [|discriminate].
      simpl. rewrite Hp. simpl.
      destruct (IH (dv + shares p * price) gv (pv + shares p * price))
        as (dv' & gv' & pv' & -> & H1 & H2 & H3).
      exists dv', gv', pv'. split; [reflexivity|].
      rewrite H1, H2, H3. repeat split; ring.
    + destruct (contains sym (growth_data m)) eqn:Eg.
      * destruct (closes_nonzero_price _ d _ sym p Hcg (or_introl eq_refl) Eg)
          as (price & Hp & _).
        rewrite Hp.
        unfold price_on in Hp. unfold getitem, loc_close, getitem.
        destruct (dict_get sym (growth_data m)) as [df|]; [|discriminate].
        simpl. rewrite Hp. simpl.
        destruct (IH dv (gv + shares p * price) (pv + shares p * price))
          as (dv' & gv' & pv' & -> & H1 & H2 & H3).
        exists dv', gv', pv'. split; [reflexivity|].
        rewrite H1, H2, H3. repeat split; ring.
      * destruct (IH dv gv pv) as (dv' & gv' & pv' & -> & H1 & H2 & H3).
        exists dv', gv', pv'. split; [reflexivity|].
        rewrite H1, H2, H3. repeat split; ring.
Qed.

(** ** A transfer between the sleeves *)

Lemma disjoint_on_sym (src dst : list (symbol * series)) (syms : list symbol) :
  disjoint_on src dst syms = disjoint_on dst src syms.
Proof.
  unfold disjoint_on. induction syms as [|sym syms IH]; simpl.
  - reflexivity.
  - rewrite IH. f_equal. f_equal. apply andb_comm.
Qed.

Lemma sold_outside (data : list (symbol * series)) (fraction : Q)
  (sym : symbol) (p : position) :
  contains sym data = false -> sold data fraction sym p = p.
Proof. unfold sold. now intros ->. Qed.

Lemma bought_outside (data : list (symbol * series)) (d : date)
  (amount sleeve_value : Q) (sym : symbol) (p : position) :
  contains sym data = false -> bought data d amount sleeve_value sym p = p.
Proof. unfold bought. now intros ->. Qed.

(** Both legs run; [cash] gets the proceeds of the sale and pays the
    purchases; the source sleeve loses the sold fraction of its value and
    the destination sleeve gains what was paid. *)
Lemma transfer_runs (src dst : list (symbol * series)) (d : date)
  (amount src_value dst_value : Q) (ps : positions_t) (c : Q) :
  disjoint_on src dst (symbols ps) = true ->
  closes_nonzero src d (symbols ps) = true ->
  closes_nonzero dst d (symbols ps) = true ->
  let ps1 := map (fun sp => (fst sp, sold src (sale_fraction amount src_value)
                                          (fst sp) (snd sp))) ps in
  let ps2 := transferred src dst d amount src_value dst_value ps in
  exists c1 c2,
    for_items (sell_body src d amount src_value) ps c = (None, (ps1, c1)) /\
    for_items (buy_body dst d amount dst_value) ps1 c1 = (None, (ps2, c2)) /\
    symbols ps2 = symbols ps /\
    c2 == c + sale_fraction amount src_value * sleeve_total src d ps
            - amount * fraction_sum dst d dst_value ps /\
    sleeve_total src d ps2
    == (1 - sale_fraction amount src_value) * sleeve_total src d ps /\
    sleeve_total dst d ps2
    == sleeve_total dst d ps + amount * fraction_sum dst d dst_value ps.
Proof.
  intros Hd Hs Hb ps1 ps2.
  assert (Hsym1 : symbols ps1 = symbols ps) by apply symbols_map.
  destruct (sale_leg_runs src d amount src_value ps c Hs) as (c1 & Hrun1 & Hc1).
  assert (Hb1 : closes_nonzero dst d (symbols ps1) = true)
    by now rewrite Hsym1.
  destruct (purchase_leg_runs dst d amount dst_value ps1 c1 Hb1)
    as (c2 & Hrun2 & Hc2).
  assert (Hfr : fraction_sum dst d dst_value ps1
                = fraction_sum dst d dst_value ps).
  { apply (other_sleeve_fractions src dst d dst_value
             (sold src (sale_fraction amount src_value)) ps);
      [apply sold_outside | exact Hd]. }
  exists c1, c2. split; [exact Hrun1|]. split; [exact Hrun2|].
  split; [|split; [|split]].
  - unfold ps2, transferred. now rewrite symbols_map.
  - rewrite Hc2, Hc1, Hfr. unfold sale_fraction. ring.
  - unfold ps2, transferred. fold ps1.
    rewrite (other_sleeve_total dst src d (bought dst d amount dst_value) ps1).
    + apply sold_total.
    + apply bought_outside.
    + rewrite Hsym1. fold (disjoint_on dst src (symbols ps)).
      now rewrite disjoint_on_sym.
  - unfold ps2, transferred. fold ps1.
    rewrite (bought_total dst d amount dst_value ps1 Hb1), Hfr.
    unfold ps1.
    rewrite (other_sleeve_total src dst d
               (sold src (sale_fraction amount src_value)) ps);
      [reflexivity | | exact Hd].
    apply sold_outside.
Qed.

Lemma for_positions_run
  (body : symbol -> position -> Q -> result (position * Q)) (st : state)
  (ps' : positions_t) (c' : Q) :
  for_items body (positions st) (cash st) = (None, (ps', c')) ->
  for_positions body st = (Ok tt, set_ledger st ps' c').
Proof.
  intros H. unfold for_positions. now rewrite H.
Qed.

(** The state a branch leaves: the branch-local amount is bound and the
    ledger is the transferred one. *)
Lemma sell_dividend_branch_runs (m : market) (d : date) (mc : string)
  (target dv gv pv : Q) (st : state) :
  sleeves_disjoint m (symbols (positions st)) = true ->
  closes_nonzero (dividend_data m) d (symbols (positions st)) = true ->
  closes_nonzero (growth_data m) d (symbols (positions st)) = true ->
  let excess := dv - pv * target in
  exists c2,
    sell_dividend_branch m d mc target dv gv pv st =
    (Ok (("sell_dividend_" ++ mc)%string, pv * target),
     set_ledger (set_excess st excess)
       (transferred (dividend_data m) (growth_data m) d excess dv gv
                    (positions st)) c2) /\
    c2 == cash st
          + sale_fraction excess dv * sleeve_total (dividend_data m) d (positions st)
          - excess * fraction_sum (growth_data m) d gv (positions st).
Proof.
  intros Hd Hcd Hcg excess.
  destruct (transfer_runs (dividend_data m) (growth_data m) d excess dv gv
              (positions st) (cash st) Hd Hcd Hcg)
    as (c1 & c2 & Hrun1 & Hrun2 & _ & Hc2 & _).
  exists c2. split; [|exact Hc2].
  unfold sell_dividend_branch, bind, modify, ret. fold excess.
  rewrite (for_positions_run _ (set_excess st excess) _ c1 Hrun1).
  rewrite (for_positions_run _ (set_ledger (set_excess st excess) _ c1) _ c2 Hrun2).
  reflexivity.
Qed.

Lemma buy_dividend_branch_runs (m : market) (d : date) (mc : string)
  (target dv gv pv : Q) (st : state) :
  sleeves_disjoint m (symbols (positions st)) = true ->
  closes_nonzero (dividend_data m) d (symbols (positions st)) = true ->
  closes_nonzero (growth_data m) d (symbols (positions st)) = true ->
  let deficit := pv * target - dv in
  exists c2,
    buy_dividend_branch m d mc target dv gv pv st =
    (Ok (("buy_dividend_" ++ mc)%string, pv * target),
     set_ledger (set_deficit st deficit)
       (transferred (growth_data m) (dividend_data m) d deficit gv dv
                    (positions st)) c2) /\
    c2 == cash st
          + sale_fraction deficit gv * sleeve_total (growth_data m) d (positions st)
          - deficit * fraction_sum (dividend_data m) d dv (positions st).
Proof.
  intros Hd Hcd Hcg deficit.
  assert (Hd' : disjoint_on (growth_data m) (dividend_data m)
                  (symbols (positions st)) = true)
    by (rewrite disjoint_on_sym; exact Hd).
  destruct (transfer_runs (growth_data m) (dividend_data m) d deficit gv dv
              (positions st) (cash st) Hd' Hcg Hcd)
    as (c1 & c2 & Hrun1 & Hrun2 & _ & Hc2 & _).
  exists c2. split; [|exact Hc2].
  unfold buy_dividend_branch, bind, modify, ret. fold deficit.
  rewrite (for_positions_run _ (set_deficit st deficit) _ c1 Hrun1).
  rewrite (for_positions_run _ (set_ledger (set_deficit st deficit) _ c1) _ c2 Hrun2).
  reflexivity.
Qed.

(** ** The rebalancing phase of one date *)

(** What valuation returns is the value of the two sleeves and [cash]. *)
Lemma value_loop_values (m : market) (d : date) (ps : positions_t) (c : Q)
  (dv gv pv : Q) :
  sleeves_disjoint m (symbols ps) = true ->
  closes_nonzero (dividend_data m) d (symbols ps) = true ->
  closes_nonzero (growth_data m) d (symbols ps) = true ->
  value_loop m d ps 0 0 c = Ok (dv, gv, pv) ->
  dv == sleeve_total (dividend_data m) d ps /\
  gv == sleeve_total (growth_data m) d ps /\
  pv == c + sleeve_total (dividend_data m) d ps
          + sleeve_total (growth_data m) d ps.
Proof.
  intros Hd Hcd Hcg Hval.
  destruct (value_loop_total m d ps Hd Hcd Hcg 0 0 c)
    as (dv' & gv' & pv' & Hrun & H1 & H2 & H3).
  rewrite Hrun in Hval. injection Hval as <- <- <-.
  rewrite H1, H2, H3. repeat split; ring.
Qed.

(** The sell-dividend branch, its event and the revaluation. *)
Lemma rebalance_phase_sell (m : market) (d : date) (mc : string)
  (target dv gv pv a : Q) (st : state) :
  sleeves_disjoint m (symbols (positions st)) = true ->
  closes_nonzero (dividend_data m) d (symbols (positions st)) = true ->
  closes_nonzero (growth_data m) d (symbols (positions st)) = true ->
  Qltb (target + 0.05) a = true ->
  ~ pv == 0 ->
  let excess := dv - pv * target in
  let ps := positions st in
  exists c2 dv' gv' pv',
    rebalance_phase m d mc target dv gv pv a st =
    (Ok (dv', gv', pv'),
     add_event
       (set_ledger (set_excess st excess)
          (transferred (dividend_data m) (growth_data m) d excess dv gv ps) c2)
       {| ev_date := d; ev_type := ("sell_dividend_" ++ mc)%string;
          ev_market_condition := mc; target_alloc := target;
          excess_moved := excess; dividend_alloc_before := a;
          dividend_alloc_after := pv * target / pv |}) /\
    c2 == cash st
          + sale_fraction excess dv * sleeve_total (dividend_data m) d ps
          - excess * fraction_sum (growth_data m) d gv ps /\
    dv' == (1 - sale_fraction excess dv) * sleeve_total (dividend_data m) d ps /\
    gv' == sleeve_total (growth_data m) d ps
           + excess * fraction_sum (growth_data m) d gv ps /\
    pv' == cash st + sleeve_total (dividend_data m) d ps
                   + sleeve_total (growth_data m) d ps.
Proof.
  intros Hd Hcd Hcg Hup Hpv excess ps.
  destruct (sell_dividend_branch_runs m d mc target dv gv pv st Hd Hcd Hcg)
    as (c2 & Hrun & Hc2).
  destruct (transfer_runs (dividend_data m) (growth_data m) d excess dv gv
              ps (cash st) Hd Hcd Hcg)
    as (_ & _ & _ & _ & Hsym & _ & Hsrc & Hdst).
  set (ps2 := transferred (dividend_data m) (growth_data m) d excess dv gv ps)
    in *.
  destruct (value_loop_total m d ps2) with (dv := 0) (gv := 0) (pv := c2)
    as (dv' & gv' & pv' & Hval & H1 & H2 & H3);
    try (rewrite Hsym; assumption).
  exists c2, dv', gv', pv'.
  split; [|split; [exact Hc2|]].
  - unfold rebalance_phase. cbv zeta. rewrite Hup.
    unfold bind at 1 2. rewrite Hrun.
    unfold ret at 1. cbv beta iota.
    unfold record_event, bind, lift, modify.
    unfold moved_amount. cbn [excess_dividend_value set_ledger set_excess].
    rewrite (fdiv_ok _ _ Hpv).
    unfold value_by_sleeve. cbn [positions cash add_event set_ledger].
    fold excess. fold ps. fold ps2. rewrite Hval. reflexivity.
  - rewrite H1, H2, H3, Hsrc, Hdst, Hc2. subst excess ps.
    repeat split; ring.
Qed.

(** The buy-dividend branch, its event and the revaluation.  The amount
    the event records is the one [moved_amount] reads. *)
Lemma rebalance_phase_buy (m : market) (d : date) (mc : string)
  (target dv gv pv a : Q) (st : state) :
  sleeves_disjoint m (symbols (positions st)) = true ->
  closes_nonzero (dividend_data m) d (symbols (positions st)) = true ->
  closes_nonzero (growth_data m) d (symbols (positions st)) = true ->
  Qltb (target + 0.05) a = false ->
  Qltb a (target - 0.05) = true ->
  ~ pv == 0 ->
  let deficit := pv * target - dv in
  let ps := positions st in
  exists c2 dv' gv' pv',
    rebalance_phase m d mc target dv gv pv a st =
    (Ok (dv', gv', pv'),
     add_event
       (set_ledger (set_deficit st deficit)
          (transferred (growth_data m) (dividend_data m) d deficit gv dv ps) c2)
       {| ev_date := d; ev_type := ("buy_dividend_" ++ mc)%string;
          ev_market_condition := mc; target_alloc := target;
          excess_moved := match excess_dividend_value st with
                          | Some x => x
                          | None => deficit
                          end;
          dividend_alloc_before := a;
          dividend_alloc_after := pv * target / pv |}) /\
    c2 == cash st
          + sale_fraction deficit gv * sleeve_total (growth_data m) d ps
          - deficit * fraction_sum (dividend_data m) d dv ps /\
    dv' == sleeve_total (dividend_data m) d ps
           + deficit * fraction_sum (dividend_data m) d dv ps /\
    gv' == (1 - sale_fraction deficit gv) * sleeve_total (growth_data m) d ps /\
    pv' == cash st + sleeve_total (dividend_data m) d ps
                   + sleeve_total (growth_data m) d ps.
Proof.
  intros Hd Hcd Hcg Hup Hlow Hpv deficit ps.
  destruct (buy_dividend_branch_runs m d mc target dv gv pv st Hd Hcd Hcg)
    as (c2 & Hrun & Hc2).
  assert (Hd' : disjoint_on (growth_data m) (dividend_data m) (symbols ps) = true)
    by (rewrite disjoint_on_sym; exact Hd).
  destruct (transfer_runs (growth_data m) (dividend_data m) d deficit gv dv
              ps (cash st) Hd' Hcg Hcd)
    as (_ & _ & _ & _ & Hsym & _ & Hsrc & Hdst).
  set (ps2 := transferred (growth_data m) (dividend_data m) d deficit gv dv ps)
    in *.
  destruct (value_loop_total m d ps2) with (dv := 0) (gv := 0) (pv := c2)
    as (dv' & gv' & pv' & Hval & H1 & H2 & H3);
    try (rewrite Hsym; assumption).
  exists c2, dv', gv', pv'.
  split; [|split; [exact Hc2|]].
  - unfold rebalance_phase. cbv zeta. rewrite Hup, Hlow.
    unfold bind at 1 2. rewrite Hrun.
    unfold ret at 1. cbv beta iota.
    unfold record_event, bind, lift, modify.
    unfold moved_amount.
    cbn [excess_dividend_value deficit_dividend_value set_ledger set_deficit].
    rewrite (fdiv_ok _ _ Hpv).
    unfold value_by_sleeve.
    fold deficit. fold ps. fold ps2.
    destruct (excess_dividend_value st) as [x|];
      cbn [positions cash add_event set_ledger]; rewrite Hval; reflexivity.
  - rewrite H1, H2, H3, Hsrc, Hdst, Hc2. subst deficit ps.
    repeat split; ring.
Qed.

(** Inside the band nothing happens. *)
Lemma rebalance_phase_hold (m : market) (d : date) (mc : string)
  (target dv gv pv a : Q) (st : state) :
  Qltb (target + 0.05) a = false ->
  Qltb a (target - 0.05) = false ->
  rebalance_phase m d mc target dv gv pv a st = (Ok (dv, gv, pv), st).
Proof.
  intros Hup Hlow. unfold rebalance_phase. cbv zeta. rewrite Hup, Hlow.
  reflexivity.
Qed.

(** ** The tolerance band *)

Lemma alloc_funded (x y : Q) : 0 < y -> alloc x y = x / y.
Proof.
  intros H. unfold alloc. apply Qltb_true in H. now rewrite H.
Qed.

Lemma alloc_unfunded (x y : Q) : y <= 0 -> alloc x y = 0.
Proof.
  intros H. unfold alloc. apply Qltb_false in H. now rewrite H.
Qed.

(** Above a band that starts at a nonnegative target the portfolio and its
    dividend sleeve are worth something. *)
Lemma above_band_funded (target dv pv : Q) :
  0 <= target -> target + 0.05 < alloc dv pv -> 0 < pv /\ 0 < dv.
Proof.
  intros Ht Ha.
  destruct (Qlt_le_dec 0 pv) as [Hpv|Hpv].
  - split; [exact Hpv|].
    rewrite (alloc_funded _ _ Hpv) in Ha.
    assert (Hq : 0 < dv / pv) by lra.
    assert (Hd : dv == (dv / pv) * pv) by (field; lra).
    rewrite Hd. apply Qmult_lt_0_compat; assumption.
  - rewrite (alloc_unfunded _ _ Hpv) in Ha. lra.
Qed.

Lemma value_by_sleeve_values (m : market) (d : date) (st : state)
  (dv gv pv : Q) :
  sleeves_disjoint m (symbols (positions st)) = true ->
  closes_nonzero (dividend_data m) d (symbols (positions st)) = true ->
  closes_nonzero (growth_data m) d (symbols (positions st)) = true ->
  value_by_sleeve m d st = (Ok (dv, gv, pv), st) ->
  dv == sleeve_total (dividend_data m) d (positions st) /\
  gv == sleeve_total (growth_data m) d (positions st) /\
  pv == cash st + dv + gv.
Proof.
  intros Hd Hcd Hcg Hval. unfold value_by_sleeve in Hval.
  injection Hval as Hval.
  destruct (value_loop_values m d _ _ dv gv pv Hd Hcd Hcg Hval)
    as (H1 & H2 & H3).
  rewrite H3, H1, H2. repeat split; ring.
Qed.

(** The purchases add up to the moved amount when the destination sleeve
    is worth something, or is worth nothing but holds a position for each
    of its symbols. *)
Lemma fraction_sum_whole (data : list (symbol * series)) (d : date)
  (sleeve_value : Q) (ps : positions_t) :
  closes_nonzero data d (symbols ps) = true ->
  sleeve_value == sleeve_total data d ps ->
  0 < sleeve_value \/ fully_held data (symbols ps) = true ->
  fraction_sum data d sleeve_value ps == 1.
Proof.
  intros Hc Hv Hcase.
  destruct (Qlt_le_dec 0 sleeve_value) as [Hpos|Hle].
  - rewrite (fraction_sum_funded _ _ _ _ Hpos), <- Hv. field. lra.
  - destruct Hcase as [Hpos|Hfull]; [lra|].
    now apply fraction_sum_fully_held.
Qed.

Lemma sale_fraction_funded (amount sleeve_value : Q) :
  0 < sleeve_value -> sale_fraction amount sleeve_value = amount / sleeve_value.
Proof.
  intros H. unfold sale_fraction. apply Qltb_true in H. now rewrite H.
Qed.

(** C1 (amended).  On a ledger whose positions are valued at
    [(dv, gv, pv)] on [d], with a nonnegative target and
    [a = alloc dv pv] the current dividend fraction:
    - inside the band [[target - 0.05, target + 0.05]] no trade occurs:
      the phase returns the same values and the same state;
    - above the band the sell-dividend branch runs, records the event and
      binds [excess_dividend_value = dv - pv * target]; the dividend
      sleeve is worth that much less afterwards, the growth sleeve gets
      its purchases, the total is unchanged and the recomputed dividend
      fraction equals the target;
    - below the band (and [pv] not zero, which the event divides by) the
      buy-dividend branch runs, records the event and binds
      [deficit_dividend_value = pv * target - dv]; the total is unchanged;
      the dividend sleeve is worth that much more and the recomputed
      fraction equals the target provided the total is positive and the
      dividend sleeve is worth something or holds a position for each of
      its symbols. *)
Theorem tolerance_band_rebalance (m : market) (d : date) (mc : string)
  (target dv gv pv : Q) (st : state) :
  sleeves_disjoint m (symbols (positions st)) = true ->
  closes_nonzero (dividend_data m) d (symbols (positions st)) = true ->
  closes_nonzero (growth_data m) d (symbols (positions st)) = true ->
  value_by_sleeve m d st = (Ok (dv, gv, pv), st) ->
  0 <= target ->
  let a := alloc dv pv in
  let run := rebalance_phase m d mc target dv gv pv a st in
  (target - 0.05 <= a -> a <= target + 0.05 -> run = (Ok (dv, gv, pv), st)) /\
  (target + 0.05 < a ->
   exists st' dv' gv' pv' e,
     run = (Ok (dv', gv', pv'), st') /\
     rebalancing_events st' = rebalancing_events st ++ [e] /\
     ev_type e = ("sell_dividend_" ++ mc)%string /\
     excess_moved e = dv - pv * target /\
     excess_dividend_value st' = Some (dv - pv * target) /\
     dv' == dv - (dv - pv * target) /\
     gv' == gv + (dv - pv * target)
                 * fraction_sum (growth_data m) d gv (positions st) /\
     pv' == pv /\
     alloc dv' pv' == target) /\
  (a < target - 0.05 -> ~ pv == 0 ->
   exists st' dv' gv' pv' e,
     run = (Ok (dv', gv', pv'), st') /\
     rebalancing_events st' = rebalancing_events st ++ [e] /\
     ev_type e = ("buy_dividend_" ++ mc)%string /\
     deficit_dividend_value st' = Some (pv * target - dv) /\
     pv' == pv /\
     (0 < pv ->
      0 < dv \/ fully_held (dividend_data m) (symbols (positions st)) = true ->
      dv' == dv + (pv * target - dv) /\ alloc dv' pv' == target)).
Proof.
  intros Hd Hcd Hcg Hval Ht a run.
  destruct (value_by_sleeve_values m d st dv gv pv Hd Hcd Hcg Hval)
    as (Hdv & Hgv & Hpv).
  split; [|split].
  - intros Hlo Hhi. apply rebalance_phase_hold; now apply Qltb_false.
  - intros Ha.
    destruct (above_band_funded target dv pv Ht Ha) as [Hpv0 Hdv0].
    assert (Hnz : ~ pv == 0) by lra.
    apply Qltb_true in Ha.
    destruct (rebalance_phase_sell m d mc target dv gv pv a st Hd Hcd Hcg Ha Hnz)
      as (c2 & dv' & gv' & pv' & Hrun & _ & H1 & H2 & H3).
    assert (Edv : dv' == dv - (dv - pv * target)).
    { rewrite H1, (sale_fraction_funded _ _ Hdv0), <- Hdv. field. lra. }
    assert (Epv : pv' == pv) by (rewrite H3, Hpv, <- Hdv, <- Hgv; ring).
    eexists _, dv', gv', pv', _.
    split; [exact Hrun|]. cbn.
    repeat split; try reflexivity.
    + exact Edv.
    + rewrite H2, <- Hgv. reflexivity.
    + exact Epv.
    + rewrite alloc_funded by (rewrite Epv; exact Hpv0).
      rewrite Edv, Epv. field. lra.
  - intros Ha Hnz.
    assert (Hup : Qltb (target + 0.05) a = false).
    { apply Qltb_false. lra. }
    apply Qltb_true in Ha.
    destruct (rebalance_phase_buy m d mc target dv gv pv a st Hd Hcd Hcg Hup Ha Hnz)
      as (c2 & dv' & gv' & pv' & Hrun & _ & H1 & _ & H3).
    assert (Epv : pv' == pv) by (rewrite H3, Hpv, <- Hdv, <- Hgv; ring).
    eexists _, dv', gv', pv', _.
    split; [exact Hrun|]. cbn.
    repeat split; try reflexivity.
    + exact Epv.
    + rewrite H1, <- Hdv.
      rewrite (fraction_sum_whole _ d dv (positions st) Hcd Hdv H0). ring.
    + assert (Edv : dv' == pv * target).
      { rewrite H1, <- Hdv.
        rewrite (fraction_sum_whole _ d dv (positions st) Hcd Hdv H0). ring. }
      rewrite alloc_funded by (rewrite Epv; exact H).
      rewrite Edv, Epv. field. lra.
Qed.

(** The witness of C1: a dividend sleeve that drifted to 77 percent of
    100000 dollars is sold down to the sideways target of 70 percent, and a
    sleeve that fell to 60 percent is bought up to it. *)
Lemma tolerance_band_rebalance_witness :
  (exists st' dv' gv' pv',
     rebalance_phase drift_market "2014-01-03" "sideways" 0.70
       77000 23000 100000 (alloc 77000 100000) drift_state
     = (Ok (dv', gv', pv'), st') /\
     excess_dividend_value st' = Some (77000 - 100000 * 0.70) /\
     dv' == 70000 /\ pv' == 100000 /\ alloc dv' pv' == 0.70) /\
  (exists st' dv' gv' pv',
     rebalance_phase drift_market "2014-01-03" "sideways" 0.70
       60000 40000 100000 (alloc 60000 100000) lag_state
     = (Ok (dv', gv', pv'), st') /\
     deficit_dividend_value st' = Some (100000 * 0.70 - 60000) /\
     dv' == 70000 /\ pv' == 100000 /\ alloc dv' pv' == 0.70).
Proof.
  assert (Ht : 0 <= 0.70) by (vm_compute; discriminate).
  split.
  - destruct (tolerance_band_rebalance drift_market "2014-01-03" "sideways"
                0.70 77000 23000 100000 drift_state
                eq_refl eq_refl eq_refl eq_refl Ht) as (_ & Hsell & _).
    destruct Hsell
      as (st' & dv' & gv' & pv' & e & Hrun & _ & _ & _ & Hx & Hdv & _ & Hpv & Ha);
      [vm_compute; reflexivity|].
    exists st', dv', gv', pv'.
    split; [exact Hrun|]. split; [exact Hx|].
    split; [rewrite Hdv; reflexivity|]. split; [exact Hpv | exact Ha].
  - destruct (tolerance_band_rebalance drift_market "2014-01-03" "sideways"
                0.70 60000 40000 100000 lag_state
                eq_refl eq_refl eq_refl eq_refl Ht) as (_ & _ & Hbuy).
    destruct Hbuy
      as (st' & dv' & gv' & pv' & e & Hrun & _ & _ & Hx & Hpv & Hfrac);
      [vm_compute; reflexivity | vm_compute; discriminate |].
    destruct Hfrac as [Hdv Ha];
      [vm_compute; reflexivity | left; vm_compute; reflexivity |].
    exists st', dv', gv', pv'.
    split; [exact Hrun|]. split; [exact Hx|].
    split; [rewrite Hdv; reflexivity|]. split; [exact Hpv | exact Ha].
Defined.

(** The counterexample of C1 as stated.  No dividend stock was loaded, so
    the ledger after the initial allocation holds the growth sleeve and
    70000 dollars of cash.  On the first date the dividend fraction is 0,
    below the band of the sideways target: the buy-dividend branch sells
    growth shares, finds no dividend position to buy, and the dividend
    fraction recomputed after the trade is still 0, not 0.70. *)
Lemma buy_dividend_misses_target_without_dividend_positions :
  exists ps c dv gv pv,
    initialize no_dividend_market = Ok (ps, c) /\
    value_by_sleeve no_dividend_market "2014-01-02" (initial_state ps c)
    = (Ok (dv, gv, pv), initial_state ps c) /\
    detect_market_condition "2014-01-02" (spy_data no_dividend_market)
      market_lookback_days market_threshold = ("sideways", 0.70) /\
    ~ trade_hits_target no_dividend_market "2014-01-02" "sideways" 0.70
        dv gv pv (initial_state ps c).
Proof.
  eexists _, _, _, _, _.
  split; [vm_compute; reflexivity|].
  split; [vm_compute; reflexivity|].
  split; [reflexivity|].
  intros H.
  match type of H with
  | trade_hits_target ?m ?d ?mc ?t ?dv ?gv ?pv ?st =>
      destruct (rebalance_phase m d mc t dv gv pv (alloc dv pv) st)
        as [[v|e] st'] eqn:E
  end.
  - specialize (H v st' E).
    vm_compute in E. injection E as <- <-.
    assert (Hc := H ltac:(discriminate)).
    vm_compute in Hc. discriminate Hc.
  - vm_compute in E. discriminate E.
Qed.

(** ** Cash through a rebalance *)

(** C4 (amended).  On a ledger valued at [(dv, gv, pv)] on [d], a branch
    whose source sleeve is worth something, and whose destination sleeve
    is worth something or holds a position for each of its symbols (the
    equal-weight fallback), runs both legs, the sale adds exactly the
    moved amount to [cash], the purchases remove exactly the same amount,
    and [cash] ends where it started.  This holds for the sell-dividend
    branch (source: dividend sleeve) and for the buy-dividend branch
    (source: growth sleeve). *)
Theorem rebalance_restores_cash (m : market) (d : date) (mc : string)
  (target dv gv pv : Q) (st : state) :
  sleeves_disjoint m (symbols (positions st)) = true ->
  closes_nonzero (dividend_data m) d (symbols (positions st)) = true ->
  closes_nonzero (growth_data m) d (symbols (positions st)) = true ->
  value_by_sleeve m d st = (Ok (dv, gv, pv), st) ->
  (0 < dv ->
   0 < gv \/ fully_held (growth_data m) (symbols (positions st)) = true ->
   let excess := dv - pv * target in
   exists st1 st2 v,
     for_positions (sell_body (dividend_data m) d excess dv)
                   (set_excess st excess) = (Ok tt, st1) /\
     cash st1 == cash st + excess /\
     for_positions (buy_body (growth_data m) d excess gv) st1 = (Ok tt, st2) /\
     cash st2 == cash st1 - excess /\
     sell_dividend_branch m d mc target dv gv pv st = (Ok v, st2) /\
     cash st2 == cash st) /\
  (0 < gv ->
   0 < dv \/ fully_held (dividend_data m) (symbols (positions st)) = true ->
   let deficit := pv * target - dv in
   exists st1 st2 v,
     for_positions (sell_body (growth_data m) d deficit gv)
                   (set_deficit st deficit) = (Ok tt, st1) /\
     cash st1 == cash st + deficit /\
     for_positions (buy_body (dividend_data m) d deficit dv) st1 = (Ok tt, st2) /\
     cash st2 == cash st1 - deficit /\
     buy_dividend_branch m d mc target dv gv pv st = (Ok v, st2) /\
     cash st2 == cash st).
Proof.
  intros Hd Hcd Hcg Hval.
  destruct (value_by_sleeve_values m d st dv gv pv Hd Hcd Hcg Hval)
    as (Hdv & Hgv & _).
  assert (Hd' : disjoint_on (growth_data m) (dividend_data m)
                  (symbols (positions st)) = true)
    by (rewrite disjoint_on_sym; exact Hd).
  split.
  - intros Hsrc Hdst excess.
    destruct (transfer_runs (dividend_data m) (growth_data m) d excess dv gv
                (positions st) (cash st) Hd Hcd Hcg)
      as (c1 & c2 & Hrun1 & Hrun2 & _ & Hc2 & _).
    destruct (sale_leg_runs (dividend_data m) d excess dv (positions st)
                (cash st) Hcd) as (c1' & Hrun1' & Hc1).
    fold (sale_fraction excess dv) in Hrun1', Hc1.
    rewrite Hrun1 in Hrun1'. injection Hrun1' as <-.
    assert (E1 : c1 == cash st + excess).
    { rewrite Hc1, (sale_fraction_funded _ _ Hsrc), <- Hdv. field. lra. }
    assert (E2 : c2 == c1 - excess).
    { rewrite Hc2, E1, (sale_fraction_funded _ _ Hsrc), <- Hdv.
      rewrite (fraction_sum_whole _ d gv (positions st) Hcg Hgv Hdst).
      field. lra. }
    eexists _, _, _.
    split; [apply (for_positions_run _ (set_excess st excess) _ c1 Hrun1)|].
    split; [exact E1|].
    split; [apply (for_positions_run _ (set_ledger (set_excess st excess) _ c1)
                     _ c2 Hrun2)|].
    split; [exact E2|].
    split.
    + unfold sell_dividend_branch, bind, modify, ret. fold excess.
      rewrite (for_positions_run _ (set_excess st excess) _ c1 Hrun1).
      rewrite (for_positions_run _ (set_ledger (set_excess st excess) _ c1)
                 _ c2 Hrun2).
      reflexivity.
    + cbn. rewrite E2, E1. ring.
  - intros Hsrc Hdst deficit.
    destruct (transfer_runs (growth_data m) (dividend_data m) d deficit gv dv
                (positions st) (cash st) Hd' Hcg Hcd)
      as (c1 & c2 & Hrun1 & Hrun2 & _ & Hc2 & _).
    destruct (sale_leg_runs (growth_data m) d deficit gv (positions st)
                (cash st) Hcg) as (c1' & Hrun1' & Hc1).
    fold (sale_fraction deficit gv) in Hrun1', Hc1.
    rewrite Hrun1 in Hrun1'. injection Hrun1' as <-.
    assert (E1 : c1 == cash st + deficit).
    { rewrite Hc1, (sale_fraction_funded _ _ Hsrc), <- Hgv. field. lra. }
    assert (E2 : c2 == c1 - deficit).
    { rewrite Hc2, E1, (sale_fraction_funded _ _ Hsrc), <- Hgv.
      rewrite (fraction_sum_whole _ d dv (positions st) Hcd Hdv Hdst).
      field. lra. }
    eexists _, _, _.
    split; [apply (for_positions_run _ (set_deficit st deficit) _ c1 Hrun1)|].
    split; [exact E1|].
    split; [apply (for_positions_run _ (set_ledger (set_deficit st deficit) _ c1)
                     _ c2 Hrun2)|].
    split; [exact E2|].
    split.
    + unfold buy_dividend_branch, bind, modify, ret. fold deficit.
      rewrite (for_positions_run _ (set_deficit st deficit) _ c1 Hrun1).
      rewrite (for_positions_run _ (set_ledger (set_deficit st deficit) _ c1)
                 _ c2 Hrun2).
      reflexivity.
    + cbn. rewrite E2, E1. ring.
Qed.

(** The witness of C4: the drifted ledger sells 7000 dollars of dividend
    stock and buys 7000 dollars of growth stock; the ledger that lags buys
    10000 dollars of dividend stock with the proceeds of growth stock. *)
Lemma rebalance_restores_cash_witness :
  (exists v st',
     sell_dividend_branch drift_market "2014-01-03" "sideways" 0.70
       77000 23000 100000 drift_state = (Ok v, st') /\
     cash st' == cash drift_state) /\
  (exists v st',
     buy_dividend_branch drift_market "2014-01-03" "sideways" 0.70
       60000 40000 100000 lag_state = (Ok v, st') /\
     cash st' == cash lag_state).
Proof.
  split.
  - destruct (rebalance_restores_cash drift_market "2014-01-03" "sideways"
                0.70 77000 23000 100000 drift_state
                eq_refl eq_refl eq_refl eq_refl) as (Hsell & _).
    destruct Hsell as (st1 & st2 & v & _ & _ & _ & _ & Hrun & Hcash);
      [vm_compute; reflexivity | left; vm_compute; reflexivity |].
    exists v, st2. split; [exact Hrun | exact Hcash].
  - destruct (rebalance_restores_cash drift_market "2014-01-03" "sideways"
                0.70 60000 40000 100000 lag_state
                eq_refl eq_refl eq_refl eq_refl) as (_ & Hbuy).
    destruct Hbuy as (st1 & st2 & v & _ & _ & _ & _ & Hrun & Hcash);
      [vm_compute; reflexivity | left; vm_compute; reflexivity |].
    exists v, st2. split; [exact Hrun | exact Hcash].
Defined.

(** The counterexample of C4 as stated.  No growth stock was loaded; the
    initial allocation leaves 1400 shares and 30000 dollars of cash.  On
    the second date the share price has doubled, the dividend fraction is
    above the band, and the sell-dividend branch sells 21000 dollars of
    stock with no growth position to buy: [cash] ends 21000 dollars
    higher than it started. *)
Lemma sell_dividend_keeps_proceeds_without_growth_positions :
  exists ps c dv gv pv,
    initialize no_growth_market = Ok (ps, c) /\
    value_by_sleeve no_growth_market "2014-01-03" (initial_state ps c)
    = (Ok (dv, gv, pv), initial_state ps c) /\
    0.70 + 0.05 < alloc dv pv /\
    ~ sell_branch_restores_cash no_growth_market "2014-01-03" "sideways" 0.70
        dv gv pv (initial_state ps c).
Proof.
  eexists _, _, _, _, _.
  split; [vm_compute; reflexivity|].
  split; [vm_compute; reflexivity|].
  split; [vm_compute; reflexivity|].
  intros H.
  match type of H with
  | sell_branch_restores_cash ?m ?d ?mc ?t ?dv ?gv ?pv ?st =>
      destruct (sell_dividend_branch m d mc t dv gv pv st)
        as [[v|e] st'] eqn:E
  end.
  - specialize (H v st' E).
    vm_compute in E. injection E as <- <-.
    vm_compute in H. discriminate H.
  - vm_compute in E. discriminate E.
Qed.

(** ** What one date appends *)

Lemma quiet_ret {A : Type} (a : A) : quiet (ret a).
Proof. intros st. split; reflexivity. Qed.

Lemma quiet_lift {A : Type} (r : result A) : quiet (lift r).
Proof. intros st. split; reflexivity. Qed.

Lemma quiet_bind {A B : Type} (c : M A) (k : A -> M B) :
  quiet c -> (forall a, quiet (k a)) -> quiet (bind c k).
Proof.
  intros Hc Hk st. unfold bind.
  destruct (Hc st) as [H1 H2].
  destruct (c st) as [[a|e] st1]; simpl in *.
  - destruct (Hk a st1) as [H3 H4]. split; congruence.
  - split; assumption.
Qed.

Lemma quiet_modify (f : state -> state) :
  (forall st, snapshots (f st) = snapshots st) ->
  (forall st, regimes (f st) = regimes st) ->
  quiet (modify f).
Proof. intros H1 H2 st. split; [apply H1 | apply H2]. Qed.

Lemma quiet_for_positions
  (body : symbol -> position -> Q -> result (position * Q)) :
  quiet (for_positions body).
Proof. intros st. split; reflexivity. Qed.

Lemma quiet_value_by_sleeve (m : market) (d : date) :
  quiet (value_by_sleeve m d).
Proof. intros st. split; reflexivity. Qed.

Lemma quiet_sell_dividend_branch (m : market) (d : date) (mc : string)
  (target dv gv pv : Q) :
  quiet (sell_dividend_branch m d mc target dv gv pv).
Proof.
  unfold sell_dividend_branch.
  apply quiet_bind; [apply quiet_modify; reflexivity|]. intros _.
  apply quiet_bind; [apply quiet_for_positions|]. intros _.
  apply quiet_bind; [apply quiet_for_positions|]. intros _.
  apply quiet_ret.
Qed.

Lemma quiet_buy_dividend_branch (m : market) (d : date) (mc : string)
  (target dv gv pv : Q) :
  quiet (buy_dividend_branch m d mc target dv gv pv).
Proof.
  unfold buy_dividend_branch.
  apply quiet_bind; [apply quiet_modify; reflexivity|]. intros _.
  apply quiet_bind; [apply quiet_for_positions|]. intros _.
  apply quiet_bind; [apply quiet_for_positions|]. intros _.
  apply quiet_ret.
Qed.

Lemma quiet_record_event (d : date) (rt mc : string) (t a tdv pv : Q) :
  quiet (record_event d rt mc t a tdv pv).
Proof.
  unfold record_event.
  apply quiet_bind; [intros st; split; reflexivity|]. intros moved.
  apply quiet_bind; [apply quiet_lift|]. intros after.
  apply quiet_modify; reflexivity.
Qed.

Lemma quiet_rebalance_phase (m : market) (d : date) (mc : string)
  (target dv gv pv a : Q) :
  quiet (rebalance_phase m d mc target dv gv pv a).
Proof.
  unfold rebalance_phase. cbv zeta.
  apply quiet_bind.
  - destruct (Qltb (target + 0.05) a).
    + apply quiet_bind; [apply quiet_sell_dividend_branch|].
      intros t. apply quiet_ret.
    + destruct (Qltb a (target - 0.05)).
      * apply quiet_bind; [apply quiet_buy_dividend_branch|].
        intros t. apply quiet_ret.
      * apply quiet_ret.
  - intros [[rt tdv]|].
    + apply quiet_bind; [apply quiet_record_event|]. intros _.
      apply quiet_value_by_sleeve.
    + apply quiet_ret.
Qed.

Lemma bind_ok {A B : Type} (c : M A) (k : A -> M B) (st st1 : state) (a : A) :
  c st = (Ok a, st1) -> bind c k st = k a st1.
Proof. intros H. unfold bind. now rewrite H. Qed.

Lemma bind_stop {A B : Type} (c : M A) (k : A -> M B) (st st1 : state)
  (e : stop) :
  c st = (Stop e, st1) -> bind c k st = (Stop e, st1).
Proof. intros H. unfold bind. now rewrite H. Qed.

(** A date that gets past valuation appends its regime, whatever happens
    next; it then either completes, appending one snapshot, or stops (on
    an exception, or at a float that is not finite), appending none. *)
Lemma process_date_after_valuation (m : market) (d : date) (st st1 : state)
  (v : Q * Q * Q) :
  reinvest_dividends m d st = (Ok tt, st1) ->
  value_by_sleeve m d st1 = (Ok v, st1) ->
  let r := process_date m d st in
  regime_appended m d st (snd r) /\
  ((fst r = Ok tt /\ snapshot_appended st (snd r)) \/
   (exists e, fst r = Stop e /\ snapshots (snd r) = snapshots st)).
Proof.
  intros E1 E2 r. subst r. unfold process_date.
  destruct (quiet_for_positions (reinvest_body m d) st) as [Hs1 Hr1].
  fold (reinvest_dividends m d) in Hs1, Hr1. rewrite E1 in Hs1, Hr1.
  simpl in Hs1, Hr1.
  rewrite (bind_ok (reinvest_dividends m d) _ st st1 tt E1). cbv beta.
  rewrite (bind_ok (value_by_sleeve m d) _ st1 st1 v E2). cbv beta zeta.
  unfold enable_dynamic_rebalancing. cbv iota.
  set (mc := detect_market_condition d (spy_data m) market_lookback_days
               market_threshold).
  set (st2 := add_regime st1 (fst mc) (snd mc)).
  assert (Hreg : regime_appended m d st st2).
  { unfold regime_appended. fold mc. unfold regimes in *. simpl.
    injection Hr1 as -> ->. reflexivity. }
  assert (Hs2 : snapshots st2 = snapshots st) by exact Hs1.
  destruct (quiet_rebalance_phase m d (fst mc) (snd mc) (fst (fst v))
              (snd (fst v)) (snd v) (alloc (fst (fst v)) (snd v)) st2)
    as [Hs3 Hr3].
  destruct (rebalance_phase m d (fst mc) (snd mc) (fst (fst v)) (snd (fst v))
              (snd v) (alloc (fst (fst v)) (snd v)) st2) as [[v'|e] st3] eqn:E3;
    simpl in Hs3, Hr3.
  2:{ rewrite (bind_stop _ _ st1 st3 e).
      - simpl. split.
        + unfold regime_appended in *. congruence.
        + right. exists e. split; [reflexivity | congruence].
      - rewrite (bind_ok _ _ st1 st2 tt) by reflexivity. exact E3. }
  rewrite (bind_ok _ _ st1 st3 v')
    by (rewrite (bind_ok _ _ st1 st2 tt) by reflexivity; exact E3).
  assert (Hreg3 : regime_appended m d st st3).
  { unfold regime_appended in *. congruence. }
  assert (Hs3' : snapshots st3 = snapshots st) by congruence.
  unfold bind, lift, modify.
  destruct (loc_close (spy_data m) d) as [spy_price|e];
    [|simpl; split; [exact Hreg3 | right; exists e; auto]].
  destruct (iloc_close (spy_data m) 0) as [spy_first|e];
    [|simpl; split; [exact Hreg3 | right; exists e; auto]].
  destruct (npdiv spy_price spy_first) as [ratio|e];
    [|simpl; split; [exact Hreg3 | right; exists e; auto]].
  simpl. split; [exact Hreg3|]. left. split; [reflexivity|].
  unfold snapshot_appended.
  exists d, (snd v'), (initial_capital * ratio), (fst (fst v')),
    (snd (fst v')).
  unfold snapshots in *. simpl.
  injection Hs3' as -> -> -> -> -> -> ->.
  reflexivity.
Qed.

(** A date that stops in reinvestment or in valuation appends nothing. *)
Lemma process_date_before_regime (m : market) (d : date) (st : state) :
  (exists e st1, reinvest_dividends m d st = (Stop e, st1)) \/
  (exists e st1, reinvest_dividends m d st = (Ok tt, st1)
                 /\ value_by_sleeve m d st1 = (Stop e, st1)) ->
  let r := process_date m d st in
  exists e, fst r = Stop e
            /\ regimes (snd r) = regimes st
            /\ snapshots (snd r) = snapshots st.
Proof.
  intros H r. subst r. unfold process_date.
  destruct (quiet_for_positions (reinvest_body m d) st) as [Hs1 Hr1].
  fold (reinvest_dividends m d) in Hs1, Hr1.
  destruct H as [(e & st1 & E1)|(e & st1 & E1 & E2)];
    rewrite E1 in Hs1, Hr1; simpl in Hs1, Hr1.
  - rewrite (bind_stop (reinvest_dividends m d) _ st st1 e E1).
    exists e. simpl. auto.
  - rewrite (bind_ok (reinvest_dividends m d) _ st st1 tt E1). cbv beta.
    rewrite (bind_stop (value_by_sleeve m d) _ st1 st1 e E2).
    exists e. simpl. auto.
Qed.

(** The three ways a date can end: it stopped before the regime step and
    appended nothing; it stopped after the regime step and appended the
    regime only; it completed and appended the regime and one snapshot. *)
Lemma process_date_cases (m : market) (d : date) (st : state) :
  let r := process_date m d st in
  (exists e, fst r = Stop e
             /\ regimes (snd r) = regimes st
             /\ snapshots (snd r) = snapshots st) \/
  (exists e, fst r = Stop e
             /\ regime_appended m d st (snd r)
             /\ snapshots (snd r) = snapshots st) \/
  (fst r = Ok tt
   /\ regime_appended m d st (snd r)
   /\ snapshot_appended st (snd r)).
Proof.
  intros r.
  destruct (reinvest_dividends m d st) as [[[]|e] st1] eqn:E1.
  - destruct (value_by_sleeve m d st1) as [[v|e] st1'] eqn:E2.
    + assert (st1' = st1)
        by (unfold value_by_sleeve in E2; now injection E2).
      subst st1'.
      destruct (process_date_after_valuation m d st st1 v E1 E2)
        as [Hreg [[Hok Hsnap]|(e & He & Hsnap)]]; fold r in Hreg, Hsnap.
      * right; right. fold r in Hok. auto.
      * right; left. exists e. fold r in He. auto.
    + assert (st1' = st1)
        by (unfold value_by_sleeve in E2; now injection E2).
      subst st1'.
      left. apply process_date_before_regime. right. now exists e, st1.
  - left. apply process_date_before_regime. left. now exists e, st1.
Qed.

(** ** A close that is missing *)

Lemma value_loop_unpriced (m : market) (d : date) (ps : positions_t) :
  existsb (unpriced m d) (symbols ps) = true ->
  forall dv gv pv, value_loop m d ps dv gv pv = Raise KeyError.
Proof.
  induction ps as [|[sym p] ps IH]; simpl; [discriminate|].
  intros H dv gv pv. apply orb_prop in H.
  unfold unpriced, price_on, getitem, loc_close, getitem, contains in *.
  destruct (dict_get sym (dividend_data m)) as [df|]; simpl.
  - destruct (dict_get d df) as [price|]; simpl; [|reflexivity].
    destruct H as [H|H]; [discriminate | now apply IH].
  - destruct (dict_get sym (growth_data m)) as [df|]; simpl.
    + destruct (dict_get d df) as [price|]; simpl; [|reflexivity].
      destruct H as [H|H]; [discriminate | now apply IH].
    + destruct H as [H|H]; [discriminate | now apply IH].
Qed.

(** ** A date that raises *)



Lemma run_dates_cons (m : market) (d : date) (ds : list date) (st : state) :
  run_dates m (d :: ds) st = snd (process_date m d st) \/
  run_dates m (d :: ds) st = run_dates m ds (snd (process_date m d st)).
Proof.
  cbn [run_dates].
  destruct (process_date m d st) as [[[]|[e|]] st1]; simpl; auto.
Qed.



(** ** Regimes and snapshots over a run *)

Lemma count_condition_adds_one (counts : list (string * nat)) (c : string) :
  counted_dates (count_condition counts c) = S (counted_dates counts).
Proof.
  unfold count_condition.
  induction counts as [|[k n] counts IH]; simpl.
  - reflexivity.
  - destruct (String.eqb c k); simpl.
    + lia.
    + rewrite IH. lia.
Qed.

Lemma market_condition_counts_total (conditions : list string) :
  counted_dates (market_condition_counts conditions) = List.length conditions.
Proof.
  unfold market_condition_counts.
  assert (H : forall acc,
             counted_dates (fold_left count_condition conditions acc)
             = (counted_dates acc + List.length conditions)%nat).
  { induction conditions as [|c conditions IH]; intros acc; simpl.
    - lia.
    - rewrite IH, count_condition_adds_one. lia. }
  now rewrite H.
Qed.

(** What one date does to the lengths of the lists. *)
Lemma process_date_lengths (m : market) (d : date) (st : state) :
  let st' := snd (process_date m d st) in
  aligned st ->
  List.length (dynamic_targets st) = List.length (market_conditions st) ->
  aligned st' /\
  List.length (dynamic_targets st') = List.length (market_conditions st') /\
  (List.length (dates st') + List.length (market_conditions st)
   <= List.length (market_conditions st') + List.length (dates st))%nat.
Proof.
  intros st' (A1 & A2 & A3 & A4) Ht.
  assert (Hsame : snapshots st' = snapshots st ->
                  aligned st' /\ List.length (dates st') = List.length (dates st)).
  { unfold snapshots. intros H.
    injection H as H1 H2 H3 H4 H5 H6 H7.
    unfold aligned. repeat split; congruence. }
  assert (Hreg : regime_appended m d st st' ->
                 List.length (dynamic_targets st')
                 = List.length (market_conditions st')
                 /\ List.length (market_conditions st')
                    = S (List.length (market_conditions st))).
  { unfold regime_appended, regimes. intros H.
    injection H as H1 H2. rewrite H1, H2, !length_app. simpl. lia. }
  destruct (process_date_cases m d st)
    as [(e & _ & Hr & Hs)|[(e & _ & Hr & Hs)|(_ & Hr & Hs)]];
    fold st' in Hr, Hs.
  - destruct (Hsame Hs) as [Ha Hl]. unfold regimes in Hr.
    injection Hr as Hr1 Hr2. rewrite Hr1, Hr2.
    split; [exact Ha|]. split; lia.
  - destruct (Hsame Hs) as [Ha Hl]. destruct (Hreg Hr) as [Hr1 Hr2].
    split; [exact Ha|]. split; lia.
  - destruct (Hreg Hr) as [Hr1 Hr2].
    destruct Hs as (d0 & pv & sv & dv & gv & Hs).
    unfold snapshots in Hs. injection Hs as H1 H2 H3 H4 H5 H6 H7.
    unfold aligned. rewrite H1, H2, H3, H4, H5, !length_app. simpl.
    repeat split; lia.
Qed.

(** C10.  The regime of a date is appended as soon as valuation is done,
    before the rest of the date, which can raise: a date that gets past
    valuation appends its regime and target whatever happens next, and
    appends no snapshot if it raises.  Over a run that starts with lists
    of equal lengths, the five snapshot lists (dates, portfolio values,
    benchmark values, dividend values, growth values) keep one length,
    the regimes and the targets keep one length, the regimes grow at
    least as much as the snapshots, and the regime histogram counts every
    regime.  On some run it counts more dates than there are
    snapshots. *)
Theorem regimes_outnumber_snapshots (m : market) (ds : list date) (st : state) :
  aligned st ->
  List.length (dynamic_targets st) = List.length (market_conditions st) ->
  let st' := run_dates m ds st in
  aligned st' /\
  List.length (dynamic_targets st') = List.length (market_conditions st') /\
  (List.length (dates st') + List.length (market_conditions st)
   <= List.length (market_conditions st') + List.length (dates st))%nat /\
  counted_dates (market_condition_counts (market_conditions st'))
  = List.length (market_conditions st') /\
  (forall d st0 st1 v,
     reinvest_dividends m d st0 = (Ok tt, st1) ->
     value_by_sleeve m d st1 = (Ok v, st1) ->
     regime_appended m d st0 (snd (process_date m d st0)) /\
     (forall e, fst (process_date m d st0) = Raise e ->
                snapshots (snd (process_date m d st0)) = snapshots st0)) /\
  (exists m0 st0,
     run_optimized_backtest m0 = Ok (Some st0) /\
     (List.length (dates st0)
      < counted_dates (market_condition_counts (market_conditions st0)))%nat).
Proof.
  intros Ha Ht st'.
  assert (Hrun : aligned st' /\
                 List.length (dynamic_targets st')
                 = List.length (market_conditions st') /\
                 (List.length (dates st') + List.length (market_conditions st)
                  <= List.length (market_conditions st')
                     + List.length (dates st))%nat).
  { subst st'. revert st Ha Ht.
    induction ds as [|d ds IH]; intros st Ha Ht.
    - cbn [run_dates]. split; [exact Ha|]. split; [exact Ht | lia].
    - destruct (process_date_lengths m d st Ha Ht) as (Ha1 & Ht1 & Hl1).
      destruct (run_dates_cons m d ds st) as [E|E]; rewrite E.
      + split; [exact Ha1|]. split; [exact Ht1 | lia].
      + destruct (IH _ Ha1 Ht1) as (Ha2 & Ht2 & Hl2).
        split; [exact Ha2|]. split; [exact Ht2 | lia]. }
  destruct Hrun as (H1 & H2 & H3).
  split; [exact H1|]. split; [exact H2|]. split; [exact H3|].
  split; [apply market_condition_counts_total|].
  split.
  - intros d st0 st1 v E1 E2.
    destruct (process_date_after_valuation m d st0 st1 v E1 E2)
      as [Hreg Hcases].
    split; [exact Hreg|].
    intros e He. destruct Hcases as [[Hok _]|(e' & _ & Hs)]; [|exact Hs].
    rewrite He in Hok. discriminate.
  - clear. exists zero_close_market. eexists.
    split; [vm_compute; reflexivity|].
    vm_compute. repeat constructor.
Qed.

(** The witness of C10: the run in which the second of three dates raises
    in its purchase leg counts three regimes for two snapshots. *)
Lemma regimes_outnumber_snapshots_witness :
  exists st',
    run_optimized_backtest zero_close_market = Ok (Some st') /\
    aligned st' /\
    List.length (dates st') = 2%nat /\
    List.length (market_conditions st') = 3%nat /\
    market_condition_counts (market_conditions st') = [("sideways", 3%nat)].
Proof.
  eassert (Hinit : initialize zero_close_market = Ok (_, _))
    by (vm_compute; reflexivity).
  match type of Hinit with
  | _ = Ok (?ps, ?c) =>
      destruct (regimes_outnumber_snapshots zero_close_market
                  (all_dates zero_close_market) (initial_state ps c))
        as (Ha & _);
        [repeat split | reflexivity |];
        exists (run_dates zero_close_market (all_dates zero_close_market)
                          (initial_state ps c))
  end.
  split; [vm_compute; reflexivity|].
  split; [exact Ha|].
  split; [vm_compute; reflexivity|].
  split; vm_compute; reflexivity.
Defined.

(** ** The amount an event records *)

(** C8.  The run in which a sell-dividend date is followed by a
    buy-dividend date: the second event records, as the amount moved, the
    21000 dollars of excess of the first date, left in
    [excess_dividend_value], and not the 26775 dollars of deficit traded
    on its own date. *)
Theorem stale_excess_moved_after_sell :
  exists st e1 e2 deficit,
    run_optimized_backtest swing_market = Ok (Some st) /\
    rebalancing_events st = [e1; e2] /\
    ev_date e1 = "2014-01-03" /\ ev_type e1 = "sell_dividend_sideways" /\
    excess_moved e1 == 21000 /\
    ev_date e2 = "2014-01-06" /\ ev_type e2 = "buy_dividend_sideways" /\
    deficit_dividend_value st = Some deficit /\ deficit == 26775 /\
    excess_moved e2 == 21000 /\
    ~ excess_moved e2 == deficit.
Proof.
  eexists _, _, _, _.
  split; [vm_compute; reflexivity|].
  split; [reflexivity|].
  repeat (split; [reflexivity|]).
  intros H. vm_compute in H. discriminate H.
Qed.

(** ** Initial allocation *)

Lemma dict_get_set_same {A : Type} (k : string) (v : A) (d : list (string * A)) :
  dict_get k (dict_set k v d) = Some v.
Proof.
  induction d as [|[k' v'] d IH]; simpl.
  - now rewrite String.eqb_refl.
  - destruct (String.eqb k k') eqn:E; simpl; rewrite E; auto.
Qed.

Lemma dict_get_set_other {A : Type} (k k' : string) (v : A)
  (d : list (string * A)) :
  String.eqb k' k = false -> dict_get k' (dict_set k v d) = dict_get k' d.
Proof.
  intros Hne. induction d as [|[k0 v0] d IH]; simpl.
  - now rewrite Hne.
  - destruct (String.eqb k k0) eqn:E; simpl.
    + apply String.eqb_eq in E. subst k0. now rewrite Hne.
    + now rewrite IH.
Qed.

Lemma iloc_close_first (data : list (symbol * series)) (sym : symbol)
  (df : series) (price : Q) :
  dict_get sym data = Some df ->
  first_close data sym = Some price ->
  iloc_close df 0 = Ok price.
Proof.
  unfold first_close. intros ->. destruct df as [|[d p] df]; [discriminate|].
  now intros [= ->].
Qed.

(** The position the dividend loop creates for a weighted symbol. *)
Lemma init_dividend_runs (dd : list (symbol * series)) (ws : list (symbol * Q)) :
  dividend_closes_ok dd ws = true ->
  forall ps0 c0,
  exists ps c,
    init_dividend dd ws ps0 c0 = Ok (ps, c) /\
    c == c0 - initial_capital * dividend_alloc * weight_sum dd ws /\
    (unique_keys ws = true ->
     forall sym,
       dict_get sym ps =
       match dict_get sym ws, first_close dd sym with
       | Some w, Some price =>
           Some {| shares := initial_capital * dividend_alloc * w / price;
                   category := "dividend_aristocrat" |}
       | _, _ => dict_get sym ps0
       end).
Proof.
  induction ws as [|[s w] ws IH]; intros Hok ps0 c0.
  - exists ps0, c0. split; [reflexivity|]. split; [simpl; ring|].
    intros _ sym. reflexivity.
  - simpl in Hok. apply andb_prop in Hok. destruct Hok as [Hs Hok].
    simpl. destruct (contains s dd) eqn:Ec.
    + destruct (first_close dd s) as [price|] eqn:Ef; [|discriminate].
      apply contains_get in Ec. destruct Ec as [df Edf].
      unfold getitem. rewrite Edf. simpl.
      rewrite (iloc_close_first dd s df price Edf Ef). simpl.
      assert (Hnz : ~ price == 0).
      { intros Hz. apply Qeq_bool_iff in Hz. rewrite Hz in Hs. discriminate. }
      rewrite (fdiv_ok _ _ Hnz). simpl.
      match goal with
      | |- context [init_dividend dd ws ?ps1 ?c1] =>
          destruct (IH Hok ps1 c1) as (ps & c & -> & Hc & Hget)
      end.
      exists ps, c. split; [reflexivity|]. split; [rewrite Hc; ring|].
      intros Hu sym. apply andb_prop in Hu. destruct Hu as [Hfresh Hu].
      rewrite (Hget Hu sym).
      destruct (String.eqb sym s) eqn:E.
      * apply String.eqb_eq in E. subst sym.
        apply negb_true_iff, contains_false_get in Hfresh.
        rewrite Hfresh, Ef. apply dict_get_set_same.
      * destruct (dict_get sym ws); [destruct (first_close dd sym)|];
          auto using dict_get_set_other.
    + destruct (IH Hok ps0 c0) as (ps & c & -> & Hc & Hget).
      exists ps, c. split; [reflexivity|]. split; [rewrite Hc; ring|].
      intros Hu sym. apply andb_prop in Hu. destruct Hu as [Hfresh Hu].
      rewrite (Hget Hu sym).
      destruct (String.eqb sym s) eqn:E; [|reflexivity].
      apply String.eqb_eq in E. subst sym.
      apply negb_true_iff, contains_false_get in Hfresh. rewrite Hfresh.
      unfold first_close.
      apply contains_false_get in Ec. now rewrite Ec.
Qed.

(** The position the growth loop creates for a growth symbol. *)
Lemma init_growth_runs (gd : list (symbol * series)) (gw : Q) :
  growth_closes_ok gd = true ->
  forall ps0 c0,
  exists ps c,
    init_growth gd gw ps0 c0 = Ok (ps, c) /\
    c == c0 - initial_capital * growth_alloc * gw * len gd /\
    (unique_keys gd = true ->
     forall sym,
       dict_get sym ps =
       match first_close gd sym with
       | Some price =>
           Some {| shares := initial_capital * growth_alloc * gw / price;
                   category := "high_growth" |}
       | None => dict_get sym ps0
       end).
Proof.
  induction gd as [|[s df] gd IH]; intros Hok ps0 c0.
  - exists ps0, c0. split; [reflexivity|].
    split; [unfold len; simpl; ring|]. intros _ sym. reflexivity.
  - simpl in Hok. apply andb_prop in Hok. destruct Hok as [Hs Hok].
    destruct df as [|[d0 price] df]; [discriminate|].
    assert (Hnz : ~ price == 0).
    { intros Hz. apply Qeq_bool_iff in Hz. rewrite Hz in Hs. discriminate. }
    simpl. unfold iloc_close. simpl. rewrite (fdiv_ok _ _ Hnz). simpl.
    match goal with
    | |- context [init_growth gd gw ?ps1 ?c1] =>
        destruct (IH Hok ps1 c1) as (ps & c & -> & Hc & Hget)
    end.
    exists ps, c. split; [reflexivity|]. split.
    + rewrite Hc. unfold len. simpl List.length.
      rewrite Nat2Z.inj_succ, <- Z.add_1_r, inject_Z_plus. ring.
    + intros Hu sym. apply andb_prop in Hu. destruct Hu as [Hfresh Hu].
      rewrite (Hget Hu sym). unfold first_close. simpl.
      destruct (String.eqb sym s) eqn:E.
      * apply String.eqb_eq in E. subst sym.
        apply negb_true_iff, contains_false_get in Hfresh.
        rewrite Hfresh. apply dict_get_set_same.
      * destruct (dict_get sym gd) as [[|[d1 p1] df1]|];
          auto using dict_get_set_other.
Qed.

(** The loops of the initial allocation raise nothing but [IndexError]
    (a frame without rows) and [ZeroDivisionError] (a first close of
    zero), and raise as soon as a first close is missing or zero. *)
Lemma init_dividend_raises (dd : list (symbol * series)) (ws : list (symbol * Q)) :
  dividend_closes_ok dd ws = false ->
  forall ps0 c0,
  exists e, init_dividend dd ws ps0 c0 = Raise e
            /\ (e = IndexError \/ e = ZeroDivisionError).
Proof.
  induction ws as [|[s w] ws IH]; intros Hbad ps0 c0; [discriminate|].
  simpl in Hbad. simpl.
  destruct (contains s dd) eqn:Ec.
  - apply contains_get in Ec. destruct Ec as [df Edf].
    unfold getitem. rewrite Edf. simpl.
    unfold first_close in Hbad. rewrite Edf in Hbad.
    destruct df as [|[d0 price] df]; simpl.
    + exists IndexError. auto.
    + unfold iloc_close. simpl. unfold fdiv.
      destruct (Qeq_bool price 0); simpl.
      * exists ZeroDivisionError. auto.
      * simpl in Hbad. now apply IH.
  - simpl in Hbad. now apply IH.
Qed.

Lemma init_growth_raises (gd : list (symbol * series)) (gw : Q) :
  growth_closes_ok gd = false ->
  forall ps0 c0,
  exists e, init_growth gd gw ps0 c0 = Raise e
            /\ (e = IndexError \/ e = ZeroDivisionError).
Proof.
  induction gd as [|[s df] gd IH]; intros Hbad ps0 c0; [discriminate|].
  simpl in Hbad. simpl.
  destruct df as [|[d0 price] df]; simpl.
  - exists IndexError. auto.
  - unfold iloc_close. simpl. unfold fdiv.
    destruct (Qeq_bool price 0); simpl.
    + exists ZeroDivisionError. auto.
    + simpl in Hbad. now apply IH.
Qed.

Lemma dict_get_In {A : Type} (k : string) (v : A) (d : list (string * A)) :
  dict_get k d = Some v -> In (k, v) d.
Proof.
  induction d as [|[k' v'] d IH]; simpl; [discriminate|].
  destruct (String.eqb k k') eqn:E.
  - apply String.eqb_eq in E. subst k'. intros [= ->]. now left.
  - intros H. right. now apply IH.
Qed.

Lemma first_close_contains (data : list (symbol * series)) (sym : symbol)
  (price : Q) :
  first_close data sym = Some price -> contains sym data = true.
Proof.
  unfold first_close, contains.
  destruct (dict_get sym data); [reflexivity | discriminate].
Qed.

(** The ledger after the initial allocation. *)
Lemma initialize_runs (m : market) :
  inputs_well_formed m = true ->
  first_closes_ok m = true ->
  exists ps c,
    initialize m = Ok (ps, c) /\
    c == initial_capital
         - initial_capital * dividend_alloc
           * weight_sum (dividend_data m) (dividend_weights m)
         - initial_capital * growth_alloc
           * (growth_weight (growth_data m) * len (growth_data m)) /\
    (forall sym w price,
       dict_get sym (dividend_weights m) = Some w ->
       first_close (dividend_data m) sym = Some price ->
       ~ price == 0 /\
       dict_get sym ps =
       Some {| shares := initial_capital * dividend_alloc * w / price;
               category := "dividend_aristocrat" |}) /\
    (forall sym price,
       first_close (growth_data m) sym = Some price ->
       dict_get sym ps =
       Some {| shares := initial_capital * growth_alloc
                         * growth_weight (growth_data m) / price;
               category := "high_growth" |}).
Proof.
  intros Hwf Hok. unfold inputs_well_formed in Hwf. unfold first_closes_ok in Hok.
  apply andb_prop in Hwf. destruct Hwf as [Hwf Hsep].
  apply andb_prop in Hwf. destruct Hwf as [Huw Hug].
  apply andb_prop in Hok. destruct Hok as [Hokd Hokg].
  destruct (init_dividend_runs (dividend_data m) (dividend_weights m) Hokd
              [] initial_capital) as (ps1 & c1 & Hrun1 & Hc1 & Hget1).
  destruct (init_growth_runs (growth_data m) (growth_weight (growth_data m))
              Hokg ps1 c1) as (ps & c & Hrun2 & Hc & Hget).
  exists ps, c. split; [|split; [|split]].
  - unfold initialize. rewrite Hrun1. simpl. exact Hrun2.
  - rewrite Hc, Hc1. ring.
  - intros sym w price Hw Hp.
    pose proof (dict_get_In _ _ _ Hw) as Hin.
    split.
    + unfold dividend_closes_ok in Hokd. rewrite forallb_forall in Hokd.
      specialize (Hokd _ Hin). simpl in Hokd.
      rewrite (first_close_contains _ _ _ Hp), Hp in Hokd.
      intros Hz. apply Qeq_bool_iff in Hz. rewrite Hz in Hokd. discriminate.
    + rewrite (Hget Hug sym), (Hget1 Huw sym), Hw, Hp.
      rewrite forallb_forall in Hsep. specialize (Hsep _ Hin). simpl in Hsep.
      apply negb_true_iff, contains_false_get in Hsep.
      unfold first_close. now rewrite Hsep.
  - intros sym price Hp. now rewrite (Hget Hug sym), Hp.
Qed.




(** C7 (amended).  The initial allocation does not test the sign of a
    first close.  When every needed first close exists and is not zero,
    it succeeds, and every symbol, whether its first close is positive
    or negative, starts with [allocated_value / initial_price] shares:
    [initial_capital * dividend_alloc * weight / initial_price] for a
    weighted dividend symbol,
    [initial_capital * growth_alloc * growth_weight_per_stock /
     initial_price] for a growth symbol.  When a needed first close is
    missing or zero, it raises [IndexError] or [ZeroDivisionError]. *)
Theorem initial_shares_or_raise (m : market) :
  inputs_well_formed m = true ->
  (first_closes_ok m = true ->
   exists ps c,
     initialize m = Ok (ps, c) /\
     (forall sym w price,
        dict_get sym (dividend_weights m) = Some w ->
        first_close (dividend_data m) sym = Some price ->
        exists p,
          dict_get sym ps = Some p /\
          shares p = initial_capital * dividend_alloc * w / price) /\
     (forall sym price,
        first_close (growth_data m) sym = Some price ->
        exists p,
          dict_get sym ps = Some p /\
          shares p = initial_capital * growth_alloc
                     * growth_weight (growth_data m) / price)) /\
  (first_closes_ok m = false ->
   exists e, initialize m = Raise e
             /\ (e = IndexError \/ e = ZeroDivisionError)).
Proof.
  intros Hwf. split.
  - intros Hok.
    destruct (initialize_runs m Hwf Hok) as (ps & c & Hrun & _ & Hdiv & Hgr).
    exists ps, c. split; [exact Hrun|]. split.
    + intros sym w price Hw Hp. destruct (Hdiv sym w price Hw Hp) as [_ Hget].
      eexists. split; [exact Hget | reflexivity].
    + intros sym price Hp. eexists. split; [exact (Hgr sym price Hp)|].
      reflexivity.
  - intros Hbad. unfold first_closes_ok in Hbad. unfold initialize.
    destruct (dividend_closes_ok (dividend_data m) (dividend_weights m)) eqn:Ed.
    + simpl in Hbad.
      destruct (init_dividend_runs _ _ Ed [] initial_capital)
        as (ps1 & c1 & -> & _). simpl.
      now apply init_growth_raises.
    + destruct (init_dividend_raises _ _ Ed [] initial_capital)
        as (e & -> & He). simpl. now exists e.
Qed.

(** The witness of C7: 700 shares at 50 dollars, 350 at 100 and 1500 at
    20 in the scenario of the three stocks; a first close of zero
    raises. *)
Lemma initial_shares_or_raise_witness :
  (exists ps c,
     initialize scenario_market = Ok (ps, c) /\
     (exists p, dict_get "KO" ps = Some p /\ shares p == 700) /\
     (exists p, dict_get "PG" ps = Some p /\ shares p == 350) /\
     (exists p, dict_get "UBER" ps = Some p /\ shares p == 1500)) /\
  (exists e, initialize zero_first_close_market = Raise e).
Proof.
  split.
  - destruct (initial_shares_or_raise scenario_market eq_refl) as [Hok _].
    destruct (Hok eq_refl) as (ps & c & Hrun & Hdiv & Hgr).
    exists ps, c. split; [exact Hrun|]. split; [|split].
    + destruct (Hdiv "KO" 0.5 50 eq_refl eq_refl) as (p & Hget & Hs).
      exists p. split; [exact Hget | rewrite Hs; reflexivity].
    + destruct (Hdiv "PG" 0.5 100 eq_refl eq_refl) as (p & Hget & Hs).
      exists p. split; [exact Hget | rewrite Hs; reflexivity].
    + destruct (Hgr "UBER" 20 eq_refl) as (p & Hget & Hs).
      exists p. split; [exact Hget | rewrite Hs; reflexivity].
  - destruct (initial_shares_or_raise zero_first_close_market eq_refl)
      as [_ Hbad].
    destruct (Hbad eq_refl) as (e & He & _). now exists e.
Defined.

(** The counterexample of C7 as stated: the initial allocation accepts a
    first close of minus 20 dollars, and starts the position with minus
    1500 shares. *)
Lemma initialize_accepts_a_negative_first_close :
  (exists ps c p,
     initialize negative_close_market = Ok (ps, c) /\
     dict_get "UBER" ps = Some p /\ shares p == -1500) /\
  ~ nonpositive_close_refused negative_close_market.
Proof.
  split.
  - eexists _, _, _. split; [vm_compute; reflexivity|].
    split; [reflexivity|]. reflexivity.
  - intros H. destruct H as [e He].
    + exists "UBER", (-20). split; [vm_compute; discriminate|].
      right. reflexivity.
    + vm_compute in He. discriminate He.
Qed.

(** * Further properties *)

(** ** The common date range *)

Lemma index_get (df : series) (d : date) :
  In d (index df) <-> exists p, dict_get d df = Some p.
Proof.
  unfold index. induction df as [|[d' p'] df IH]; simpl.
  - split; [tauto | intros [p H]; discriminate].
  - destruct (String.eqb d d') eqn:E.
    + apply String.eqb_eq in E. subst d'.
      split; [intros _; now exists p' | intros _; now left].
    + apply String.eqb_neq in E. rewrite <- IH.
      split; [intros [H|H]; [congruence | exact H] | intros H; now right].
Qed.

Lemma intersection_In (idx other : list date) (d : date) :
  In d (intersection idx other) <-> In d idx /\ In d other.
Proof.
  unfold intersection. rewrite filter_In, existsb_exists.
  split.
  - intros [H (x & Hx & E)]. apply String.eqb_eq in E. subst x. auto.
  - intros [H1 H2]. split; [exact H1|]. exists d. split; [exact H2|].
    apply String.eqb_refl.
Qed.

Lemma fold_intersection_In (frames : list (symbol * series))
  (idx : list date) (d : date) :
  In d (fold_left (fun acc sdf => intersection acc (index (snd sdf)))
                  frames idx)
  <-> In d idx /\ forall sdf, In sdf frames -> In d (index (snd sdf)).
Proof.
  revert idx. induction frames as [|sdf frames IH]; intros idx; simpl.
  - split; [intros H; split; [exact H | intros ? []] | tauto].
  - rewrite IH, intersection_In. split.
    + intros [[H1 H2] H3]. split; [exact H1|].
      intros x [<-|Hx]; auto.
    + intros [H1 H2]. split; [split|]; auto.
Qed.

Lemma all_dates_iff (m : market) (d : date) :
  In d (all_dates m) <->
  (exists p, loc_close (spy_data m) d = Ok p) /\
  (forall sym df,
     In (sym, df) (dividend_data m) \/ In (sym, df) (growth_data m) ->
     exists p, loc_close df d = Ok p).
Proof.
  assert (Hloc : forall df, In d (index df) <-> exists p, loc_close df d = Ok p).
  { intros df. rewrite index_get. unfold loc_close, getitem.
    destruct (dict_get d df) as [p|].
    - split; intros _; now exists p.
    - split; intros [p H]; discriminate. }
  unfold all_dates. rewrite !fold_intersection_In, Hloc.
  split.
  - intros [[Hs Hd] Hg]. split; [exact Hs|].
    intros sym df [H|H]; apply Hloc.
    + apply (Hd (sym, df) H).
    + apply (Hg (sym, df) H).
  - intros [Hs Hall]. split; [split; [exact Hs|]|].
    + intros [sym df] H. apply Hloc. apply (Hall sym df). now left.
    + intros [sym df] H. apply Hloc. apply (Hall sym df). now right.
Qed.


(** X1.  The common date range is exactly the dates of the benchmark
    that every loaded frame has too: a date is in [all_dates] if and only
    if [.loc[date, 'Close']] succeeds on the benchmark and on every
    dividend and growth frame. *)
Theorem all_dates_are_the_dates_every_frame_has (m : market) (d : date) :
  In d (all_dates m) <->
  (exists p, loc_close (spy_data m) d = Ok p) /\
  (forall sym df,
     In (sym, df) (dividend_data m) \/ In (sym, df) (growth_data m) ->
     exists p, loc_close df d = Ok p).
Proof. exact (all_dates_iff m d). Qed.

Lemma common_date_priced (m : market) (d : date) (sym : symbol) :
  In d (all_dates m) ->
  (contains sym (dividend_data m) = true ->
   exists p, price_on (dividend_data m) d sym = Some p) /\
  (contains sym (growth_data m) = true ->
   exists p, price_on (growth_data m) d sym = Some p).
Proof.
  intros Hd. apply all_dates_iff in Hd.
  destruct Hd as [_ Hall].
  split; intros Hc; apply contains_get in Hc; destruct Hc as [df Hdf];
    unfold price_on; rewrite Hdf; apply dict_get_In in Hdf.
  - destruct (Hall sym df (or_introl Hdf)) as [p Hp].
    unfold loc_close, getitem in Hp.
    destruct (dict_get d df) as [q|]; [now exists q | discriminate].
  - destruct (Hall sym df (or_intror Hdf)) as [p Hp].
    unfold loc_close, getitem in Hp.
    destruct (dict_get d df) as [q|]; [now exists q | discriminate].
Qed.

(** ** Valuation on the dates the walk visits *)

Lemma value_loop_common (m : market) (d : date) :
  In d (all_dates m) ->
  forall ps dv gv pv, exists v, value_loop m d ps dv gv pv = Ok v.
Proof.
  intros Hd. induction ps as [|[sym p] ps IH]; intros dv gv pv; simpl.
  - now eexists.
  - destruct (common_date_priced m d sym Hd) as [Hdiv Hgr].
    destruct (contains sym (dividend_data m)) eqn:Ed.
    + destruct (Hdiv eq_refl) as [price Hp].
      unfold price_on in Hp. unfold getitem, loc_close, getitem.
      destruct (dict_get sym (dividend_data m)) as [df|]; [|discriminate].
      simpl. rewrite Hp. simpl. apply IH.
    + destruct (contains sym (growth_data m)) eqn:Eg.
      * destruct (Hgr eq_refl) as [price Hp].
        unfold price_on in Hp. unfold getitem, loc_close, getitem.
        destruct (dict_get sym (growth_data m)) as [df|]; [|discriminate].
        simpl. rewrite Hp. simpl. apply IH.
      * apply IH.
Qed.




(** X2.  On a common date valuation never raises, whatever the ledger:
    every position of either sleeve has a close on that date. *)
Theorem valuation_succeeds_on_common_dates (m : market) (d : date)
  (st : state) :
  In d (all_dates m) ->
  existsb (unpriced m d) (symbols (positions st)) = false /\
  exists v, value_by_sleeve m d st = (Ok v, st).
Proof.
  intros Hd. split.
  - apply not_true_is_false. intros H.
    destruct (value_loop_common m d Hd (positions st) 0 0 (cash st)) as [v Hv].
    rewrite (value_loop_unpriced m d _ H) in Hv. discriminate.
  - destruct (value_loop_common m d Hd (positions st) 0 0 (cash st)) as [v Hv].
    exists v. unfold value_by_sleeve. now rewrite Hv.
Qed.

(** The witness of X2: the second day of the three-stock scenario. *)
Lemma valuation_succeeds_on_common_dates_witness :
  exists v, value_by_sleeve scenario_market "2014-01-03" scenario_state
            = (Ok v, scenario_state).
Proof.
  apply (valuation_succeeds_on_common_dates scenario_market "2014-01-03"
           scenario_state).
  vm_compute. auto.
Defined.

(** ** What a common date can raise *)

Lemma for_items_raises
  (body : symbol -> position -> Q -> result (position * Q)) (e0 : exn)
  (ps : positions_t) :
  (forall sym p c e, In (sym, p) ps -> body sym p c = Raise e -> e = e0) ->
  forall c e, fst (for_items body ps c) = Some (Exn e) -> e = e0.
Proof.
  induction ps as [|[sym p] ps IH]; intros Hb c e; simpl.
  - discriminate.
  - destruct (body sym p c) as [[p' c']|s1] eqn:E; simpl.
    + apply IH. intros s q c0 e2 Hin. apply Hb. now right.
    + intros [= ->]. apply (Hb sym p c e); [now left | exact E].
Qed.

Lemma for_positions_raises
  (body : symbol -> position -> Q -> result (position * Q)) (e0 : exn) :
  (forall sym p c e, body sym p c = Raise e -> e = e0) ->
  raises_only e0 (for_positions body).
Proof.
  intros Hb st e. unfold for_positions. simpl.
  destruct (fst (for_items body (positions st) (cash st))) as [e1|] eqn:E;
    [|discriminate].
  intros [= ->]. apply (for_items_raises body e0 (positions st)) in E;
    [exact E|].
  intros sym p c e2 _. apply Hb.
Qed.

Lemma raises_only_bind {A B : Type} (e0 : exn) (c : M A) (k : A -> M B) :
  raises_only e0 c -> (forall a, raises_only e0 (k a)) ->
  raises_only e0 (bind c k).
Proof.
  intros Hc Hk st e. unfold bind.
  destruct (c st) as [[a|s1] st1] eqn:E.
  - apply Hk.
  - simpl. intros [= ->]. apply (Hc st). now rewrite E.
Qed.

Lemma raises_only_ok {A : Type} (e0 : exn) (c : M A) :
  (forall st, exists a, fst (c st) = Ok a) -> raises_only e0 c.
Proof.
  intros H st e He. destruct (H st) as [a Ha]. congruence.
Qed.

Lemma raises_only_lift_fdiv (x y : Q) :
  raises_only ZeroDivisionError (lift (fdiv x y)).
Proof.
  intros st e. unfold lift, fdiv. simpl.
  destruct (Qeq_bool y 0); [now intros [= <-] | discriminate].
Qed.

Lemma sell_body_common (data : list (symbol * series)) (d : date)
  (amount sleeve_value : Q) (sym : symbol) (p : position) (c : Q) (e : exn) :
  (contains sym data = true -> exists price, price_on data d sym = Some price) ->
  sell_body data d amount sleeve_value sym p c = Raise e -> False.
Proof.
  intros Hp. unfold sell_body.
  destruct (contains sym data); [|discriminate].
  destruct (Hp eq_refl) as [price Hprice].
  unfold price_on in Hprice. unfold getitem, loc_close, getitem.
  destruct (dict_get sym data) as [df|]; [|discriminate]. simpl.
  rewrite Hprice. discriminate.
Qed.

Lemma buy_body_common (data : list (symbol * series)) (d : date)
  (amount sleeve_value : Q) (sym : symbol) (p : position) (c : Q) (e : exn) :
  (contains sym data = true -> exists price, price_on data d sym = Some price) ->
  buy_body data d amount sleeve_value sym p c = Raise e ->
  e = ZeroDivisionError.
Proof.
  intros Hp. unfold buy_body.
  destruct (contains sym data); [|discriminate].
  destruct (Hp eq_refl) as [price Hprice].
  unfold price_on in Hprice. unfold getitem, loc_close, getitem.
  destruct (dict_get sym data) as [df|]; [|discriminate]. simpl.
  rewrite Hprice. simpl. unfold fdiv.
  destruct (Qeq_bool price 0); simpl; [now intros [= <-] | discriminate].
Qed.

Lemma branches_common (m : market) (d : date) (mc : string)
  (target dv gv pv : Q) :
  In d (all_dates m) ->
  raises_only ZeroDivisionError (sell_dividend_branch m d mc target dv gv pv)
  /\ raises_only ZeroDivisionError (buy_dividend_branch m d mc target dv gv pv).
Proof.
  intros Hd.
  assert (Hsell : forall data a s,
             data = dividend_data m \/ data = growth_data m ->
             raises_only ZeroDivisionError (for_positions (sell_body data d a s))).
  { intros data a s Hdata. apply for_positions_raises.
    intros sym p c e He. exfalso.
    apply (sell_body_common data d a s sym p c e); [|exact He].
    destruct Hdata as [-> | ->]; apply (common_date_priced m d sym Hd). }
  assert (Hbuy : forall data a s,
             data = dividend_data m \/ data = growth_data m ->
             raises_only ZeroDivisionError (for_positions (buy_body data d a s))).
  { intros data a s Hdata. apply for_positions_raises.
    intros sym p c e He.
    apply (buy_body_common data d a s sym p c e); [|exact He].
    destruct Hdata as [-> | ->]; apply (common_date_priced m d sym Hd). }
  split.
  - unfold sell_dividend_branch.
    apply raises_only_bind; [apply raises_only_ok; intros; now eexists|].
    intros _. apply raises_only_bind; [apply Hsell; now left|].
    intros _. apply raises_only_bind; [apply Hbuy; now right|].
    intros _. apply raises_only_ok; intros; now eexists.
  - unfold buy_dividend_branch.
    apply raises_only_bind; [apply raises_only_ok; intros; now eexists|].
    intros _. apply raises_only_bind; [apply Hsell; now right|].
    intros _. apply raises_only_bind; [apply Hbuy; now left|].
    intros _. apply raises_only_ok; intros; now eexists.
Qed.

(** A branch leaves its amount bound. *)
Lemma sell_dividend_branch_binds (m : market) (d : date) (mc : string)
  (target dv gv pv : Q) (st : state) :
  excess_dividend_value
    (snd (sell_dividend_branch m d mc target dv gv pv st))
  = Some (dv - pv * target).
Proof.
  unfold sell_dividend_branch, bind, modify, ret, for_positions. simpl.
  repeat match goal with
         | |- context [match ?x with Some _ => _ | None => _ end] =>
             destruct x; simpl
         end; reflexivity.
Qed.

Lemma buy_dividend_branch_binds (m : market) (d : date) (mc : string)
  (target dv gv pv : Q) (st : state) :
  deficit_dividend_value
    (snd (buy_dividend_branch m d mc target dv gv pv st))
  = Some (pv * target - dv)
  /\ excess_dividend_value
       (snd (buy_dividend_branch m d mc target dv gv pv st))
     = excess_dividend_value st.
Proof.
  unfold buy_dividend_branch, bind, modify, ret, for_positions. simpl.
  repeat match goal with
         | |- context [match ?x with Some _ => _ | None => _ end] =>
             destruct x; simpl
         end; split; reflexivity.
Qed.

Lemma rebalance_phase_common (m : market) (d : date) (mc : string)
  (target dv gv pv a : Q) :
  In d (all_dates m) ->
  raises_only ZeroDivisionError (rebalance_phase m d mc target dv gv pv a).
Proof.
  intros Hd st e.
  destruct (branches_common m d mc target dv gv pv Hd) as [Hsell Hbuy].
  assert (Hvalue : forall st2, exists v, value_by_sleeve m d st2 = (Ok v, st2)).
  { intros st2.
    destruct (value_loop_common m d Hd (positions st2) 0 0 (cash st2))
      as [v Hv].
    exists v. unfold value_by_sleeve. now rewrite Hv. }
  assert (Hevent : forall rt tdv st1,
             (exists x, moved_amount st1 = Ok x) ->
             forall e1,
               fst (bind (record_event d rt mc target a tdv pv)
                         (fun _ => value_by_sleeve m d) st1) = Raise e1 ->
               e1 = ZeroDivisionError).
  { intros rt tdv st1 [x Hx] e1. unfold record_event, bind, lift, modify.
    rewrite Hx. unfold fdiv.
    destruct (Qeq_bool pv 0); simpl; [now intros [= <-]|].
    unfold value_by_sleeve.
    match goal with
    | |- context [value_loop m d ?ps0 ?x ?y ?z] =>
        destruct (value_loop_common m d Hd ps0 x y z) as [v ->]
    end.
    discriminate. }
  unfold rebalance_phase. cbv zeta.
  destruct (Qltb (target + 0.05) a).
  - destruct (sell_dividend_branch m d mc target dv gv pv st)
      as [[t|e1] st1] eqn:E.
    + rewrite (bind_ok _ _ st st1 (Some t))
        by (rewrite (bind_ok _ _ st st1 t E); reflexivity).
      destruct t as [rt tdv]. apply Hevent.
      pose proof (sell_dividend_branch_binds m d mc target dv gv pv st) as Hx.
      rewrite E in Hx. simpl in Hx. unfold moved_amount. rewrite Hx.
      now eexists.
    + rewrite (bind_stop _ _ st st1 e1)
        by (now rewrite (bind_stop _ _ st st1 e1 E)).
      simpl. intros [= ->]. apply (Hsell st). now rewrite E.
  - destruct (Qltb a (target - 0.05)).
    + destruct (buy_dividend_branch m d mc target dv gv pv st)
        as [[t|e1] st1] eqn:E.
      * rewrite (bind_ok _ _ st st1 (Some t))
          by (rewrite (bind_ok _ _ st st1 t E); reflexivity).
        destruct t as [rt tdv]. apply Hevent.
        destruct (buy_dividend_branch_binds m d mc target dv gv pv st)
          as [Hx _].
        rewrite E in Hx. simpl in Hx. unfold moved_amount. rewrite Hx.
        destruct (excess_dividend_value st1); now eexists.
      * rewrite (bind_stop _ _ st st1 e1)
          by (now rewrite (bind_stop _ _ st st1 e1 E)).
        simpl. intros [= ->]. apply (Hbuy st). now rewrite E.
    + rewrite (bind_ok _ _ st st None) by reflexivity. discriminate.
Qed.

Lemma reinvest_body_common (m : market) (d : date) (sym : symbol)
  (p : position) (c : Q) (e : exn) :
  In d (all_dates m) ->
  negb (String.eqb (category p) "dividend_aristocrat"
        && contains sym (dividend_dividends m))
  || contains sym (dividend_data m) = true ->
  reinvest_body m d sym p c = Raise e -> e = ZeroDivisionError.
Proof.
  intros Hd Hframe. unfold reinvest_body.
  destruct (String.eqb (category p) "dividend_aristocrat"
            && contains sym (dividend_dividends m)) eqn:Epay;
    [|discriminate].
  simpl in Hframe.
  apply andb_prop in Epay. destruct Epay as [_ Ediv].
  apply contains_get in Ediv. destruct Ediv as [dividends Ediv].
  unfold getitem at 1. rewrite Ediv. simpl.
  destruct (dict_get d dividends) as [amount|]; [|discriminate].
  destruct (common_date_priced m d sym Hd) as [Hprice _].
  destruct (Hprice Hframe) as [price Hp].
  unfold price_on in Hp. unfold getitem, loc_close, getitem.
  destruct (dict_get sym (dividend_data m)) as [df|]; [|discriminate].
  simpl. rewrite Hp. simpl. unfold npdiv.
  destruct (Qeq_bool price 0); simpl; discriminate.
Qed.

Lemma process_date_common_raises (m : market) (d : date) (st : state) :
  In d (all_dates m) ->
  payers_have_frames m (positions st) = true ->
  forall e, fst (process_date m d st) = Raise e -> e = ZeroDivisionError.
Proof.
  intros Hd Hpay e. unfold process_date.
  destruct (reinvest_dividends m d st) as [[[]|e1] st1] eqn:E1.
  2:{ rewrite (bind_stop (reinvest_dividends m d) _ st st1 e1 E1).
      simpl. intros [= ->].
      unfold reinvest_dividends, for_positions in E1.
      destruct (fst (for_items (reinvest_body m d) (positions st) (cash st)))
        as [e2|] eqn:E; [|discriminate].
      injection E1 as -> _.
      apply (for_items_raises _ ZeroDivisionError (positions st)) in E;
        [exact E|].
      intros sym p c e3 Hin. apply reinvest_body_common; [exact Hd|].
      unfold payers_have_frames in Hpay. rewrite forallb_forall in Hpay.
      apply (Hpay (sym, p) Hin). }
  rewrite (bind_ok (reinvest_dividends m d) _ st st1 tt E1). cbv beta.
  destruct (value_loop_common m d Hd (positions st1) 0 0 (cash st1)) as [v Hv].
  rewrite (bind_ok (value_by_sleeve m d) _ st1 st1 v)
    by (unfold value_by_sleeve; now rewrite Hv).
  cbv beta zeta. unfold enable_dynamic_rebalancing. cbv iota.
  set (mc := detect_market_condition d (spy_data m) market_lookback_days
               market_threshold).
  set (st2 := add_regime st1 (fst mc) (snd mc)).
  destruct (rebalance_phase m d (fst mc) (snd mc) (fst (fst v)) (snd (fst v))
              (snd v) (alloc (fst (fst v)) (snd v)) st2) as [[v'|e1] st3] eqn:E3.
  2:{ rewrite (bind_stop _ _ st1 st3 e1).
      - simpl. intros [= ->].
        apply (rebalance_phase_common m d (fst mc) (snd mc) (fst (fst v))
                 (snd (fst v)) (snd v) (alloc (fst (fst v)) (snd v)) Hd st2).
        now rewrite E3.
      - rewrite (bind_ok _ _ st1 st2 tt) by reflexivity. exact E3. }
  rewrite (bind_ok _ _ st1 st3 v')
    by (rewrite (bind_ok _ _ st1 st2 tt) by reflexivity; exact E3).
  apply all_dates_iff in Hd. destruct Hd as [[price Hprice] _].
  unfold bind, lift, modify. rewrite Hprice.
  assert (Hfirst : exists first, iloc_close (spy_data m) 0 = Ok first).
  { unfold loc_close, getitem in Hprice. unfold iloc_close.
    destruct (spy_data m) as [|[d0 p0] spy]; [discriminate|].
    now exists p0. }
  destruct Hfirst as [first ->]. unfold npdiv.
  destruct (Qeq_bool first 0); simpl; discriminate.
Qed.

(** X3.  On a common date, with a ledger whose paying dividend positions
    all have a frame (as the initial allocation makes them), the only
    exception that can abandon the date is a division by zero: no lookup
    raises, and the amount an event records is always bound.  (The
    divisions that can raise are those of the rebalancing phase: the
    reinvestment and the benchmark ratio are numpy divisions.) *)
Theorem common_date_raises_only_zero_division (m : market) (d : date)
  (st : state) :
  In d (all_dates m) ->
  payers_have_frames m (positions st) = true ->
  forall e, fst (process_date m d st) = Raise e -> e = ZeroDivisionError.
Proof.
  exact (process_date_common_raises m d st).
Qed.

(** The witness of X3: the date on which a growth stock closes at zero
    is abandoned by a division by zero. *)
Lemma common_date_raises_only_zero_division_witness :
  exists e,
    fst (process_date zero_close_market "2014-01-03" zero_close_state)
    = Raise e /\ e = ZeroDivisionError.
Proof.
  eexists. split; [vm_compute; reflexivity|].
  apply (common_date_raises_only_zero_division zero_close_market
           "2014-01-03" zero_close_state).
  - vm_compute. auto.
  - reflexivity.
  - vm_compute. reflexivity.
Defined.

(** ** The ledger keeps its positions and their sleeves *)

Lemma for_items_shape
  (body : symbol -> position -> Q -> result (position * Q))
  (ps : positions_t) :
  (forall sym p c p' c',
     body sym p c = Ok (p', c') -> category p' = category p) ->
  forall c, shape (fst (snd (for_items body ps c))) = shape ps.
Proof.
  intros Hb. induction ps as [|[sym p] ps IH]; intros c; simpl.
  - reflexivity.
  - destruct (body sym p c) as [[p' c']|e] eqn:E; simpl.
    + rewrite IH, (Hb sym p c p' c' E). reflexivity.
    + reflexivity.
Qed.

Lemma reinvest_body_category (m : market) (d : date) (sym : symbol)
  (p p' : position) (c c' : Q) :
  reinvest_body m d sym p c = Ok (p', c') -> category p' = category p.
Proof.
  unfold reinvest_body.
  destruct (String.eqb (category p) "dividend_aristocrat"
            && contains sym (dividend_dividends m));
    [|now intros [= <- _]].
  destruct (getitem sym (dividend_dividends m)) as [dividends|];
    [|discriminate]. simpl.
  destruct (dict_get d dividends) as [amount|]; [|now intros [= <- _]].
  destruct (getitem sym (dividend_data m)) as [df|]; [|discriminate]. simpl.
  destruct (loc_close df d) as [price|]; [|discriminate]. simpl.
  destruct (npdiv (shares p * amount) price) as [new_shares|];
    [|discriminate]. simpl.
  now intros [= <- _].
Qed.

Lemma sell_body_category (data : list (symbol * series)) (d : date)
  (amount sleeve_value : Q) (sym : symbol) (p p' : position) (c c' : Q) :
  sell_body data d amount sleeve_value sym p c = Ok (p', c') ->
  category p' = category p.
Proof.
  unfold sell_body. destruct (contains sym data); [|now intros [= <- _]].
  destruct (getitem sym data) as [df|]; [|discriminate]. simpl.
  destruct (loc_close df d) as [price|]; [|discriminate]. simpl.
  now intros [= <- _].
Qed.

Lemma buy_body_category (data : list (symbol * series)) (d : date)
  (amount sleeve_value : Q) (sym : symbol) (p p' : position) (c c' : Q) :
  buy_body data d amount sleeve_value sym p c = Ok (p', c') ->
  category p' = category p.
Proof.
  unfold buy_body. destruct (contains sym data); [|now intros [= <- _]].
  destruct (getitem sym data) as [df|]; [|discriminate]. simpl.
  destruct (loc_close df d) as [price|]; [|discriminate]. simpl.
  match goal with
  | |- context [fdiv ?x ?y] => destruct (fdiv x y); [|discriminate]
  end.
  simpl. now intros [= <- _].
Qed.

Lemma process_date_shape (m : market) (d : date) (st : state) :
  shape (positions (snd (process_date m d st))) = shape (positions st).
Proof.
  assert (Hfor : forall body st0,
             (forall sym p c p' c',
                body sym p c = Ok (p', c') -> category p' = category p) ->
             shape (positions (snd (for_positions body st0)))
             = shape (positions st0)).
  { intros body st0 Hb. unfold for_positions. simpl.
    now apply for_items_shape. }
  assert (Hbind : forall (A B : Type) (c : M A) (k : A -> M B) st0,
             shape (positions (snd (c st0))) = shape (positions st0) ->
             (forall a st1,
                shape (positions (snd (k a st1))) = shape (positions st1)) ->
             shape (positions (snd (bind c k st0))) = shape (positions st0)).
  { intros A B c k st0 Hc Hk. unfold bind.
    destruct (c st0) as [[a|e] st1]; simpl in *.
    - now rewrite Hk.
    - exact Hc. }
  assert (Hsell : forall mc t dv gv pv st0,
             shape (positions (snd (sell_dividend_branch m d mc t dv gv pv st0)))
             = shape (positions st0)).
  { intros. unfold sell_dividend_branch.
    apply Hbind; [reflexivity|]. intros _ st1.
    apply Hbind; [apply Hfor; intros; eapply sell_body_category; eauto|].
    intros _ st2.
    apply Hbind; [apply Hfor; intros; eapply buy_body_category; eauto|].
    reflexivity. }
  assert (Hbuy : forall mc t dv gv pv st0,
             shape (positions (snd (buy_dividend_branch m d mc t dv gv pv st0)))
             = shape (positions st0)).
  { intros. unfold buy_dividend_branch.
    apply Hbind; [reflexivity|]. intros _ st1.
    apply Hbind; [apply Hfor; intros; eapply sell_body_category; eauto|].
    intros _ st2.
    apply Hbind; [apply Hfor; intros; eapply buy_body_category; eauto|].
    reflexivity. }
  assert (Hevent : forall rt mc t a tdv pv st0,
             shape (positions (snd (record_event d rt mc t a tdv pv st0)))
             = shape (positions st0)).
  { intros. unfold record_event, bind, lift, modify.
    destruct (moved_amount st0); simpl; [|reflexivity].
    destruct (fdiv tdv pv); reflexivity. }
  assert (Hphase : forall mc t dv gv pv a st0,
             shape (positions (snd (rebalance_phase m d mc t dv gv pv a st0)))
             = shape (positions st0)).
  { intros. unfold rebalance_phase. cbv zeta.
    apply Hbind.
    - destruct (Qltb (t + 0.05) a).
      + apply Hbind; [apply Hsell | reflexivity].
      + destruct (Qltb a (t - 0.05)).
        * apply Hbind; [apply Hbuy | reflexivity].
        * reflexivity.
    - intros [[rt tdv]|] st1; [|reflexivity].
      apply Hbind; [apply Hevent | reflexivity]. }
  unfold process_date.
  apply Hbind.
  { apply Hfor. intros; eapply reinvest_body_category; eauto. }
  intros _ st1. apply Hbind; [reflexivity|]. intros v st2.
  cbv zeta. unfold enable_dynamic_rebalancing. cbv iota.
  apply Hbind.
  { apply Hbind; [reflexivity|]. intros _ st3. apply Hphase. }
  intros v' st3. unfold bind, lift, modify.
  destruct (loc_close (spy_data m) d); [|reflexivity].
  destruct (iloc_close (spy_data m) 0); [|reflexivity].
  match goal with
  | |- context [npdiv ?x ?y] => destruct (npdiv x y); reflexivity
  end.
Qed.

Lemma run_dates_shape (m : market) (ds : list date) (st : state) :
  shape (positions (run_dates m ds st)) = shape (positions st).
Proof.
  revert st. induction ds as [|d ds IH]; intros st.
  - reflexivity.
  - destruct (run_dates_cons m d ds st) as [E|E]; rewrite E.
    + apply process_date_shape.
    + rewrite IH. apply process_date_shape.
Qed.

Lemma shape_symbols (ps ps' : positions_t) :
  shape ps = shape ps' -> symbols ps = symbols ps'.
Proof.
  unfold shape, symbols. revert ps'.
  induction ps as [|[s p] ps IH]; intros [|[s' p'] ps']; simpl;
    try discriminate; [reflexivity|].
  intros [= -> _ H]. f_equal. now apply IH.
Qed.

Lemma shape_payers (m : market) (ps ps' : positions_t) :
  shape ps = shape ps' ->
  payers_have_frames m ps = payers_have_frames m ps'.
Proof.
  unfold shape, payers_have_frames. revert ps'.
  induction ps as [|[s p] ps IH]; intros [|[s' p'] ps']; simpl;
    try discriminate; [reflexivity|].
  intros [= -> -> H]. f_equal. now apply IH.
Qed.

(** X4.  Over a whole walk, whichever dates complete or raise, the ledger
    keeps the same positions in the same order with the same sleeve
    tags: no position is created, dropped or moved to the other sleeve;
    only share counts and cash change.  So a ledger whose positions have
    frames and sit in one sleeve each keeps these properties. *)
Theorem run_keeps_positions_and_sleeves (m : market) (ds : list date)
  (st : state) :
  let st' := run_dates m ds st in
  shape (positions st') = shape (positions st) /\
  symbols (positions st') = symbols (positions st) /\
  payers_have_frames m (positions st') = payers_have_frames m (positions st) /\
  sleeves_disjoint m (symbols (positions st'))
  = sleeves_disjoint m (symbols (positions st)).
Proof.
  intros st'. pose proof (run_dates_shape m ds st) as H. fold st' in H.
  split; [exact H|]. split; [now apply shape_symbols|].
  split; [now apply shape_payers|].
  now rewrite (shape_symbols _ _ H).
Qed.

(** ** What a completed date records *)

(** The steps a completed date went through. *)
Lemma process_date_completed (m : market) (d : date) (st st' : state) :
  process_date m d st = (Ok tt, st') ->
  let mc := detect_market_condition d (spy_data m) market_lookback_days
              market_threshold in
  exists st1 v st3 v' spy_price spy_first,
    reinvest_dividends m d st = (Ok tt, st1) /\
    value_by_sleeve m d st1 = (Ok v, st1) /\
    rebalance_phase m d (fst mc) (snd mc) (fst (fst v)) (snd (fst v)) (snd v)
      (alloc (fst (fst v)) (snd v)) (add_regime st1 (fst mc) (snd mc))
    = (Ok v', st3) /\
    loc_close (spy_data m) d = Ok spy_price /\
    iloc_close (spy_data m) 0 = Ok spy_first /\
    ~ spy_first == 0 /\
    st' = add_snapshot st3 d (snd v')
            (initial_capital * (spy_price / spy_first))
            (fst (fst v')) (snd (fst v')).
Proof.
  intros H mc. unfold process_date in H.
  destruct (reinvest_dividends m d st) as [[[]|e1] st1] eqn:E1.
  2:{ rewrite (bind_stop (reinvest_dividends m d) _ st st1 e1 E1) in H.
      discriminate. }
  rewrite (bind_ok (reinvest_dividends m d) _ st st1 tt E1) in H.
  cbv beta in H.
  destruct (value_by_sleeve m d st1) as [[v|e1] st1'] eqn:E2.
  2:{ rewrite (bind_stop (value_by_sleeve m d) _ st1 st1' e1 E2) in H.
      discriminate. }
  rewrite (bind_ok (value_by_sleeve m d) _ st1 st1' v E2) in H.
  assert (st1' = st1) by (unfold value_by_sleeve in E2; now injection E2).
  subst st1'.
  cbv beta zeta in H. unfold enable_dynamic_rebalancing in H. cbv iota in H.
  fold mc in H.
  set (st2 := add_regime st1 (fst mc) (snd mc)) in *.
  destruct (rebalance_phase m d (fst mc) (snd mc) (fst (fst v)) (snd (fst v))
              (snd v) (alloc (fst (fst v)) (snd v)) st2) as [[v'|e1] st3] eqn:E3.
  2:{ rewrite (bind_stop _ _ st1 st3 e1) in H; [discriminate|].
      rewrite (bind_ok _ _ st1 st2 tt) by reflexivity. exact E3. }
  rewrite (bind_ok _ _ st1 st3 v') in H
    by (rewrite (bind_ok _ _ st1 st2 tt) by reflexivity; exact E3).
  unfold bind, lift, modify in H.
  destruct (loc_close (spy_data m) d) as [spy_price|e1]; [|discriminate].
  destruct (iloc_close (spy_data m) 0) as [spy_first|e1]; [|discriminate].
  unfold npdiv in H.
  destruct (Qeq_bool spy_first 0) eqn:Ez; [discriminate|].
  injection H as <-.
  exists st1, v, st3, v', spy_price, spy_first.
  do 5 (split; [first [assumption | reflexivity]|]).
  split; [|reflexivity].
  intros Hz. apply Qeq_bool_iff in Hz. congruence.
Qed.

(** The values the rebalancing phase returns are the valuation of the
    ledger it leaves. *)
Lemma rebalance_phase_returns_valuation (m : market) (d : date) (mc : string)
  (target dv gv pv a : Q) (st2 st3 : state) (v' : Q * Q * Q) :
  rebalance_phase m d mc target dv gv pv a st2 = (Ok v', st3) ->
  value_by_sleeve m d st2 = (Ok (dv, gv, pv), st2) ->
  value_by_sleeve m d st3 = (Ok v', st3).
Proof.
  intros H Hval.
  assert (Hafter : forall rt tdv st4,
             bind (record_event d rt mc target a tdv pv)
                  (fun _ => value_by_sleeve m d) st4 = (Ok v', st3) ->
             value_by_sleeve m d st3 = (Ok v', st3)).
  { intros rt tdv st4 H4. unfold bind in H4.
    destruct (record_event d rt mc target a tdv pv st4) as [[[]|e] st5];
      [|discriminate].
    unfold value_by_sleeve in H4. unfold value_by_sleeve.
    injection H4 as H1 H2. subst st5. now rewrite H1. }
  unfold rebalance_phase in H. cbv zeta in H.
  destruct (Qltb (target + 0.05) a).
  - destruct (sell_dividend_branch m d mc target dv gv pv st2)
      as [[[rt tdv]|e] st4] eqn:E.
    + rewrite (bind_ok _ _ st2 st4 (Some (rt, tdv))) in H
        by (rewrite (bind_ok _ _ st2 st4 (rt, tdv) E); reflexivity).
      now apply (Hafter rt tdv st4).
    + rewrite (bind_stop _ _ st2 st4 e) in H
        by (now rewrite (bind_stop _ _ st2 st4 e E)).
      discriminate.
  - destruct (Qltb a (target - 0.05)).
    + destruct (buy_dividend_branch m d mc target dv gv pv st2)
        as [[[rt tdv]|e] st4] eqn:E.
      * rewrite (bind_ok _ _ st2 st4 (Some (rt, tdv))) in H
          by (rewrite (bind_ok _ _ st2 st4 (rt, tdv) E); reflexivity).
        now apply (Hafter rt tdv st4).
      * rewrite (bind_stop _ _ st2 st4 e) in H
          by (now rewrite (bind_stop _ _ st2 st4 e E)).
        discriminate.
    + rewrite (bind_ok _ _ st2 st2 None) in H by reflexivity.
      unfold ret in H. injection H as <- <-. exact Hval.
Qed.

Lemma value_loop_sound (m : market) (d : date) (ps : positions_t) :
  sleeves_disjoint m (symbols ps) = true ->
  forall dv gv pv dv' gv' pv',
    value_loop m d ps dv gv pv = Ok (dv', gv', pv') ->
    dv' == dv + sleeve_total (dividend_data m) d ps /\
    gv' == gv + sleeve_total (growth_data m) d ps /\
    pv' == pv + sleeve_total (dividend_data m) d ps
              + sleeve_total (growth_data m) d ps.
Proof.
  induction ps as [|[sym p] ps IH]; intros Hd dv gv pv dv' gv' pv'.
  - simpl. intros [= <- <- <-]. repeat split; ring.
  - simpl in Hd. apply andb_prop in Hd. destruct Hd as [Hd1 Hd2].
    simpl. unfold price_on, getitem, loc_close, getitem, contains.
    unfold contains in Hd1.
    destruct (dict_get sym (dividend_data m)) as [df|]; simpl.
    + destruct (dict_get sym (growth_data m)) as [dg|]; [discriminate|].
      destruct (dict_get d df) as [price|]; simpl; [|discriminate].
      intros H. destruct (IH Hd2 _ _ _ _ _ _ H) as (H1 & H2 & H3).
      rewrite H1, H2, H3. repeat split; ring.
    + destruct (dict_get sym (growth_data m)) as [dg|]; simpl.
      * destruct (dict_get d dg) as [price|]; simpl; [|discriminate].
        intros H. destruct (IH Hd2 _ _ _ _ _ _ H) as (H1 & H2 & H3).
        rewrite H1, H2, H3. repeat split; ring.
      * intros H. destruct (IH Hd2 _ _ _ _ _ _ H) as (H1 & H2 & H3).
        rewrite H1, H2, H3. repeat split; ring.
Qed.

(** X5.  Every snapshot is a valuation of the ledger as its date leaves
    it: when a date completes on a ledger with no symbol in both sleeves,
    it appends to the lists its own date, the value of the dividend
    positions, the value of the growth positions and their sum with
    [cash], all taken at the closes of that date on the shares held
    after reinvestment and rebalancing, together with the two fractions
    of that total, and the benchmark value
    [initial_capital * (close / first close)] of the benchmark. *)
Theorem snapshot_values_the_ledger (m : market) (d : date) (st st' : state) :
  sleeves_disjoint m (symbols (positions st)) = true ->
  process_date m d st = (Ok tt, st') ->
  exists pv dv gv sv,
    dates st' = dates st ++ [d] /\
    portfolio_values st' = portfolio_values st ++ [pv] /\
    dividend_values st' = dividend_values st ++ [dv] /\
    growth_values st' = growth_values st ++ [gv] /\
    dividend_contributions st' = dividend_contributions st ++ [alloc dv pv] /\
    growth_contributions st' = growth_contributions st ++ [alloc gv pv] /\
    spy_values st' = spy_values st ++ [sv] /\
    (exists spy_price spy_first,
       loc_close (spy_data m) d = Ok spy_price /\
       iloc_close (spy_data m) 0 = Ok spy_first /\
       ~ spy_first == 0 /\
       sv == initial_capital * spy_price / spy_first) /\
    dv == sleeve_total (dividend_data m) d (positions st') /\
    gv == sleeve_total (growth_data m) d (positions st') /\
    pv == cash st' + dv + gv.
Proof.
  intros Hd H.
  pose proof (process_date_shape m d st) as Hshape. rewrite H in Hshape.
  simpl in Hshape. apply shape_symbols in Hshape.
  destruct (process_date_completed m d st st' H)
    as (st1 & v & st3 & v' & spy_price & spy_first
        & E1 & E2 & E3 & Hp & Hf & Hnz & ->).
  destruct (quiet_for_positions (reinvest_body m d) st) as [Hs1 _].
  fold (reinvest_dividends m d) in Hs1. rewrite E1 in Hs1. simpl in Hs1.
  match type of E3 with
  | rebalance_phase _ _ ?mc ?t ?a ?b ?c ?f ?s = _ =>
      destruct (quiet_rebalance_phase m d mc t a b c f s) as [Hs3 _];
      assert (Hval : value_by_sleeve m d st3 = (Ok v', st3))
  end.
  { eapply rebalance_phase_returns_valuation; [exact E3|].
    unfold value_by_sleeve in *. simpl. injection E2 as E2.
    rewrite E2. destruct v as [[a b] c]. reflexivity. }
  rewrite E3 in Hs3. simpl in Hs3.
  assert (Hs : snapshots st3 = snapshots st)
    by (transitivity (snapshots st1); [exact Hs3 | exact Hs1]).
  unfold snapshots in Hs. injection Hs as Hs7 Hs6 Hs5 Hs4 Hs3' Hs2 Hs1'.
  destruct v' as [[dv gv] pv].
  exists pv, dv, gv, (initial_capital * (spy_price / spy_first)). simpl.
  rewrite ?Hs1', ?Hs2, ?Hs3', ?Hs4, ?Hs5, ?Hs6, ?Hs7.
  repeat (split; [reflexivity|]).
  split.
  { exists spy_price, spy_first. split; [exact Hp|]. split; [exact Hf|].
    split; [exact Hnz|]. field. exact Hnz. }
  simpl in Hshape. rewrite <- Hshape in Hd.
  unfold value_by_sleeve in Hval. injection Hval as Hval.
  destruct (value_loop_sound m d (positions st3) Hd _ _ _ _ _ _ Hval)
    as (H1 & H2 & H3).
  rewrite H3, H1, H2. repeat split; ring.
Qed.

(** The witness of X5: the first date of the three-stock scenario. *)
Lemma snapshot_values_the_ledger_witness :
  exists st' pv sv,
    process_date scenario_market "2014-01-02" scenario_state = (Ok tt, st') /\
    portfolio_values st' = [pv] /\ pv == 100000 /\
    spy_values st' = [sv] /\ sv == 100000.
Proof.
  eexists.
  eassert (Hrun : process_date scenario_market "2014-01-02" scenario_state
                  = (Ok tt, _)) by (vm_compute; reflexivity).
  destruct (snapshot_values_the_ledger scenario_market "2014-01-02"
              scenario_state _ eq_refl Hrun)
    as (pv & dv & gv & sv & _ & Hpv & _ & _ & _ & _ & Hsv
        & (p & f & Hp & Hf & _ & Hratio) & Hdv & Hgv & Hsum).
  exists pv, sv. split; [exact Hrun|]. split; [exact Hpv|].
  split; [rewrite Hsum, Hdv, Hgv; reflexivity|].
  split; [exact Hsv|].
  vm_compute in Hp. vm_compute in Hf.
  injection Hp as <-. injection Hf as <-.
  rewrite Hratio. reflexivity.
Defined.

(** ** The event log *)

Lemma silent_bind {A B : Type} (c : M A) (k : A -> M B) :
  silent c -> (forall a, silent (k a)) -> silent (bind c k).
Proof.
  intros Hc Hk st. unfold bind. specialize (Hc st).
  destruct (c st) as [[a|e] st1]; simpl in *.
  - now rewrite Hk.
  - exact Hc.
Qed.

Lemma silent_branches (m : market) (d : date) (mc : string)
  (target dv gv pv : Q) :
  silent (sell_dividend_branch m d mc target dv gv pv)
  /\ silent (buy_dividend_branch m d mc target dv gv pv).
Proof.
  split.
  - unfold sell_dividend_branch.
    apply silent_bind; [intros st; reflexivity|]. intros _.
    apply silent_bind; [intros st; reflexivity|]. intros _.
    apply silent_bind; intros; intros st; reflexivity.
  - unfold buy_dividend_branch.
    apply silent_bind; [intros st; reflexivity|]. intros _.
    apply silent_bind; [intros st; reflexivity|]. intros _.
    apply silent_bind; intros; intros st; reflexivity.
Qed.

(** What a branch returns when it returns. *)
Lemma sell_dividend_branch_value (m : market) (d : date) (mc : string)
  (target dv gv pv : Q) (st st1 : state) (t : string * Q) :
  sell_dividend_branch m d mc target dv gv pv st = (Ok t, st1) ->
  t = (("sell_dividend_" ++ mc)%string, pv * target).
Proof.
  unfold sell_dividend_branch, bind, modify, ret.
  repeat match goal with
         | |- context [for_positions ?b ?s] =>
             destruct (for_positions b s) as [[[]|?] ?]; try discriminate
         end.
  now intros [= <- _].
Qed.

Lemma buy_dividend_branch_value (m : market) (d : date) (mc : string)
  (target dv gv pv : Q) (st st1 : state) (t : string * Q) :
  buy_dividend_branch m d mc target dv gv pv st = (Ok t, st1) ->
  t = (("buy_dividend_" ++ mc)%string, pv * target).
Proof.
  unfold buy_dividend_branch, bind, modify, ret.
  repeat match goal with
         | |- context [for_positions ?b ?s] =>
             destruct (for_positions b s) as [[[]|?] ?]; try discriminate
         end.
  now intros [= <- _].
Qed.

(** The event and the revaluation after a branch. *)
Lemma record_event_step (m : market) (d : date) (rt mc : string)
  (target a pv : Q) (st1 : state) :
  (rt = ("sell_dividend_" ++ mc)%string /\ target + 0.05 < a)
  \/ (rt = ("buy_dividend_" ++ mc)%string /\ a < target - 0.05
      /\ a <= target + 0.05) ->
  event_step d st1
    (snd (bind (record_event d rt mc target a (pv * target) pv)
               (fun _ => value_by_sleeve m d) st1)).
Proof.
  intros Hrt. unfold record_event, bind, lift, modify.
  destruct (moved_amount st1) as [moved|e]; [|now left].
  unfold fdiv. destruct (Qeq_bool pv 0) eqn:Ez; [now left|].
  simpl. right. eexists. split; [reflexivity|]. split; [reflexivity|].
  unfold event_ok. simpl. split; [|exact Hrt].
  field. intros Hz. apply Qeq_bool_iff in Hz. congruence.
Qed.

Lemma rebalance_phase_step (m : market) (d : date) (mc : string)
  (target dv gv pv a : Q) (st : state) :
  event_step d st (snd (rebalance_phase m d mc target dv gv pv a st)).
Proof.
  destruct (silent_branches m d mc target dv gv pv) as [Hsell Hbuy].
  unfold rebalance_phase. cbv zeta.
  destruct (Qltb (target + 0.05) a) eqn:Eup.
  - specialize (Hsell st).
    destruct (sell_dividend_branch m d mc target dv gv pv st)
      as [[t|e] st1] eqn:E; simpl in Hsell.
    + pose proof (sell_dividend_branch_value _ _ _ _ _ _ _ _ _ _ E) as ->.
      rewrite (bind_ok _ _ st st1 (Some (("sell_dividend_" ++ mc)%string,
                                         pv * target)))
        by (rewrite (bind_ok _ _ st st1 _ E); reflexivity).
      unfold event_step. rewrite <- Hsell.
      apply record_event_step. left. split; [reflexivity|].
      now apply Qltb_true.
    + rewrite (bind_stop _ _ st st1 e)
        by (now rewrite (bind_stop _ _ st st1 e E)).
      now left.
  - destruct (Qltb a (target - 0.05)) eqn:Elow.
    + specialize (Hbuy st).
      destruct (buy_dividend_branch m d mc target dv gv pv st)
        as [[t|e] st1] eqn:E; simpl in Hbuy.
      * pose proof (buy_dividend_branch_value _ _ _ _ _ _ _ _ _ _ E) as ->.
        rewrite (bind_ok _ _ st st1 (Some (("buy_dividend_" ++ mc)%string,
                                           pv * target)))
          by (rewrite (bind_ok _ _ st st1 _ E); reflexivity).
        unfold event_step. rewrite <- Hbuy.
        apply record_event_step. right. split; [reflexivity|].
        split; [now apply Qltb_true | now apply Qltb_false].
      * rewrite (bind_stop _ _ st st1 e)
          by (now rewrite (bind_stop _ _ st st1 e E)).
        now left.
    + rewrite (bind_ok _ _ st st None) by reflexivity. now left.
Qed.

Lemma process_date_step (m : market) (d : date) (st : state) :
  event_step d st (snd (process_date m d st)).
Proof.
  remember (process_date m d st) as r eqn:Hr. unfold process_date in Hr.
  destruct (reinvest_dividends m d st) as [[[]|e1] st1] eqn:E1.
  2:{ rewrite (bind_stop (reinvest_dividends m d) _ st st1 e1 E1) in Hr.
      subst r. left. unfold reinvest_dividends, for_positions in E1.
      injection E1 as _ <-. reflexivity. }
  assert (H1 : rebalancing_events st1 = rebalancing_events st).
  { unfold reinvest_dividends, for_positions in E1.
    injection E1 as _ <-. reflexivity. }
  assert (Hfrom : forall st', event_step d st1 st' -> event_step d st st').
  { unfold event_step. rewrite H1. tauto. }
  rewrite (bind_ok (reinvest_dividends m d) _ st st1 tt E1) in Hr.
  cbv beta in Hr.
  destruct (value_by_sleeve m d st1) as [[v|e1] st1'] eqn:E2.
  2:{ rewrite (bind_stop (value_by_sleeve m d) _ st1 st1' e1 E2) in Hr.
      subst r. unfold value_by_sleeve in E2. injection E2 as _ <-.
      apply Hfrom. now left. }
  rewrite (bind_ok (value_by_sleeve m d) _ st1 st1' v E2) in Hr.
  unfold value_by_sleeve in E2. injection E2 as _ <-.
  cbv beta zeta in Hr. unfold enable_dynamic_rebalancing in Hr.
  cbv iota in Hr.
  set (mc := detect_market_condition d (spy_data m) market_lookback_days
               market_threshold) in *.
  set (st2 := add_regime st1 (fst mc) (snd mc)) in *.
  pose proof (rebalance_phase_step m d (fst mc) (snd mc) (fst (fst v))
                (snd (fst v)) (snd v) (alloc (fst (fst v)) (snd v)) st2)
    as Hstep.
  destruct (rebalance_phase m d (fst mc) (snd mc) (fst (fst v)) (snd (fst v))
              (snd v) (alloc (fst (fst v)) (snd v)) st2) as [[v'|e1] st3] eqn:E3;
    simpl in Hstep.
  - rewrite (bind_ok _ _ st1 st3 v') in Hr
      by (rewrite (bind_ok _ _ st1 st2 tt) by reflexivity; exact E3).
    unfold bind, lift, modify in Hr.
    destruct (loc_close (spy_data m) d); [|subst r; apply Hfrom, Hstep].
    destruct (iloc_close (spy_data m) 0); [|subst r; apply Hfrom, Hstep].
    match type of Hr with
    | context [npdiv ?x ?y] =>
        destruct (npdiv x y); subst r; apply Hfrom, Hstep
    end.
  - rewrite (bind_stop _ _ st1 st3 e1) in Hr.
    + subst r. apply Hfrom, Hstep.
    + rewrite (bind_ok _ _ st1 st2 tt) by reflexivity. exact E3.
Qed.

Lemma subseq_nil_l (l : list date) : subseq [] l.
Proof. induction l; now constructor. Qed.

(** X6.  The event log over a whole walk is append-only, gets at most
    one event per date, in date order, and every event it gets is
    consistent: its date is one of the dates walked, its type is the
    branch that its recorded before-fraction selects against its target
    band, and its recorded after-fraction is its target (the value
    [target_dividend_value / portfolio_value], not a measurement of the
    ledger after the trade). *)
Theorem event_log_is_consistent (m : market) (ds : list date) (st : state) :
  exists new,
    rebalancing_events (run_dates m ds st) = rebalancing_events st ++ new /\
    (List.length new <= List.length ds)%nat /\
    subseq (map ev_date new) ds /\
    Forall event_ok new.
Proof.
  revert st. induction ds as [|d ds IH]; intros st.
  - exists []. cbn [run_dates]. rewrite app_nil_r.
    repeat split; constructor.
  - assert (Hstops : run_dates m (d :: ds) st
                     = run_dates m [] (snd (process_date m d st)) \/
                     run_dates m (d :: ds) st
                     = run_dates m ds (snd (process_date m d st)))
      by apply run_dates_cons.
    assert (Hrest : exists new,
               rebalancing_events (run_dates m (d :: ds) st)
               = rebalancing_events (snd (process_date m d st)) ++ new /\
               (List.length new <= List.length ds)%nat /\
               subseq (map ev_date new) ds /\
               Forall event_ok new).
    { destruct Hstops as [E|E]; rewrite E.
      - exists []. cbn [run_dates]. rewrite app_nil_r.
        split; [reflexivity|]. split; [simpl; lia|].
        split; [apply subseq_nil_l | constructor].
      - apply IH. }
    destruct Hrest as (new & Hev & Hlen & Hsub & Hok).
    destruct (process_date_step m d st) as [Hsame|(e & Hadd & Hdate & He)].
    + exists new. rewrite Hev, Hsame.
      split; [reflexivity|]. split; [simpl; lia|].
      split; [now constructor | exact Hok].
    + exists (e :: new). rewrite Hev, Hadd, <- app_assoc.
      split; [reflexivity|]. split; [simpl; lia|].
      split; [simpl; rewrite Hdate; now constructor | now constructor].
Qed.

(** ** The amount a buy-dividend event records *)

Lemma process_date_keeps_excess_bound (m : market) (d : date) (st : state) :
  excess_dividend_value st <> None ->
  excess_dividend_value (snd (process_date m d st)) <> None.
Proof.
  assert (Hbind : forall (A B : Type) (c : M A) (k : A -> M B) st0,
             (excess_dividend_value st0 <> None ->
              excess_dividend_value (snd (c st0)) <> None) ->
             (forall a st1,
                excess_dividend_value st1 <> None ->
                excess_dividend_value (snd (k a st1)) <> None) ->
             excess_dividend_value st0 <> None ->
             excess_dividend_value (snd (bind c k st0)) <> None).
  { intros A B c k st0 Hc Hk H0. unfold bind. specialize (Hc H0).
    destruct (c st0) as [[a|e] st1]; simpl in *.
    - now apply Hk.
    - exact Hc. }
  assert (Hsame : forall (A : Type) (c : M A),
             (forall st0, excess_dividend_value (snd (c st0))
                          = excess_dividend_value st0) ->
             forall st0,
               excess_dividend_value st0 <> None ->
               excess_dividend_value (snd (c st0)) <> None).
  { intros A c Hc st0 H0. now rewrite Hc. }
  assert (Hphase : forall mc t dv gv pv a st0,
             excess_dividend_value st0 <> None ->
             excess_dividend_value
               (snd (rebalance_phase m d mc t dv gv pv a st0)) <> None).
  { intros mc t dv gv pv a st0. unfold rebalance_phase. cbv zeta.
    apply Hbind.
    - destruct (Qltb (t + 0.05) a).
      + apply Hbind.
        * intros _. rewrite sell_dividend_branch_binds. discriminate.
        * intros x st1. apply Hsame. reflexivity.
      + destruct (Qltb a (t - 0.05)).
        * apply Hbind.
          -- intros H0.
             destruct (buy_dividend_branch_binds m d mc t dv gv pv st0)
               as [_ ->]. exact H0.
          -- intros x st1. apply Hsame. reflexivity.
        * apply Hsame. reflexivity.
    - intros [[rt tdv]|] st1; [|apply Hsame; reflexivity].
      apply Hbind; [|intros; now apply (Hsame _ (value_by_sleeve m d))].
      apply Hsame. intros st2. unfold record_event, bind, lift, modify.
      destruct (moved_amount st2); simpl; [|reflexivity].
      destruct (fdiv tdv pv); reflexivity. }
  unfold process_date.
  apply Hbind; [apply Hsame; reflexivity|]. intros _ st1.
  apply Hbind; [apply Hsame; reflexivity|]. intros v st2.
  cbv zeta. unfold enable_dynamic_rebalancing. cbv iota.
  apply Hbind.
  { apply Hbind; [apply Hsame; reflexivity|]. intros _ st3. apply Hphase. }
  intros v' st3. apply Hsame. intros st4. unfold bind, lift, modify.
  destruct (loc_close (spy_data m) d); [|reflexivity].
  destruct (iloc_close (spy_data m) 0); [|reflexivity].
  match goal with
  | |- context [npdiv ?x ?y] => destruct (npdiv x y); reflexivity
  end.
Qed.

(** X7.  Once a sell-dividend branch has run, [excess_dividend_value]
    stays bound for the rest of the walk, and every later buy-dividend
    trade, whatever deficit it moves, records the amount left in
    [excess_dividend_value] as the amount moved. *)
Theorem buy_event_records_the_last_excess (m : market) (d : date)
  (mc : string) (target dv gv pv x : Q) (st : state) :
  sleeves_disjoint m (symbols (positions st)) = true ->
  closes_nonzero (dividend_data m) d (symbols (positions st)) = true ->
  closes_nonzero (growth_data m) d (symbols (positions st)) = true ->
  excess_dividend_value st = Some x ->
  (forall ds, exists y, excess_dividend_value (run_dates m ds st) = Some y) /\
  (alloc dv pv < target - 0.05 -> ~ pv == 0 ->
   exists st' v e,
     rebalance_phase m d mc target dv gv pv (alloc dv pv) st = (Ok v, st') /\
     rebalancing_events st' = rebalancing_events st ++ [e] /\
     ev_type e = ("buy_dividend_" ++ mc)%string /\
     deficit_dividend_value st' = Some (pv * target - dv) /\
     excess_moved e = x).
Proof.
  intros Hd Hcd Hcg Hx. split.
  - intros ds.
    assert (H : excess_dividend_value (run_dates m ds st) <> None).
    { assert (H0 : excess_dividend_value st <> None) by congruence.
      clear Hd Hcd Hcg Hx. revert st H0.
      induction ds as [|d0 ds IH]; intros st H0.
      - exact H0.
      - destruct (run_dates_cons m d0 ds st) as [E|E]; rewrite E.
        + now apply process_date_keeps_excess_bound.
        + apply IH. now apply process_date_keeps_excess_bound. }
    destruct (excess_dividend_value (run_dates m ds st)) as [y|];
      [now exists y | contradiction].
  - intros Hlow Hpv.
    assert (Hup : Qltb (target + 0.05) (alloc dv pv) = false).
    { apply Qltb_false. lra. }
    apply Qltb_true in Hlow.
    destruct (rebalance_phase_buy m d mc target dv gv pv (alloc dv pv) st
                Hd Hcd Hcg Hup Hlow Hpv)
      as (c2 & dv' & gv' & pv' & Hrun & _).
    eexists _, _, _. split; [exact Hrun|]. cbn.
    rewrite Hx. repeat split; reflexivity.
Qed.

(** The witness of X7: a ledger that lags at 60 percent after an excess
    of 21000 dollars was moved on an earlier date buys 10000 dollars of
    dividend stock and records 21000. *)
Lemma buy_event_records_the_last_excess_witness :
  exists st' v e,
    rebalance_phase drift_market "2014-01-03" "sideways" 0.70
      60000 40000 100000 (alloc 60000 100000) (set_excess lag_state 21000)
    = (Ok v, st') /\
    rebalancing_events st' = [e] /\
    deficit_dividend_value st' = Some (100000 * 0.70 - 60000) /\
    excess_moved e = 21000.
Proof.
  destruct (buy_event_records_the_last_excess drift_market "2014-01-03"
              "sideways" 0.70 60000 40000 100000 21000
              (set_excess lag_state 21000) eq_refl eq_refl eq_refl eq_refl)
    as [_ H].
  destruct H as (st' & v & e & Hrun & Hev & _ & Hdef & Hmoved);
    [vm_compute; reflexivity | vm_compute; discriminate |].
  exists st', v, e. repeat split; assumption.
Defined.

(** ** Regimes, targets and their averages *)

Lemma detect_market_condition_paired (d : date) (spy : series)
  (lookback_days : nat) (threshold : Q) :
  let r := detect_market_condition d spy lookback_days threshold in
  paired (fst r) (snd r).
Proof.
  rewrite detect_market_condition_sideways. unfold paired. simpl. auto.
Qed.

Lemma process_date_paired (m : market) (d : date) (st : state) :
  Forall2 paired (market_conditions st) (dynamic_targets st) ->
  Forall2 paired (market_conditions (snd (process_date m d st)))
                 (dynamic_targets (snd (process_date m d st))).
Proof.
  intros H.
  assert (Hsame : regimes (snd (process_date m d st)) = regimes st ->
                  Forall2 paired
                    (market_conditions (snd (process_date m d st)))
                    (dynamic_targets (snd (process_date m d st)))).
  { unfold regimes. intros [= -> ->]. exact H. }
  assert (Happ : regime_appended m d st (snd (process_date m d st)) ->
                 Forall2 paired
                   (market_conditions (snd (process_date m d st)))
                   (dynamic_targets (snd (process_date m d st)))).
  { unfold regime_appended, regimes. intros [= -> ->].
    apply Forall2_app; [exact H|]. constructor; [|constructor].
    apply detect_market_condition_paired. }
  destruct (process_date_cases m d st)
    as [(e & _ & Hr & _)|[(e & _ & Hr & _)|(_ & Hr & _)]]; auto.
Qed.

Lemma run_dates_paired (m : market) (ds : list date) (st : state) :
  Forall2 paired (market_conditions st) (dynamic_targets st) ->
  Forall2 paired (market_conditions (run_dates m ds st))
                 (dynamic_targets (run_dates m ds st)).
Proof.
  revert st. induction ds as [|d ds IH]; intros st H.
  - exact H.
  - destruct (run_dates_cons m d ds st) as [E|E]; rewrite E.
    + now apply process_date_paired.
    + apply IH. now apply process_date_paired.
Qed.

Lemma dict_set_twice {A : Type} (k : string) (v0 v : A)
  (d : list (string * A)) :
  dict_set k v (dict_set k v0 d) = dict_set k v d.
Proof.
  induction d as [|[k' v'] d IH]; simpl.
  - now rewrite String.eqb_refl.
  - destruct (String.eqb k k') eqn:E; simpl; rewrite E; [reflexivity|].
    now rewrite IH.
Qed.

Lemma dict_set_In {A : Type} (k : string) (v : A) (d : list (string * A))
  (k' : string) (v' : A) :
  In (k', v') (dict_set k v d) -> (k' = k /\ v' = v) \/ In (k', v') d.
Proof.
  induction d as [|[k0 v0] d IH]; simpl.
  - intros [[= <- <-]|[]]. now left.
  - destruct (String.eqb k k0) eqn:E; simpl.
    + apply String.eqb_eq in E. subst k0.
      intros [[= <- <-]|H]; [now left | now right; right].
    + intros [H|H]; [now right; left|].
      destruct (IH H) as [H1|H1]; [now left | now right; right].
Qed.

Lemma dict_set_contains {A : Type} (k k' : string) (v : A)
  (d : list (string * A)) :
  contains k' (dict_set k v d) = String.eqb k' k || contains k' d.
Proof.
  unfold contains.
  destruct (String.eqb k' k) eqn:E.
  - apply String.eqb_eq in E. subst k'. now rewrite dict_get_set_same.
  - now rewrite (dict_get_set_other k k' v d E).
Qed.

(** One step of the grouping loop. *)
Lemma group_targets_step (condition : string) (conditions : list string)
  (targets : list Q) (i : nat) (ma : list (string * list Q)) :
  group_targets (condition :: conditions) targets i ma =
  match nth_error targets i with
  | Some t =>
      group_targets conditions targets (S i)
        (dict_set condition
           (match dict_get condition ma with Some l => l | None => [] end
            ++ [t]) ma)
  | None => Raise IndexError
  end.
Proof.
  simpl. unfold contains, getitem.
  destruct (dict_get condition ma) as [l|] eqn:E.
  - rewrite E. simpl. destruct (nth_error targets i); reflexivity.
  - rewrite dict_get_set_same. simpl.
    destruct (nth_error targets i); [|reflexivity]. simpl.
    now rewrite dict_set_twice.
Qed.

Lemma group_targets_runs (targets : list Q) (conditions : list string) :
  forall i ma,
    (forall k c, nth_error conditions k = Some c ->
                 nth_error targets (i + k) = Some (regime_target c)) ->
    (forall c l, In (c, l) ma ->
                 l <> [] /\ Forall (fun t => t = regime_target c) l) ->
    exists ma',
      group_targets conditions targets i ma = Ok ma' /\
      (forall c l, In (c, l) ma' ->
                   l <> [] /\ Forall (fun t => t = regime_target c) l) /\
      (forall c, contains c ma' = true <->
                 In c conditions \/ contains c ma = true).
Proof.
  induction conditions as [|c conditions IH]; intros i ma Hnth Hma.
  - exists ma. split; [reflexivity|]. split; [exact Hma|].
    intros c. simpl. tauto.
  - rewrite group_targets_step.
    pose proof (Hnth 0%nat c eq_refl) as H0. rewrite Nat.add_0_r in H0.
    rewrite H0.
    match goal with
    | |- context [group_targets conditions targets (S i) ?ma1] =>
        destruct (IH (S i) ma1) as (ma' & Hrun & Hok & Hkeys)
    end.
    + intros k c' Hk. replace (S i + k)%nat with (i + S k)%nat by lia.
      now apply Hnth.
    + intros c' l Hin. apply dict_set_In in Hin.
      destruct Hin as [[-> ->]|Hin]; [|now apply Hma].
      split; [now destruct (dict_get c ma) as [[|? ?]|]|].
      apply Forall_app. split; [|now repeat constructor].
      destruct (dict_get c ma) as [l|] eqn:E; [|constructor].
      apply dict_get_In in E. now apply Hma in E.
    + exists ma'. split; [exact Hrun|]. split; [exact Hok|].
      intros c'. rewrite Hkeys, dict_set_contains. simpl.
      destruct (String.eqb c' c) eqn:E.
      * apply String.eqb_eq in E. subst c'. simpl. tauto.
      * apply String.eqb_neq in E. simpl.
        split; [intros [H|H]; auto | intros [[H|H]|H]; auto; congruence].
Qed.

Lemma sum_acc (values : list Q) (acc : Q) :
  fold_left Qplus values acc == acc + sum values.
Proof.
  unfold sum. revert acc. induction values as [|v values IH]; intros acc; simpl.
  - ring.
  - rewrite IH, (IH (0 + v)). ring.
Qed.

Lemma sum_of_equal_targets (values : list Q) (t : Q) :
  Forall (fun v => v = t) values -> sum values == len values * t.
Proof.
  induction 1 as [|v values Hv _ IH].
  - unfold sum, len. simpl. ring.
  - subst v. unfold sum. simpl. rewrite sum_acc, IH.
    unfold len. simpl List.length.
    rewrite Nat2Z.inj_succ, <- Z.add_1_r, inject_Z_plus. ring.
Qed.

Lemma len_nonempty {A : Type} (l : list A) : l <> [] -> ~ len l == 0.
Proof.
  destruct l as [|a l]; [congruence|]. intros _.
  unfold len, Qeq. simpl. lia.
Qed.

Lemma average_targets_runs (ma : list (string * list Q)) :
  (forall c l, In (c, l) ma ->
               l <> [] /\ Forall (fun t => t = regime_target c) l) ->
  forall avg0,
    (forall c a, In (c, a) avg0 -> a == regime_target c) ->
    exists avg,
      average_targets ma avg0 = Ok avg /\
      (forall c a, In (c, a) avg -> a == regime_target c) /\
      (forall c, contains c avg = true <->
                 contains c ma = true \/ contains c avg0 = true).
Proof.
  induction ma as [|[c l] ma IH]; intros Hma avg0 Havg.
  - exists avg0. split; [reflexivity|]. split; [exact Havg|].
    intros c. unfold contains at 2. simpl. split; [auto | intros [H|H]; auto].
    discriminate.
  - destruct (Hma c l (or_introl eq_refl)) as [Hne Hall].
    simpl. rewrite (fdiv_ok _ _ (len_nonempty l Hne)). simpl.
    destruct (IH (fun c' l' H => Hma c' l' (or_intror H))
                 (dict_set c (sum l / len l) avg0))
      as (avg & Hrun & Hok & Hkeys).
    + intros c' a Hin. apply dict_set_In in Hin.
      destruct Hin as [[-> ->]|Hin]; [|now apply Havg].
      rewrite (sum_of_equal_targets l _ Hall). field.
      now apply len_nonempty.
    + exists avg. split; [exact Hrun|]. split; [exact Hok|].
      intros c'. rewrite Hkeys, dict_set_contains.
      unfold contains at 3. simpl.
      destruct (String.eqb c' c); simpl; [tauto|].
      fold (contains c' ma). tauto.
Qed.

Lemma paired_nth (conditions : list string) (targets : list Q) :
  Forall2 paired conditions targets ->
  forall k c, nth_error conditions k = Some c ->
              nth_error targets k = Some (regime_target c).
Proof.
  induction 1 as [|c0 t0 conditions targets [_ Ht] _ IH]; intros k c.
  - destruct k; discriminate.
  - destruct k as [|k]; simpl.
    + intros [= <-]. now rewrite Ht.
    + apply IH.
Qed.

Lemma paired_labels (conditions : list string) (targets : list Q) (c : string) :
  Forall2 paired conditions targets -> In c conditions ->
  c = "bull" \/ c = "bear" \/ c = "sideways".
Proof.
  induction 1 as [|c0 t0 conditions targets [Hl _] _ IH]; simpl; [tauto|].
  intros [<-|H]; auto.
Qed.

Lemma avg_allocations_runs (conditions : list string) (targets : list Q) :
  Forall2 paired conditions targets ->
  exists avg,
    avg_allocations conditions targets = Ok avg /\
    (forall c a, In (c, a) avg -> a == regime_target c) /\
    (forall c, contains c avg = true <-> In c conditions).
Proof.
  intros H. unfold avg_allocations.
  destruct H as [|c0 t0 conditions targets Hp H].
  - exists []. split; [reflexivity|]. split; [intros c a []|].
    intros c. unfold contains. simpl. split; [discriminate | tauto].
  - assert (Hall : Forall2 paired (c0 :: conditions) (t0 :: targets))
      by now constructor.
    destruct (group_targets_runs (t0 :: targets) (c0 :: conditions) 0 [])
      as (ma & Hrun & Hok & Hkeys).
    + intros k c Hk. now apply (paired_nth _ _ Hall).
    + intros c l [].
    + rewrite Hrun. simpl.
      destruct (average_targets_runs ma Hok []) as (avg & Havg & Hvals & Hk2).
      * intros c a [].
      * exists avg. split; [exact Havg|]. split; [exact Hvals|].
        intros c. rewrite Hk2, Hkeys.
        change (contains c (@nil (string * list Q))) with false.
        change (contains c (@nil (string * Q))) with false.
        split; [intros [[H1|H1]|H1]; auto; discriminate|].
        intros H1. left. left. exact H1.
Qed.

(** X8.  Over any walk, every regime label comes with its own target,
    so the regime analysis cannot fail and the average target it reports
    for a label is the fixed target of that label: 0.55 for bull, 0.85
    for bear, 0.70 for sideways; and it reports exactly the labels the
    walk has seen. *)
Theorem average_target_is_the_regime_target (m : market) (ds : list date)
  (st : state) :
  Forall2 paired (market_conditions st) (dynamic_targets st) ->
  let st' := run_dates m ds st in
  exists avg,
    avg_allocations (market_conditions st') (dynamic_targets st') = Ok avg /\
    (forall c a,
       dict_get c avg = Some a ->
       (c = "bull" /\ a == 0.55) \/ (c = "bear" /\ a == 0.85)
       \/ (c = "sideways" /\ a == 0.70)) /\
    (forall c, contains c avg = true <-> In c (market_conditions st')).
Proof.
  intros H st'.
  pose proof (run_dates_paired m ds st H) as Hp. fold st' in Hp.
  destruct (avg_allocations_runs _ _ Hp) as (avg & Hrun & Hvals & Hkeys).
  exists avg. split; [exact Hrun|]. split; [|exact Hkeys].
  intros c a Hget.
  assert (Hc : contains c avg = true) by (apply contains_get; now exists a).
  apply Hkeys in Hc. apply (paired_labels _ _ _ Hp) in Hc.
  apply dict_get_In, Hvals in Hget.
  destruct Hc as [-> | [-> | ->]]; auto.
Qed.

(** The witness of X8: the three dates of the swing run are sideways
    dates, and their average target is 0.70. *)
Lemma average_target_is_the_regime_target_witness :
  exists avg a,
    avg_allocations
      (market_conditions
         (run_dates swing_market (all_dates swing_market)
                    (initial_state [] 0)))
      (dynamic_targets
         (run_dates swing_market (all_dates swing_market)
                    (initial_state [] 0)))
    = Ok avg /\
    dict_get "sideways" avg = Some a /\ a == 0.70.
Proof.
  destruct (average_target_is_the_regime_target swing_market
              (all_dates swing_market) (initial_state [] 0))
    as (avg & Hrun & Hvals & Hkeys); [constructor|].
  assert (Hc : contains "sideways" avg = true).
  { apply Hkeys. vm_compute. auto. }
  apply contains_get in Hc. destruct Hc as [a Ha].
  exists avg, a. split; [exact Hrun|]. split; [exact Ha|].
  destruct (Hvals "sideways" a Ha) as [[H _]|[[H _]|[_ H]]];
    [discriminate | discriminate | exact H].
Defined.

(** ** Snapshot dates and benchmark values *)

(** A date either stops and leaves the snapshot lists alone, or
    completes and appends itself with its benchmark value. *)
Lemma process_date_records (m : market) (d : date) (st : state) :
  let st' := snd (process_date m d st) in
  (dates st' = dates st /\ spy_values st' = spy_values st
   /\ portfolio_values st' = portfolio_values st) \/
  (exists sv pv,
     tracks m d sv /\
     dates st' = dates st ++ [d] /\
     spy_values st' = spy_values st ++ [sv] /\
     portfolio_values st' = portfolio_values st ++ [pv]).
Proof.
  intros st'.
  destruct (process_date_cases m d st)
    as [(e & _ & _ & Hs)|[(e & _ & _ & Hs)|(Hok & _ & _)]];
    fold st' in Hs || idtac.
  - left. unfold snapshots in Hs. injection Hs as H1 H2 H3 H4 H5 H6 H7.
    auto.
  - left. unfold snapshots in Hs. injection Hs as H1 H2 H3 H4 H5 H6 H7.
    auto.
  - right.
    assert (Hrun : process_date m d st = (Ok tt, st')).
    { subst st'. destruct (process_date m d st) as [r s]. simpl in *.
      now subst r. }
    destruct (process_date_completed m d st st' Hrun)
      as (st1 & v & st3 & v' & p & f & E1 & E2 & E3 & Hp & Hf & Hnz & Hst).
    destruct (quiet_for_positions (reinvest_body m d) st) as [Hs1 _].
    fold (reinvest_dividends m d) in Hs1. rewrite E1 in Hs1. simpl in Hs1.
    match type of E3 with
    | rebalance_phase _ _ ?mc ?t ?a ?b ?c ?g ?s = _ =>
        destruct (quiet_rebalance_phase m d mc t a b c g s) as [Hs3 _]
    end.
    rewrite E3 in Hs3. simpl in Hs3.
    assert (Hs : snapshots st3 = snapshots st)
      by (transitivity (snapshots st1); [exact Hs3 | exact Hs1]).
    unfold snapshots in Hs. injection Hs as H7 H6 H5 H4 H3 H2 H1.
    exists (initial_capital * (p / f)), (snd v').
    split; [exists p, f, (p / f); now rewrite (npdiv_ok _ _ Hnz)|].
    rewrite Hst. simpl.
    rewrite ?H1, ?H2, ?H3, ?H4, ?H5, ?H6, ?H7. auto.
Qed.

Lemma run_dates_records (m : market) (ds : list date) (st : state) :
  let st' := run_dates m ds st in
  exists recorded values,
    dates st' = dates st ++ recorded /\
    spy_values st' = spy_values st ++ values /\
    subseq recorded ds /\
    Forall2 (tracks m) recorded values.
Proof.
  revert st. induction ds as [|d ds IH]; intros st.
  - exists [], []. cbn [run_dates]. rewrite !app_nil_r.
    repeat split; constructor.
  - assert (Hrest : exists recorded values,
               dates (run_dates m (d :: ds) st)
               = dates (snd (process_date m d st)) ++ recorded /\
               spy_values (run_dates m (d :: ds) st)
               = spy_values (snd (process_date m d st)) ++ values /\
               subseq recorded ds /\
               Forall2 (tracks m) recorded values).
    { destruct (run_dates_cons m d ds st) as [E|E]; rewrite E.
      - exists [], []. rewrite !app_nil_r.
        split; [reflexivity|]. split; [reflexivity|].
        split; [apply subseq_nil_l | constructor].
      - apply IH. }
    destruct Hrest as (recorded & values & Hd & Hv & Hsub & Hall).
    destruct (process_date_records m d st)
      as [(H1 & H2 & _)|(sv & pv & Ht & H1 & H2 & _)].
    + exists recorded, values. cbv zeta. rewrite Hd, Hv, H1, H2.
      repeat split; auto. now constructor.
    + exists (d :: recorded), (sv :: values).
      cbv zeta. rewrite Hd, Hv, H1, H2, <- !app_assoc.
      repeat split; auto; now constructor.
Qed.

(** A walk that keeps its floats finite visits every date. *)
Lemma finite_walk_visits_all (m : market) (ds : list date) (st : state) :
  finite_walk m ds st = true ->
  run_dates m ds st
  = fold_left (fun s d => snd (process_date m d s)) ds st.
Proof.
  revert st. induction ds as [|d ds IH]; intros st; [reflexivity|].
  cbn [finite_walk run_dates fold_left].
  destruct (process_date m d st) as [[[]|[e|]] st1]; simpl;
    [apply IH | apply IH | discriminate].
Qed.

(** X9.  Over a walk that keeps its floats finite to its last date,
    every date is walked, each from the state the date before it left.
    The snapshot dates are appended in the order of the walk and are a
    subsequence of the dates walked, and the benchmark value recorded
    with each is [initial_capital] times the ratio of the close of that
    date to the first close of the benchmark, a finite ratio. *)
Theorem snapshot_dates_follow_the_walk (m : market) (ds : list date)
  (st : state) :
  finite_walk m ds st = true ->
  let st' := run_dates m ds st in
  st' = fold_left (fun s d => snd (process_date m d s)) ds st /\
  exists recorded values,
    dates st' = dates st ++ recorded /\
    spy_values st' = spy_values st ++ values /\
    subseq recorded ds /\
    Forall2 (tracks m) recorded values.
Proof.
  intros Hfinite st'. split.
  - now apply finite_walk_visits_all.
  - exact (run_dates_records m ds st).
Qed.

(** The witness of X9: the three days of the three-stock scenario, with
    a flat benchmark. *)
Lemma snapshot_dates_follow_the_walk_witness :
  exists recorded values,
    dates (run_dates scenario_market (all_dates scenario_market)
             scenario_state)
    = dates scenario_state ++ recorded /\
    spy_values (run_dates scenario_market (all_dates scenario_market)
                  scenario_state)
    = spy_values scenario_state ++ values /\
    recorded = ["2014-01-02"; "2014-01-03"; "2014-01-06"] /\
    Forall2 (tracks scenario_market) recorded values.
Proof.
  destruct (snapshot_dates_follow_the_walk scenario_market
              (all_dates scenario_market) scenario_state)
    as (_ & recorded & values & Hd & Hv & _ & Hall).
  - vm_compute. reflexivity.
  - exists recorded, values. split; [exact Hd|]. split; [exact Hv|].
    split; [|exact Hall].
    clear - Hd. vm_compute in Hd. symmetry. exact Hd.
Defined.

(** ** Metrics and entry point *)

Lemma last_value_app (values : list Q) (v : Q) :
  last_value (values ++ [v]) = Ok v.
Proof. unfold last_value. now rewrite rev_app_distr. Qed.

Lemma last_value_nonempty (values : list Q) :
  values <> [] -> exists earlier v, values = earlier ++ [v]
                                    /\ last_value values = Ok v.
Proof.
  intros H. destruct (exists_last H) as (earlier & v & ->).
  exists earlier, v. split; [reflexivity | apply last_value_app].
Qed.

Lemma Forall2_snoc {A B : Type} (R : A -> B -> Prop) (l1 : list A)
  (l2 : list B) (b : B) :
  Forall2 R l1 (l2 ++ [b]) ->
  exists l1' a, l1 = l1' ++ [a] /\ R a b /\ Forall2 R l1' l2.
Proof.
  intros H. apply Forall2_app_inv_r in H.
  destruct H as (l1' & la & H1 & H2 & ->).
  inversion H2 as [|a b' la' lb' Hab Hnil]; subst.
  inversion Hnil; subst. now exists l1', a.
Qed.

Lemma subseq_In (l1 l2 : list date) (d : date) :
  subseq l1 l2 -> In d l1 -> In d l2.
Proof.
  induction 1 as [|d0 l1 l2 _ IH|d0 l1 l2 _ IH]; simpl; [tauto| |].
  - intros H. right. now apply IH.
  - intros [H|H]; [now left | right; now apply IH].
Qed.

Lemma run_dates_lengths (m : market) (ds : list date) (st : state) :
  aligned st ->
  List.length (dynamic_targets st) = List.length (market_conditions st) ->
  aligned (run_dates m ds st).
Proof.
  revert st. induction ds as [|d ds IH]; intros st Ha Ht.
  - exact Ha.
  - destruct (process_date_lengths m d st Ha Ht) as (Ha1 & Ht1 & _).
    destruct (run_dates_cons m d ds st) as [E|E]; rewrite E.
    + exact Ha1.
    + now apply IH.
Qed.

(** What [run_optimized_backtest] returns when it returns a state. *)
Lemma run_optimized_backtest_some (m : market) (st : state) :
  run_optimized_backtest m = Ok (Some st) ->
  exists ps c,
    initialize m = Ok (ps, c) /\
    finite_walk m (all_dates m) (initial_state ps c) = true /\
    st = run_dates m (all_dates m) (initial_state ps c) /\
    portfolio_values st <> [].
Proof.
  unfold run_optimized_backtest.
  destruct (all_dates m) as [|d ds] eqn:Ed; [discriminate|].
  destruct (initialize m) as [[ps c]|e]; [|discriminate].
  unfold rbind. cbn [fst snd].
  destruct (finite_walk m (d :: ds) (initial_state ps c)) eqn:Ef;
    [|discriminate].
  set (st0 := run_dates m (d :: ds) (initial_state ps c)).
  destruct (portfolio_values st0) as [|pv pvs] eqn:Ep; [discriminate|].
  intros [= <-]. exists ps, c. rewrite Ep.
  split; [reflexivity|]. split; [exact Ef|].
  split; [reflexivity | discriminate].
Qed.

(** After a run that recorded a snapshot, the metrics never raise; the
    final benchmark value is the one of the last snapshot date. *)
Lemma metrics_after_run (m : market) (st : state) :
  run_optimized_backtest m = Ok (Some st) ->
  exists res earlier d sv,
    metrics st = Ok res /\
    dates st = earlier ++ [d] /\
    In d (all_dates m) /\
    tracks m d sv /\
    final_spy_value res = sv /\
    res_dates res = dates st /\
    spy_total_return res = (sv - initial_capital) / initial_capital /\
    excess_return res
    = (final_portfolio_value res - initial_capital) / initial_capital
      - (sv - initial_capital) / initial_capital.
Proof.
  intros H.
  destruct (run_optimized_backtest_some m st H)
    as (ps & c & _ & _ & Hst & Hne).
  assert (Ha : aligned st).
  { rewrite Hst. apply run_dates_lengths; [|reflexivity].
    repeat split. }
  destruct (run_dates_records m (all_dates m) (initial_state ps c))
    as (recorded & values & Hd & Hv & Hsub & Hall).
  cbv zeta in Hd, Hv. rewrite <- Hst in Hd, Hv. simpl in Hd, Hv.
  destruct (last_value_nonempty _ Hne) as (pvs & pv & Hpvs & Hpv).
  assert (Hvne : spy_values st <> []).
  { destruct Ha as (A1 & A2 & _). intros Hz.
    rewrite Hz in A2. rewrite <- A2 in A1. simpl in A1.
    destruct (portfolio_values st); [congruence | discriminate]. }
  destruct (last_value_nonempty _ Hvne) as (svs & sv & Hsvs & Hsv).
  rewrite Hv in Hsvs. rewrite Hsvs in Hall.
  apply Forall2_snoc in Hall.
  destruct Hall as (earlier & d & Hrec & Htracks & _).
  assert (Hp : Forall2 paired (market_conditions st) (dynamic_targets st)).
  { rewrite Hst. apply run_dates_paired. constructor. }
  destruct (avg_allocations_runs _ _ Hp) as (avg & Havg & _).
  unfold metrics. rewrite Hpv, Hsv. simpl. rewrite Havg. simpl.
  eexists _, earlier, d, sv. split; [reflexivity|]. simpl.
  split; [now rewrite Hd, Hrec|].
  split; [apply (subseq_In _ _ _ Hsub); rewrite Hrec, in_app_iff; simpl; auto|].
  split; [exact Htracks|]. repeat split; reflexivity.
Qed.

(** X10.  When a run returns results, the benchmark return it reports is
    the price return of the benchmark from its first close to its close
    on the last snapshot date, a common date; and the excess return is
    the difference of the two final values over the initial capital. *)
Theorem benchmark_return_is_the_index_return (m : market) (st : state) :
  run_optimized_backtest m = Ok (Some st) ->
  exists res earlier d p f,
    metrics st = Ok res /\
    res_dates res = earlier ++ [d] /\
    In d (all_dates m) /\
    loc_close (spy_data m) d = Ok p /\
    iloc_close (spy_data m) 0 = Ok f /\
    final_spy_value res == initial_capital * p / f /\
    spy_total_return res == (p - f) / f /\
    excess_return res
    == (final_portfolio_value res - final_spy_value res) / initial_capital.
Proof.
  intros H.
  destruct (metrics_after_run m st H)
    as (res & earlier & d & sv & Hres & Hd & Hin
        & (p & f & ratio & Hp & Hf & Hratio & Hsv)
        & Hfinal & Hdates & Hspy & Hex).
  assert (Hnz : ~ f == 0).
  { intros Hz. rewrite (npdiv_zero _ _ Hz) in Hratio. discriminate. }
  rewrite (npdiv_ok _ _ Hnz) in Hratio. injection Hratio as <-.
  exists res, earlier, d, p, f.
  split; [exact Hres|]. split; [now rewrite Hdates|].
  split; [exact Hin|]. split; [exact Hp|]. split; [exact Hf|].
  rewrite Hspy, Hex, Hfinal, Hsv. unfold initial_capital.
  repeat split; field; exact Hnz.
Qed.

(** The witness of X10: in the swing run the benchmark is flat, and its
    return is zero. *)
Lemma benchmark_return_is_the_index_return_witness :
  exists st res,
    run_optimized_backtest swing_market = Ok (Some st) /\
    metrics st = Ok res /\
    spy_total_return res == 0.
Proof.
  eassert (Hrun : run_optimized_backtest swing_market = Ok (Some _))
    by (vm_compute; reflexivity).
  destruct (benchmark_return_is_the_index_return swing_market _ Hrun)
    as (res & earlier & d & p & f & Hres & _ & Hin & Hp & Hf & _ & Hspy & _).
  eexists _, res. split; [exact Hrun|]. split; [exact Hres|].
  rewrite Hspy.
  assert (Hflat : p = 180 /\ f = 180).
  { vm_compute in Hf. injection Hf as <-. split; [|reflexivity].
    vm_compute in Hin. vm_compute in Hp.
    destruct Hin as [<-|[<-|[<-|[]]]]; vm_compute in Hp; now injection Hp. }
  destruct Hflat as [-> ->]. reflexivity.
Defined.

(** X11.  [main] never raises.  It returns [None] when there is no
    common date and when the initial allocation raises; it returns
    results exactly when the walk recorded at least one snapshot, and
    computing them then cannot fail. *)
Theorem main_returns_the_results_of_a_completed_run (m : market) :
  (forall e, main m <> Raise e) /\
  (all_dates m = [] -> main m = Ok None) /\
  (forall e, initialize m = Raise e -> main m = Ok None) /\
  (forall st, run_optimized_backtest m = Ok (Some st) ->
              exists res, metrics st = Ok res /\ main m = Ok (Some res)) /\
  (forall res, main m = Ok (Some res) ->
               exists st, run_optimized_backtest m = Ok (Some st)
                          /\ metrics st = Ok res
                          /\ res_dates res <> []).
Proof.
  split; [|split; [|split; [|split]]].
  - intros e. unfold main.
    destruct (backtest_results m) as [r|[e1|]]; discriminate.
  - intros H. unfold main, backtest_results, run_optimized_backtest.
    now rewrite H.
  - intros e H. unfold main, backtest_results, run_optimized_backtest.
    destruct (all_dates m); [reflexivity|]. now rewrite H.
  - intros st H.
    destruct (metrics_after_run m st H) as (res & _ & _ & _ & Hres & _).
    exists res. split; [exact Hres|].
    unfold main, backtest_results. rewrite H. simpl. now rewrite Hres.
  - intros res H. unfold main, backtest_results in H.
    destruct (run_optimized_backtest m) as [[st|]|[e|]] eqn:E; simpl in H;
      try discriminate.
    destruct (metrics_after_run m st E)
      as (res' & earlier & d & _ & Hres & Hd & _ & _ & _ & Hdates & _).
    rewrite Hres in H. simpl in H. injection H as <-.
    exists st. split; [reflexivity|]. split; [exact Hres|].
    rewrite Hdates, Hd. now destruct earlier.
Qed.

(** ** The ledger of the initial allocation *)

Lemma dict_set_fresh {A : Type} (k : string) (v : A) (d : list (string * A)) :
  contains k d = false -> dict_set k v d = d ++ [(k, v)].
Proof.
  unfold contains. induction d as [|[k' v'] d IH]; simpl; [reflexivity|].
  destruct (String.eqb k k'); [discriminate|].
  intros H. now rewrite IH.
Qed.

Lemma initial_value_app (m : market) (ps ps' : positions_t) :
  initial_value m (ps ++ ps') == initial_value m ps + initial_value m ps'.
Proof.
  induction ps as [|[sym p] ps IH]; simpl.
  - ring.
  - rewrite IH. ring.
Qed.

Lemma unique_keys_get {A : Type} (d : list (string * A)) (k : string) (v : A) :
  unique_keys d = true -> In (k, v) d -> dict_get k d = Some v.
Proof.
  induction d as [|[k' v'] d IH]; simpl; [tauto|].
  intros Hu. apply andb_prop in Hu. destruct Hu as [Hfresh Hu].
  intros [[= -> ->]|Hin].
  - now rewrite String.eqb_refl.
  - destruct (String.eqb k k') eqn:E; [|now apply IH].
    apply String.eqb_eq in E. subst k'.
    apply negb_true_iff, contains_false_get in Hfresh.
    rewrite (IH Hu Hin) in Hfresh. discriminate.
Qed.

(** The dividend loop keeps [cash] plus the value of the positions, and
    creates positions only for weighted symbols. *)
Lemma init_dividend_conserves (m : market) (ws : list (symbol * Q)) :
  dividend_closes_ok (dividend_data m) ws = true ->
  unique_keys ws = true ->
  forall ps0 c0,
    (forall s, contains s ws = true -> contains s ps0 = false) ->
    exists ps c,
      init_dividend (dividend_data m) ws ps0 c0 = Ok (ps, c) /\
      c + initial_value m ps == c0 + initial_value m ps0 /\
      (forall s, contains s ps = true ->
                 contains s ps0 = true \/ contains s ws = true).
Proof.
  induction ws as [|[s w] ws IH]; intros Hok Hu ps0 c0 Hfresh.
  - exists ps0, c0. split; [reflexivity|]. split; [reflexivity|]. auto.
  - simpl in Hok. apply andb_prop in Hok. destruct Hok as [Hs Hok].
    simpl in Hu. apply andb_prop in Hu. destruct Hu as [Hsfresh Hu].
    apply negb_true_iff in Hsfresh.
    assert (Hs0 : contains s ps0 = false).
    { apply Hfresh. unfold contains. simpl. now rewrite String.eqb_refl. }
    assert (Htail : forall ps1 : positions_t,
               (forall s', contains s' ps1 = true ->
                           contains s' ps0 = true \/ s' = s) ->
               forall s', contains s' ws = true -> contains s' ps1 = false).
    { intros ps1 H1 s' Hs'. apply not_true_is_false. intros Hc.
      destruct (H1 s' Hc) as [H2|H2]; [|subst s'; congruence].
      rewrite Hfresh in H2; [discriminate|].
      unfold contains in *. simpl.
      destruct (String.eqb s' s); [reflexivity | exact Hs']. }
    assert (Hin : forall s', contains s' ws = true ->
                             contains s' ((s, w) :: ws) = true).
    { intros s' Hs'. unfold contains in *. simpl.
      destruct (String.eqb s' s); [reflexivity | exact Hs']. }
    simpl. destruct (contains s (dividend_data m)) eqn:Ec.
    + destruct (first_close (dividend_data m) s) as [price|] eqn:Ef;
        [|discriminate].
      apply contains_get in Ec. destruct Ec as [df Edf].
      unfold getitem. rewrite Edf. simpl.
      rewrite (iloc_close_first _ s df price Edf Ef). simpl.
      assert (Hnz : ~ price == 0).
      { intros Hz. apply Qeq_bool_iff in Hz. rewrite Hz in Hs. discriminate. }
      rewrite (fdiv_ok _ _ Hnz). simpl.
      rewrite (dict_set_fresh _ _ _ Hs0).
      match goal with
      | |- context [init_dividend _ ws ?ps1 ?c1] =>
          destruct (IH Hok Hu ps1 c1) as (ps & c & -> & Hc & Hkeys)
      end.
      * apply Htail. intros s' Hc. unfold contains in *.
        destruct (String.eqb s' s) eqn:E;
          [right; now apply String.eqb_eq|].
        left. clear - Hc E.
        induction ps0 as [|[k v] ps0 IH]; simpl in *.
        -- now rewrite E in Hc.
        -- destruct (String.eqb s' k); auto.
      * exists ps, c. split; [reflexivity|]. split.
        -- rewrite Hc, initial_value_app. simpl.
           unfold initial_price. simpl. rewrite Ef. field. exact Hnz.
        -- intros s' Hs'. destruct (Hkeys s' Hs') as [H1|H1].
           ++ unfold contains in H1 |- *. simpl.
              destruct (String.eqb s' s) eqn:E; [now right|].
              left. clear - H1 E.
              induction ps0 as [|[k v] ps0 IH]; simpl in *.
              ** now rewrite E in H1.
              ** destruct (String.eqb s' k); auto.
           ++ right. now apply Hin.
    + destruct (IH Hok Hu ps0 c0) as (ps & c & -> & Hc & Hkeys).
      * intros s' Hs'. apply Hfresh. now apply Hin.
      * exists ps, c. split; [reflexivity|]. split; [exact Hc|].
        intros s' Hs'. destruct (Hkeys s' Hs') as [H1|H1]; auto.
Qed.

Lemma init_growth_conserves (m : market) (gw : Q)
  (gd : list (symbol * series)) :
  growth_closes_ok gd = true ->
  unique_keys gd = true ->
  (forall sym df, In (sym, df) gd -> dict_get sym (growth_data m) = Some df) ->
  forall ps0 c0,
    (forall s, contains s gd = true -> contains s ps0 = false) ->
    exists ps c,
      init_growth gd gw ps0 c0 = Ok (ps, c) /\
      c + initial_value m ps == c0 + initial_value m ps0.
Proof.
  induction gd as [|[s df] gd IH]; intros Hok Hu Hget ps0 c0 Hfresh.
  - exists ps0, c0. split; reflexivity.
  - simpl in Hok. apply andb_prop in Hok. destruct Hok as [Hs Hok].
    simpl in Hu. apply andb_prop in Hu. destruct Hu as [Hsfresh Hu].
    apply negb_true_iff in Hsfresh.
    assert (Hs0 : contains s ps0 = false).
    { apply Hfresh. unfold contains. simpl. now rewrite String.eqb_refl. }
    pose proof (Hget s df (or_introl eq_refl)) as Hdf.
    destruct df as [|[d0 price] df]; [discriminate|].
    assert (Hnz : ~ price == 0).
    { intros Hz. apply Qeq_bool_iff in Hz. rewrite Hz in Hs. discriminate. }
    simpl. unfold iloc_close. simpl. rewrite (fdiv_ok _ _ Hnz). simpl.
    rewrite (dict_set_fresh _ _ _ Hs0).
    match goal with
    | |- context [init_growth gd gw ?ps1 ?c1] =>
        destruct (IH Hok Hu (fun sym df' H => Hget sym df' (or_intror H))
                     ps1 c1) as (ps & c & -> & Hc)
    end.
    + intros s' Hs'. apply not_true_is_false. intros Hc.
      assert (Hne : String.eqb s' s = false).
      { apply not_true_is_false. intros E. apply String.eqb_eq in E.
        subst s'. congruence. }
      assert (H0 : contains s' ps0 = false).
      { apply Hfresh. unfold contains in *. simpl. now rewrite Hne. }
      unfold contains in Hc, H0. clear - Hc H0 Hne.
      induction ps0 as [|[k v] ps0 IH]; simpl in *.
      * now rewrite Hne in Hc.
      * destruct (String.eqb s' k); [discriminate | auto].
    + exists ps, c. split; [reflexivity|].
      rewrite Hc, initial_value_app. simpl.
      unfold initial_price, first_close. simpl. rewrite Hdf.
      field. exact Hnz.
Qed.

(** X12.  The initial allocation conserves value: when it succeeds on
    well-formed inputs, [cash] plus the value of all positions at their
    first closes is the initial capital, whatever the weights are. *)
Theorem initial_allocation_conserves_value (m : market) :
  inputs_well_formed m = true ->
  first_closes_ok m = true ->
  exists ps c,
    initialize m = Ok (ps, c) /\
    c + initial_value m ps == initial_capital.
Proof.
  intros Hwf Hok. unfold inputs_well_formed in Hwf. unfold first_closes_ok in Hok.
  apply andb_prop in Hwf. destruct Hwf as [Hwf Hsep].
  apply andb_prop in Hwf. destruct Hwf as [Huw Hug].
  apply andb_prop in Hok. destruct Hok as [Hokd Hokg].
  destruct (init_dividend_conserves m (dividend_weights m) Hokd Huw
              [] initial_capital) as (ps1 & c1 & Hrun1 & Hc1 & Hkeys);
    [reflexivity|].
  destruct (init_growth_conserves m (growth_weight (growth_data m))
              (growth_data m) Hokg Hug) with (ps0 := ps1) (c0 := c1)
    as (ps & c & Hrun2 & Hc).
  - intros sym df Hin. now apply unique_keys_get.
  - intros s Hs. apply not_true_is_false. intros Hc.
    destruct (Hkeys s Hc) as [H|H]; [discriminate|].
    apply contains_get in H. destruct H as [w Hw]. apply dict_get_In in Hw.
    rewrite forallb_forall in Hsep. specialize (Hsep _ Hw). simpl in Hsep.
    rewrite Hs in Hsep. discriminate.
  - exists ps, c. split.
    + unfold initialize.
      match goal with
      | |- context [init_dividend ?a ?b ?c0 ?d] =>
          replace (init_dividend a b c0 d) with (Ok (ps1, c1))
            by (symmetry; exact Hrun1)
      end.
      simpl. exact Hrun2.
    + rewrite Hc, Hc1. simpl. ring.
Qed.

(** The witness of X12: weights of 0.5 and 0.25 leave 17500 dollars of
    cash beside 82500 dollars of stock. *)
Lemma initial_allocation_conserves_value_witness :
  exists ps c,
    initialize light_market = Ok (ps, c) /\
    c + initial_value light_market ps == 100000.
Proof.
  exact (initial_allocation_conserves_value light_market eq_refl eq_refl).
Defined.

Lemma payers_dict_set (m : market) (sym : symbol) (p : position)
  (ps : positions_t) :
  payers_have_frames m ps = true ->
  negb (String.eqb (category p) "dividend_aristocrat"
        && contains sym (dividend_dividends m))
  || contains sym (dividend_data m) = true ->
  payers_have_frames m (dict_set sym p ps) = true.
Proof.
  intros Hps Hp. unfold payers_have_frames in *.
  induction ps as [|[k v] ps IH]; simpl in *.
  - now rewrite Hp.
  - apply andb_prop in Hps. destruct Hps as [Hk Hps].
    destruct (String.eqb sym k) eqn:E; simpl.
    + apply String.eqb_eq in E. subst k. now rewrite Hp, Hps.
    + now rewrite Hk, IH.
Qed.

Lemma init_dividend_payers (m : market) (ws : list (symbol * Q)) :
  forall ps0 c0 ps c,
    payers_have_frames m ps0 = true ->
    init_dividend (dividend_data m) ws ps0 c0 = Ok (ps, c) ->
    payers_have_frames m ps = true.
Proof.
  induction ws as [|[s w] ws IH]; intros ps0 c0 ps c Hps; simpl.
  - now intros [= <- _].
  - destruct (contains s (dividend_data m)) eqn:Ec; [|now apply IH].
    destruct (getitem s (dividend_data m)) as [df|]; [|discriminate]. simpl.
    destruct (iloc_close df 0) as [price|]; [|discriminate]. simpl.
    destruct (fdiv _ price) as [sh|]; [|discriminate]. simpl.
    apply IH. apply payers_dict_set; [exact Hps|].
    rewrite Ec. apply orb_true_r.
Qed.

Lemma init_growth_payers (m : market) (gw : Q) (gd : list (symbol * series)) :
  forall ps0 c0 ps c,
    payers_have_frames m ps0 = true ->
    init_growth gd gw ps0 c0 = Ok (ps, c) ->
    payers_have_frames m ps = true.
Proof.
  induction gd as [|[s df] gd IH]; intros ps0 c0 ps c Hps; simpl.
  - now intros [= <- _].
  - destruct (iloc_close df 0) as [price|]; [|discriminate]. simpl.
    destruct (fdiv _ price) as [sh|]; [|discriminate]. simpl.
    apply IH. apply payers_dict_set; [exact Hps|]. reflexivity.
Qed.

Lemma initialize_payers (m : market) (ps : positions_t) (c : Q) :
  initialize m = Ok (ps, c) -> payers_have_frames m ps = true.
Proof.
  unfold initialize.
  destruct (init_dividend (dividend_data m) (dividend_weights m) []
              initial_capital) as [[ps1 c1]|] eqn:E1; [|discriminate].
  simpl. apply init_growth_payers.
  apply (init_dividend_payers m (dividend_weights m) [] initial_capital ps1 c1);
    [reflexivity|].
  exact E1.
Qed.

(** X13.  In a run that starts from the initial allocation, whatever the
    weights and frames are, a common date can be lost to a division by
    zero only: after any dates walked before it, no lookup of a price or
    of a dividend raises on it. *)
Theorem run_loses_common_dates_to_zero_division_only (m : market)
  (ps : positions_t) (c : Q) (ds : list date) (d : date) (e : exn) :
  initialize m = Ok (ps, c) ->
  In d (all_dates m) ->
  fst (process_date m d (run_dates m ds (initial_state ps c))) = Raise e ->
  e = ZeroDivisionError.
Proof.
  intros Hinit Hd.
  apply (process_date_common_raises m d _ Hd).
  rewrite (shape_payers m _ _ (run_dates_shape m ds (initial_state ps c))).
  simpl. exact (initialize_payers m ps c Hinit).
Qed.

(** The witness of X13: after the first date of a run from the initial
    allocation, the date on which a growth stock closes at zero is lost
    to a division by zero. *)
Lemma run_loses_common_dates_to_zero_division_only_witness :
  exists ps c e,
    initialize zero_close_market = Ok (ps, c) /\
    fst (process_date zero_close_market "2014-01-03"
           (run_dates zero_close_market ["2014-01-02"] (initial_state ps c)))
    = Raise e /\ e = ZeroDivisionError.
Proof.
  eexists. eexists. eexists.
  split; [vm_compute; reflexivity|].
  split; [vm_compute; reflexivity|].
  eapply (run_loses_common_dates_to_zero_division_only zero_close_market
            _ _ ["2014-01-02"] "2014-01-03").
  - vm_compute. reflexivity.
  - vm_compute. auto.
  - vm_compute. reflexivity.
Defined.

(** ** Share counts through a trade *)

Lemma closes_positive_nonzero (data : list (symbol * series)) (d : date)
  (syms : list symbol) :
  closes_positive data d syms = true -> closes_nonzero data d syms = true.
Proof.
  unfold closes_positive, closes_nonzero. rewrite !forallb_forall.
  intros H sym Hin. specialize (H sym Hin).
  destruct (contains sym data); [|reflexivity].
  destruct (price_on data d sym) as [price|]; [|discriminate].
  apply Qltb_true in H. apply negb_true_iff, not_true_is_false.
  intros E. apply Qeq_bool_iff in E. rewrite E in H.
  now apply Qlt_irrefl in H.
Qed.

Lemma Qdiv_nonneg (a b : Q) : 0 <= a -> 0 < b -> 0 <= a / b.
Proof.
  intros Ha Hb. apply Qle_shift_div_l; [exact Hb|]. now rewrite Qmult_0_l.
Qed.

Lemma len_nonneg {A : Type} (l : list A) : 0 <= len l.
Proof.
  unfold len. change 0 with (inject_Z 0). rewrite <- Zle_Qle. lia.
Qed.

Lemma buy_fraction_nonneg (data : list (symbol * series)) (d : date)
  (sleeve_value : Q) (sym : symbol) (p : position) :
  0 <= shares p ->
  (forall price, price_on data d sym = Some price -> 0 < price) ->
  0 <= buy_fraction_of data d sleeve_value sym p.
Proof.
  intros Hs Hp. unfold buy_fraction_of.
  destruct (contains sym data); [|apply Qle_refl].
  destruct (price_on data d sym) as [price|]; [|apply Qle_refl].
  specialize (Hp price eq_refl).
  destruct (Qltb 0 sleeve_value) eqn:E.
  - apply Qltb_true in E. apply Qdiv_nonneg; [|exact E].
    apply Qmult_le_0_compat; [exact Hs | now apply Qlt_le_weak].
  - unfold Qdiv. rewrite Qmult_1_l. apply Qinv_le_0_compat, len_nonneg.
Qed.

Lemma sold_nonneg (data : list (symbol * series)) (fraction : Q)
  (sym : symbol) (p : position) :
  fraction <= 1 -> 0 <= shares p -> 0 <= shares (sold data fraction sym p).
Proof.
  intros Hf Hs. unfold sold. destruct (contains sym data); [|exact Hs].
  simpl. setoid_replace (shares p - shares p * fraction)
           with (shares p * (1 - fraction)) by ring.
  apply Qmult_le_0_compat; [exact Hs | lra].
Qed.

Lemma bought_nonneg (data : list (symbol * series)) (d : date)
  (amount sleeve_value : Q) (sym : symbol) (p : position) :
  0 <= amount -> 0 <= shares p ->
  (contains sym data = true ->
   forall price, price_on data d sym = Some price -> 0 < price) ->
  0 <= shares (bought data d amount sleeve_value sym p).
Proof.
  intros Ha Hs Hp. unfold bought.
  destruct (contains sym data) eqn:Ec; [|exact Hs].
  destruct (price_on data d sym) as [price|] eqn:E; [|exact Hs].
  simpl.
  assert (Hb : 0 <= buy_fraction_of data d sleeve_value sym p).
  { apply buy_fraction_nonneg; [exact Hs|]. rewrite E. intros q [= <-].
    now apply (Hp eq_refl). }
  assert (H : 0 <= amount * buy_fraction_of data d sleeve_value sym p / price).
  { apply Qdiv_nonneg; [now apply Qmult_le_0_compat | now apply (Hp eq_refl)]. }
  lra.
Qed.

(** A transfer of a nonnegative amount that sells at most the whole
    source sleeve leaves no share count below zero. *)
Lemma transferred_nonneg (src dst : list (symbol * series)) (d : date)
  (amount src_value dst_value : Q) (ps : positions_t) :
  0 <= amount ->
  sale_fraction amount src_value <= 1 ->
  closes_positive dst d (symbols ps) = true ->
  shares_nonneg ps = true ->
  shares_nonneg (transferred src dst d amount src_value dst_value ps) = true.
Proof.
  intros Ha Hf. unfold transferred, shares_nonneg, closes_positive, symbols.
  induction ps as [|[sym p] ps IH]; simpl; [reflexivity|].
  intros Hc Hs.
  apply andb_prop in Hc. destruct Hc as [Hc0 Hc].
  apply andb_prop in Hs. destruct Hs as [Hs0 Hs].
  rewrite (IH Hc Hs), andb_true_r.
  apply Qle_bool_iff. apply Qle_bool_iff in Hs0.
  apply bought_nonneg; [exact Ha | now apply sold_nonneg|].
  intros Ec price Hp. rewrite Ec, Hp in Hc0. now apply Qltb_true.
Qed.

Lemma Qdiv_lt_bound (a b c : Q) : 0 < b -> a / b < c -> a < c * b.
Proof.
  intros Hb H. setoid_replace a with (a / b * b) by (field; lra).
  now apply Qmult_lt_r.
Qed.

Lemma Qdiv_gt_bound (a b c : Q) : 0 < b -> c < a / b -> c * b < a.
Proof.
  intros Hb H. setoid_replace a with (a / b * b) by (field; lra).
  now apply Qmult_lt_r.
Qed.

Lemma below_band_deficit (target dv pv : Q) :
  0 < pv -> alloc dv pv < target - 0.05 -> 0 < pv * target - dv.
Proof.
  intros Hpv Ha. rewrite (alloc_funded _ _ Hpv) in Ha.
  apply (Qdiv_lt_bound _ _ _ Hpv) in Ha.
  assert (H' : 0 < 0.05 * pv) by (apply Qmult_lt_0_compat; [lra | exact Hpv]).
  lra.
Qed.

Lemma above_band_excess (target dv pv : Q) :
  0 < pv -> target + 0.05 < alloc dv pv -> 0 < dv - pv * target.
Proof.
  intros Hpv Ha. rewrite (alloc_funded _ _ Hpv) in Ha.
  apply (Qdiv_gt_bound _ _ _ Hpv) in Ha.
  assert (H' : 0 < 0.05 * pv) by (apply Qmult_lt_0_compat; [lra | exact Hpv]).
  lra.
Qed.

(** X14.  A rebalancing trade never leaves a share count below zero when
    the closes of the date are positive, the share counts are not
    negative before it and the target is not negative, provided, for a
    purchase of dividend stock, that the portfolio is worth something
    and the missing dividend value is at most the value of the growth
    sleeve. *)
Theorem rebalance_keeps_shares_nonnegative (m : market) (d : date)
  (mc : string) (target dv gv pv : Q) (st : state) :
  sleeves_disjoint m (symbols (positions st)) = true ->
  closes_positive (dividend_data m) d (symbols (positions st)) = true ->
  closes_positive (growth_data m) d (symbols (positions st)) = true ->
  shares_nonneg (positions st) = true ->
  0 <= target ->
  (target + 0.05 < alloc dv pv \/
   (alloc dv pv < target - 0.05 /\ 0 < pv /\ pv * target - dv <= gv)) ->
  exists v st',
    rebalance_phase m d mc target dv gv pv (alloc dv pv) st = (Ok v, st') /\
    rebalancing_events st' <> rebalancing_events st /\
    shares_nonneg (positions st') = true.
Proof.
  intros Hd Hpd Hpg Hs Ht Hband.
  pose proof (closes_positive_nonzero _ _ _ Hpd) as Hcd.
  pose proof (closes_positive_nonzero _ _ _ Hpg) as Hcg.
  assert (Hlog : forall (l : list event) e, l ++ [e] <> l).
  { intros l e H. apply (f_equal (@List.length event)) in H.
    rewrite length_app in H. simpl in H. lia. }
  destruct Hband as [Hup|(Hlow & Hpv & Hgv)].
  - destruct (above_band_funded target dv pv Ht Hup) as [Hpv Hdv].
    destruct (rebalance_phase_sell m d mc target dv gv pv (alloc dv pv) st
                Hd Hcd Hcg) as (c2 & dv' & gv' & pv' & Hrun & _).
    + now apply Qltb_true.
    + intros E. rewrite E in Hpv. now apply Qlt_irrefl in Hpv.
    + eexists. eexists. split; [exact Hrun|]. split; [apply Hlog|]. simpl.
      pose proof (above_band_excess target dv pv Hpv Hup) as Hx.
      apply transferred_nonneg; [lra | | exact Hpg | exact Hs].
      unfold sale_fraction. apply Qltb_true in Hdv. rewrite Hdv.
      apply Qltb_true in Hdv. apply Qle_shift_div_r; [exact Hdv|].
      assert (H : 0 <= pv * target)
        by (apply Qmult_le_0_compat; [lra | exact Ht]).
      lra.
  - pose proof (below_band_deficit target dv pv Hpv Hlow) as Hx.
    destruct (rebalance_phase_buy m d mc target dv gv pv (alloc dv pv) st
                Hd Hcd Hcg) as (c2 & dv' & gv' & pv' & Hrun & _).
    + apply Qltb_false. lra.
    + now apply Qltb_true.
    + intros E. rewrite E in Hpv. now apply Qlt_irrefl in Hpv.
    + eexists. eexists. split; [exact Hrun|]. split; [apply Hlog|]. simpl.
      apply transferred_nonneg; [lra | | exact Hpd | exact Hs].
      unfold sale_fraction. destruct (Qltb 0 gv) eqn:E; [|lra].
      apply Qltb_true in E. apply Qle_shift_div_r; [exact E | lra].
Qed.

(** The witness of X14: the sale that brings a dividend sleeve of 77
    percent back to 70 percent. *)
Lemma rebalance_keeps_shares_nonnegative_witness :
  exists v st',
    rebalance_phase drift_market "2014-01-03" "neutral" 0.70 77000 23000
      100000 (alloc 77000 100000) drift_state = (Ok v, st') /\
    rebalancing_events st' <> rebalancing_events drift_state /\
    shares_nonneg (positions st') = true.
Proof.
  apply (rebalance_keeps_shares_nonnegative drift_market "2014-01-03"
           "neutral" 0.70 77000 23000 100000 drift_state).
  - reflexivity.
  - reflexivity.
  - reflexivity.
  - reflexivity.
  - vm_compute. discriminate.
  - left. vm_compute. reflexivity.
Defined.

Lemma transferred_In (src dst : list (symbol * series)) (d : date)
  (amount src_value dst_value : Q) (ps : positions_t) (sym : symbol)
  (p : position) :
  In (sym, p) ps ->
  In (sym, bought dst d amount dst_value sym
             (sold src (sale_fraction amount src_value) sym p))
     (transferred src dst d amount src_value dst_value ps).
Proof.
  intros Hin. unfold transferred. rewrite map_map. simpl.
  apply (in_map (fun sp : symbol * position =>
                   (fst sp,
                    bought dst d amount dst_value (fst sp)
                      (sold src (sale_fraction amount src_value) (fst sp)
                         (snd sp)))) ps (sym, p) Hin).
Qed.

(** X15.  A purchase of dividend stock whose missing dividend value
    exceeds the value of the growth sleeve, as happens when much of the
    portfolio is cash, sells more growth shares than are held: every
    growth position with shares ends the trade with a negative share
    count. *)
Theorem cash_heavy_purchase_oversells_growth (m : market) (d : date)
  (mc : string) (target dv gv pv : Q) (st : state) (sym : symbol)
  (p : position) :
  sleeves_disjoint m (symbols (positions st)) = true ->
  closes_nonzero (dividend_data m) d (symbols (positions st)) = true ->
  closes_nonzero (growth_data m) d (symbols (positions st)) = true ->
  alloc dv pv < target - 0.05 ->
  ~ pv == 0 ->
  0 < gv ->
  gv < pv * target - dv ->
  In (sym, p) (positions st) ->
  contains sym (growth_data m) = true ->
  0 < shares p ->
  exists v st' p',
    rebalance_phase m d mc target dv gv pv (alloc dv pv) st = (Ok v, st') /\
    In (sym, p') (positions st') /\
    shares p' < 0.
Proof.
  intros Hd Hcd Hcg Hlow Hpv Hgv Hover Hin Hsym Hs.
  destruct (rebalance_phase_buy m d mc target dv gv pv (alloc dv pv) st
              Hd Hcd Hcg) as (c2 & dv' & gv' & pv' & Hrun & _).
  - apply Qltb_false. lra.
  - now apply Qltb_true.
  - exact Hpv.
  - eexists. eexists. eexists. split; [exact Hrun|]. simpl.
    split; [apply transferred_In; exact Hin|].
    assert (Hdd : contains sym (dividend_data m) = false).
    { unfold sleeves_disjoint in Hd. rewrite forallb_forall in Hd.
      assert (Hi : In sym (symbols (positions st)))
        by (apply (in_map fst _ _ Hin)).
      specialize (Hd sym Hi). rewrite Hsym, andb_true_r in Hd.
      now apply negb_true_iff in Hd. }
    unfold bought. rewrite Hdd. unfold sold. rewrite Hsym. simpl.
    unfold sale_fraction. apply Qltb_true in Hgv. rewrite Hgv.
    apply Qltb_true in Hgv.
    assert (Hf : 1 < (pv * target - dv) / gv).
    { apply Qlt_shift_div_l; [exact Hgv | lra]. }
    assert (Hm : 0 < shares p * ((pv * target - dv) / gv - 1))
      by (apply Qmult_lt_0_compat; [exact Hs | lra]).
    lra.
Qed.

(** The witness of X15: with 80000 dollars of cash and 10000 dollars in
    each sleeve, reaching 70 percent takes 60000 dollars out of a growth
    sleeve worth 10000, and leaves 2500 shares sold short. *)
Lemma cash_heavy_purchase_oversells_growth_witness :
  exists v st' p',
    rebalance_phase drift_market "2014-01-03" "neutral" 0.70 10000 10000
      100000 (alloc 10000 100000) cash_heavy_state = (Ok v, st') /\
    In ("UBER", p') (positions st') /\
    shares p' < 0.
Proof.
  apply (cash_heavy_purchase_oversells_growth drift_market "2014-01-03"
           "neutral" 0.70 10000 10000 100000 cash_heavy_state "UBER"
           {| shares := 500; category := "high_growth" |}).
  - reflexivity.
  - reflexivity.
  - reflexivity.
  - vm_compute. reflexivity.
  - vm_compute. discriminate.
  - vm_compute. reflexivity.
  - vm_compute. reflexivity.
  - right. left. reflexivity.
  - reflexivity.
  - vm_compute. reflexivity.
Defined.

(** ** Rebalancing twice *)

(** The values a trade returns put the dividend fraction on the target. *)
Lemma trade_reaches_target (m : market) (d : date) (mc : string)
  (target dv gv pv : Q) (st : state) :
  sleeves_disjoint m (symbols (positions st)) = true ->
  closes_nonzero (dividend_data m) d (symbols (positions st)) = true ->
  closes_nonzero (growth_data m) d (symbols (positions st)) = true ->
  value_by_sleeve m d st = (Ok (dv, gv, pv), st) ->
  0 <= target ->
  (target + 0.05 < alloc dv pv \/
   (alloc dv pv < target - 0.05 /\ 0 < pv /\
    (0 < dv \/ fully_held (dividend_data m) (symbols (positions st)) = true))) ->
  exists dv' gv' pv' st',
    rebalance_phase m d mc target dv gv pv (alloc dv pv) st
    = (Ok (dv', gv', pv'), st') /\
    rebalancing_events st' <> rebalancing_events st /\
    alloc dv' pv' == target.
Proof.
  intros Hd Hcd Hcg Hval Ht Hband.
  destruct (value_by_sleeve_values m d st dv gv pv Hd Hcd Hcg Hval)
    as (Hdv & Hgv & Hpv).
  assert (Hlog : forall (l : list event) e, l ++ [e] <> l).
  { intros l e H. apply (f_equal (@List.length event)) in H.
    rewrite length_app in H. simpl in H. lia. }
  destruct Hband as [Ha|(Ha & Hpv0 & Hheld)].
  - destruct (above_band_funded target dv pv Ht Ha) as [Hpv0 Hdv0].
    assert (Hnz : ~ pv == 0) by lra.
    apply Qltb_true in Ha.
    destruct (rebalance_phase_sell m d mc target dv gv pv (alloc dv pv) st
                Hd Hcd Hcg Ha Hnz)
      as (c2 & dv' & gv' & pv' & Hrun & _ & H1 & H2 & H3).
    assert (Edv : dv' == dv - (dv - pv * target)).
    { rewrite H1, (sale_fraction_funded _ _ Hdv0), <- Hdv. field. lra. }
    assert (Epv : pv' == pv) by (rewrite H3, Hpv, <- Hdv, <- Hgv; ring).
    eexists dv', gv', pv', _.
    split; [exact Hrun|]. split; [apply Hlog|].
    rewrite alloc_funded by (rewrite Epv; exact Hpv0).
    rewrite Edv, Epv. field. lra.
  - assert (Hnz : ~ pv == 0) by lra.
    assert (Hup : Qltb (target + 0.05) (alloc dv pv) = false).
    { apply Qltb_false. lra. }
    apply Qltb_true in Ha.
    destruct (rebalance_phase_buy m d mc target dv gv pv (alloc dv pv) st
                Hd Hcd Hcg Hup Ha Hnz)
      as (c2 & dv' & gv' & pv' & Hrun & _ & H1 & _ & H3).
    assert (Epv : pv' == pv) by (rewrite H3, Hpv, <- Hdv, <- Hgv; ring).
    assert (Edv : dv' == pv * target).
    { rewrite H1, <- Hdv.
      rewrite (fraction_sum_whole _ d dv (positions st) Hcd Hdv Hheld). ring. }
    eexists dv', gv', pv', _.
    split; [exact Hrun|]. split; [apply Hlog|].
    rewrite alloc_funded by (rewrite Epv; exact Hpv0).
    rewrite Edv, Epv. field. lra.
Qed.

(** X16.  Rebalancing is idempotent at a date: after a trade that starts
    from the valuation of the ledger, the values the phase returns lie
    inside the band of the same target, so running the phase again on
    them, under any regime label, trades nothing, records no event and
    leaves the state as it is. *)
Theorem rebalance_again_changes_nothing (m : market) (d : date) (mc : string)
  (target dv gv pv : Q) (st : state) :
  sleeves_disjoint m (symbols (positions st)) = true ->
  closes_nonzero (dividend_data m) d (symbols (positions st)) = true ->
  closes_nonzero (growth_data m) d (symbols (positions st)) = true ->
  value_by_sleeve m d st = (Ok (dv, gv, pv), st) ->
  0 <= target ->
  (target + 0.05 < alloc dv pv \/
   (alloc dv pv < target - 0.05 /\ 0 < pv /\
    (0 < dv \/ fully_held (dividend_data m) (symbols (positions st)) = true))) ->
  exists dv' gv' pv' st',
    rebalance_phase m d mc target dv gv pv (alloc dv pv) st
    = (Ok (dv', gv', pv'), st') /\
    rebalancing_events st' <> rebalancing_events st /\
    forall mc',
      rebalance_phase m d mc' target dv' gv' pv' (alloc dv' pv') st'
      = (Ok (dv', gv', pv'), st').
Proof.
  intros Hd Hcd Hcg Hval Ht Hband.
  destruct (trade_reaches_target m d mc target dv gv pv st Hd Hcd Hcg Hval Ht
              Hband) as (dv' & gv' & pv' & st' & Hrun & Hlog & Ha).
  exists dv', gv', pv', st'. split; [exact Hrun|]. split; [exact Hlog|].
  intros mc'. apply rebalance_phase_hold; apply Qltb_false; lra.
Qed.

(** The witness of X16: the sale that brings 77 percent back to 70
    percent is not followed by a second trade. *)
Lemma rebalance_again_changes_nothing_witness :
  exists dv' gv' pv' st',
    rebalance_phase drift_market "2014-01-03" "sideways" 0.70 77000 23000
      100000 (alloc 77000 100000) drift_state
    = (Ok (dv', gv', pv'), st') /\
    rebalancing_events st' <> rebalancing_events drift_state /\
    forall mc',
      rebalance_phase drift_market "2014-01-03" mc' 0.70 dv' gv' pv'
        (alloc dv' pv') st'
      = (Ok (dv', gv', pv'), st').
Proof.
  apply (rebalance_again_changes_nothing drift_market "2014-01-03"
           "sideways" 0.70 77000 23000 100000 drift_state).
  - reflexivity.
  - reflexivity.
  - reflexivity.
  - vm_compute. reflexivity.
  - vm_compute. discriminate.
  - left. vm_compute. reflexivity.
Defined.

(** ** The displayed regime shares *)

Lemma percentages_from_runs (counts items : list (string * nat)) :
  counted_dates counts <> 0%nat ->
  exists shares,
    percentages_from counts items = Ok shares /\
    sum shares
    == inject_Z (Z.of_nat (counted_dates items))
       / inject_Z (Z.of_nat (counted_dates counts)) * 100.
Proof.
  intros Hne.
  assert (Hnz : ~ inject_Z (Z.of_nat (counted_dates counts)) == 0).
  { intros H. apply Hne. unfold Qeq in H. simpl in H. lia. }
  induction items as [|[condition count] items IH]; simpl.
  - exists []. split; [reflexivity|]. unfold sum. simpl. field. exact Hnz.
  - destruct IH as (shares & -> & Hsum).
    unfold percentage. rewrite (fdiv_ok _ _ Hnz). simpl.
    eexists. split; [reflexivity|].
    unfold sum in *. simpl. rewrite sum_acc. unfold sum. rewrite Hsum.
    rewrite Nat2Z.inj_add, inject_Z_plus. field. exact Hnz.
Qed.

(** X17.  For the regime counts of a walk that labelled at least one
    date, the percentages the report computes never divide by zero and
    add up to 100. *)
Theorem displayed_percentages_add_up (conditions : list string) :
  conditions <> [] ->
  exists shares,
    percentages (market_condition_counts conditions) = Ok shares /\
    List.length shares = List.length (market_condition_counts conditions) /\
    sum shares == 100.
Proof.
  intros Hne. set (counts := market_condition_counts conditions).
  assert (Htotal : counted_dates counts = List.length conditions)
    by apply market_condition_counts_total.
  assert (Hpos : counted_dates counts <> 0%nat).
  { rewrite Htotal. destruct conditions; [congruence | discriminate]. }
  destruct (percentages_from_runs counts counts Hpos) as (shares & Hrun & Hsum).
  exists shares. split; [exact Hrun|]. split.
  - clear - Hrun. unfold percentages in Hrun.
    generalize dependent shares. generalize counts at 2 3 as items.
    induction items as [|[c n] items IH]; intros shares; simpl.
    + now intros [= <-].
    + destruct (percentage counts n); [|discriminate]. simpl.
      destruct (percentages_from counts items) as [ps|]; [|discriminate].
      simpl. intros [= <-]. simpl. f_equal. now apply IH.
  - rewrite Hsum. field. intros H. apply Hpos.
    unfold Qeq in H. simpl in H. lia.
Qed.

(** The witness of X17: two bull dates and one bear date are reported as
    two thirds and one third of the dates. *)
Lemma displayed_percentages_add_up_witness :
  exists shares,
    percentages (market_condition_counts ["bull"; "bear"; "bull"])
    = Ok shares /\
    List.length shares
    = List.length (market_condition_counts ["bull"; "bear"; "bull"]) /\
    sum shares == 100.
Proof.
  apply (displayed_percentages_add_up ["bull"; "bear"; "bull"]).
  discriminate.
Defined.

(** ** Where a division by zero can be raised *)

Lemma reinvest_body_raises (m : market) (d : date) (sym : symbol)
  (p : position) (c : Q) (e : exn) :
  reinvest_body m d sym p c = Raise e -> e = KeyError.
Proof.
  unfold reinvest_body.
  destruct (String.eqb (category p) "dividend_aristocrat"
            && contains sym (dividend_dividends m)); [|discriminate].
  unfold getitem, loc_close, getitem.
  destruct (dict_get sym (dividend_dividends m)) as [dividends|]; simpl;
    [|now intros [= <-]].
  destruct (dict_get d dividends) as [amount|]; [|discriminate].
  destruct (dict_get sym (dividend_data m)) as [df|]; simpl;
    [|now intros [= <-]].
  destruct (dict_get d df) as [price|]; simpl; [|now intros [= <-]].
  unfold npdiv. destruct (Qeq_bool price 0); discriminate.
Qed.

Lemma value_loop_raises (m : market) (d : date) (ps : positions_t) :
  forall dv gv pv s, value_loop m d ps dv gv pv = Stop s -> s = Exn KeyError.
Proof.
  induction ps as [|[sym p] ps IH]; intros dv gv pv s; simpl; [discriminate|].
  unfold getitem, loc_close, getitem.
  destruct (contains sym (dividend_data m)).
  - destruct (dict_get sym (dividend_data m)) as [df|]; simpl;
      [|now intros [= <-]].
    destruct (dict_get d df) as [price|]; simpl; [apply IH | now intros [= <-]].
  - destruct (contains sym (growth_data m)); [|apply IH].
    destruct (dict_get sym (growth_data m)) as [df|]; simpl;
      [|now intros [= <-]].
    destruct (dict_get d df) as [price|]; simpl; [apply IH | now intros [= <-]].
Qed.

(** X18.  A date is lost to a division by zero in the rebalancing phase
    only.  The reinvestment of a dividend at a zero close and the
    benchmark ratio over a zero first close are numpy divisions, which
    do not raise, and valuation does not divide: when a date raises
    [ZeroDivisionError], reinvestment and valuation have completed, the
    regime is appended, and the exception comes out of the trade or of
    its event, which leave the state the date ends in. *)
Theorem zero_division_comes_from_the_rebalancing_phase (m : market)
  (d : date) (st : state) :
  fst (process_date m d st) = Raise ZeroDivisionError ->
  let mc := detect_market_condition d (spy_data m) market_lookback_days
              market_threshold in
  exists st1 v st2,
    reinvest_dividends m d st = (Ok tt, st1) /\
    value_by_sleeve m d st1 = (Ok v, st1) /\
    rebalance_phase m d (fst mc) (snd mc) (fst (fst v)) (snd (fst v)) (snd v)
      (alloc (fst (fst v)) (snd v)) (add_regime st1 (fst mc) (snd mc))
    = (Raise ZeroDivisionError, st2) /\
    snd (process_date m d st) = st2.
Proof.
  intros H mc. unfold process_date in *.
  destruct (reinvest_dividends m d st) as [[[]|s1] st1] eqn:E1.
  2:{ exfalso.
      rewrite (bind_stop (reinvest_dividends m d) _ st st1 s1 E1) in H.
      simpl in H. injection H as ->.
      assert (Hr : raises_only KeyError (reinvest_dividends m d)).
      { apply for_positions_raises. intros sym p c e.
        apply reinvest_body_raises. }
      specialize (Hr st ZeroDivisionError). rewrite E1 in Hr.
      specialize (Hr eq_refl). discriminate. }
  rewrite (bind_ok (reinvest_dividends m d) _ st st1 tt E1) in H |- *.
  cbv beta in H |- *.
  destruct (value_by_sleeve m d st1) as [[v|s1] st1'] eqn:E2.
  2:{ exfalso.
      rewrite (bind_stop (value_by_sleeve m d) _ st1 st1' s1 E2) in H.
      simpl in H. injection H as ->.
      unfold value_by_sleeve in E2. injection E2 as E2 _.
      apply value_loop_raises in E2. discriminate. }
  assert (st1' = st1) by (unfold value_by_sleeve in E2; now injection E2).
  subst st1'.
  rewrite (bind_ok (value_by_sleeve m d) _ st1 st1 v E2) in H |- *.
  cbv beta zeta in H |- *. unfold enable_dynamic_rebalancing in H |- *.
  cbv iota in H |- *. fold mc in H |- *.
  set (st2 := add_regime st1 (fst mc) (snd mc)) in *.
  destruct (rebalance_phase m d (fst mc) (snd mc) (fst (fst v)) (snd (fst v))
              (snd v) (alloc (fst (fst v)) (snd v)) st2) as [[v'|s1] st3] eqn:E3.
  - exfalso.
    rewrite (bind_ok _ _ st1 st3 v') in H
      by (rewrite (bind_ok _ _ st1 st2 tt) by reflexivity; exact E3).
    unfold bind, lift, modify, loc_close, getitem, iloc_close, npdiv in H.
    destruct (dict_get d (spy_data m)); [|discriminate].
    destruct (nth_error (spy_data m) 0) as [[d0 f]|]; [|discriminate].
    destruct (Qeq_bool f 0); discriminate.
  - assert (Hrun : bind (bind (modify (fun st => add_regime st (fst mc) (snd mc)))
                          (fun _ => rebalance_phase m d (fst mc) (snd mc)
                                      (fst (fst v)) (snd (fst v)) (snd v)
                                      (alloc (fst (fst v)) (snd v))))
                     (fun v' =>
                        bind (lift (loc_close (spy_data m) d))
                          (fun spy_price =>
                             bind (lift (iloc_close (spy_data m) 0))
                               (fun spy_first =>
                                  bind (lift (npdiv spy_price spy_first))
                                    (fun ratio =>
                                       modify (fun st =>
                                         add_snapshot st d (snd v')
                                           (initial_capital * ratio)
                                           (fst (fst v')) (snd (fst v')))))))
                     st1 = (Stop s1, st3)).
    { apply bind_stop. rewrite (bind_ok _ _ st1 st2 tt) by reflexivity.
      exact E3. }
    rewrite Hrun in H |- *. simpl in H. injection H as ->.
    exists st1, v, st3. split; [reflexivity|]. split; [exact E2|].
    split; [exact E3 | reflexivity].
Qed.

(** The witness of X18: the date on which a growth stock closes at zero
    raises in the purchase leg of the sale of dividend stock. *)
Lemma zero_division_comes_from_the_rebalancing_phase_witness :
  exists st1 v st2,
    reinvest_dividends zero_close_market "2014-01-03" zero_close_state
    = (Ok tt, st1) /\
    value_by_sleeve zero_close_market "2014-01-03" st1 = (Ok v, st1) /\
    snd (process_date zero_close_market "2014-01-03" zero_close_state) = st2 /\
    cash st2 == 31500.
Proof.
  destruct (zero_division_comes_from_the_rebalancing_phase zero_close_market
              "2014-01-03" zero_close_state)
    as (st1 & v & st2 & E1 & E2 & _ & Hst).
  - vm_compute. reflexivity.
  - exists st1, v, st2. split; [exact E1|]. split; [exact E2|].
    split; [exact Hst|]. rewrite <- Hst. vm_compute. reflexivity.
Defined.

(** ** Walks that stay finite *)












